(** * n8n MCP stub servers: the stdio server and its HTTP variant

    A shallow embedding of the two JavaScript servers of the repository
    (the readline-driven stdio server and the Vercel HTTP handler) and
    of the fragment of the JavaScript runtime they rely on, followed by
    the properties of the specification stated against that embedding.

    Conventions of the embedding.
    - A JavaScript string is the Rocq string of its UTF-8 bytes, which
      are well formed (decoding the input makes them so); its length
      and its indices count UTF-16 code units, computed from the bytes.
      A lone surrogate, which only indexing a string produces, is
      written in the same three-byte form.
    - A number is a finite decimal [digits / 10^scale], kept in lowest
      scale; JSON texts only denote such numbers.  The embedding is
      exact for the decimals a binary double tells apart and holds: at
      most 15 significant digits and a magnitude within the range of
      normal doubles (from about 2.3e-308 to 1.7e308).  Rounding of
      other decimals to the nearest double and overflow to infinity are
      outside the embedding.
    - An object coming from [JSON.parse] is the list of its own
      properties in enumeration order; keys are pairwise distinct.
    - [console.log (JSON.stringify message)] is recorded as the message
      itself, one entry per printed line. *)

From Stdlib Require Import String Ascii List ZArith Bool DecimalString.
Import ListNotations.
Open Scope string_scope.

(** ** The JavaScript fragment *)
Module JS.

Record number := Num { digits : Z; scale : nat }.

#[local] Set Warnings "-register-all".

Inductive json :=
| JUndefined
| JNull
| JBool (b : bool)
| JNum (n : number)
| JStr (s : string)
| JArr (elements : list json)
| JObj (properties : list (string * json)).

(** The only exception the servers can raise is a [TypeError]; its message
    describes the failing operation and is not the engine's wording. *)
Inductive exn :=
| TypeError (message : string).

Inductive outcome (A : Type) :=
| Returned (a : A)
| Threw (e : exn).

Arguments Returned {A} a.
Arguments Threw {A} e.

(** [error.message]. *)
Definition message_of (e : exn) : string :=
  match e with
  | TypeError message => message
  end.

Definition bind {A B : Type} (c : outcome A) (k : A -> outcome B) : outcome B :=
  match c with
  | Returned a => k a
  | Threw e => Threw e
  end.

(** *** Characters and strings *)

Definition dquote : string := String (ascii_of_nat 34) "".
Definition backslash : string := String (ascii_of_nat 92) "".
Definition newline : string := String (ascii_of_nat 10) "".

Definition bytes (l : list nat) : string :=
  string_of_list_ascii (map ascii_of_nat l).

Definition nat_string (n : nat) : string :=
  NilZero.string_of_uint (Nat.to_uint n).

Fixpoint string_rev (s : string) : string :=
  match s with
  | EmptyString => EmptyString
  | String c rest => string_rev rest ++ String c EmptyString
  end.

Fixpoint string_drop (n : nat) (s : string) : string :=
  match n, s with
  | O, _ => s
  | S n', EmptyString => EmptyString
  | S n', String _ rest => string_drop n' rest
  end.

(** [s1.startsWith(s2)]. *)
Definition startsWith (s1 s2 : string) : bool := String.prefix s2 s1.

(** [s.slice(n)] for a non-negative [n] that falls on a character boundary. *)
Definition slice (s : string) (n : nat) : string := string_drop n s.

(** [hay.includes(needle)]. *)
Fixpoint includes (hay needle : string) : bool :=
  String.prefix needle hay ||
  match hay with
  | EmptyString => false
  | String _ rest => includes rest needle
  end.

(** [s.toLowerCase()] as far as the servers observe it.  ASCII capitals are
    mapped to their small letters and the Kelvin sign U+212A to [k], the only
    other character whose lower case is ASCII.  Every other character is left
    as it is: its lower case is not ASCII either, and the servers only test
    the result for inclusion in lower-cased ASCII node names. *)
Definition lower_ascii (c : ascii) : ascii :=
  let n := nat_of_ascii c in
  if (65 <=? n)%nat && (n <=? 90)%nat then ascii_of_nat (n + 32) else c.

Definition kelvin : string := bytes [226; 132; 170].

Fixpoint toLowerCase (s : string) : string :=
  match s with
  | EmptyString => EmptyString
  | String c rest =>
      if String.prefix kelvin s
      then match rest with
           | String _ (String _ rest') => String "k" (toLowerCase rest')
           | _ => String (lower_ascii c) (toLowerCase rest)
           end
      else String (lower_ascii c) (toLowerCase rest)
  end.

(** White space and line terminators stripped by [trim], as UTF-8. *)
Definition whitespace : list string :=
  [ bytes [9]; bytes [10]; bytes [11]; bytes [12]; bytes [13]; bytes [32];
    bytes [194; 160]; bytes [225; 154; 128];
    bytes [226; 128; 128]; bytes [226; 128; 129]; bytes [226; 128; 130];
    bytes [226; 128; 131]; bytes [226; 128; 132]; bytes [226; 128; 133];
    bytes [226; 128; 134]; bytes [226; 128; 135]; bytes [226; 128; 136];
    bytes [226; 128; 137]; bytes [226; 128; 138];
    bytes [226; 128; 168]; bytes [226; 128; 169]; bytes [226; 128; 175];
    bytes [226; 129; 159]; bytes [227; 128; 128]; bytes [239; 187; 191] ].

Definition leading (ws : list string) (s : string) : option nat :=
  option_map String.length (find (fun w => String.prefix w s) ws).

Fixpoint strip (fuel : nat) (ws : list string) (s : string) : string :=
  match fuel with
  | O => s
  | S fuel' =>
      match leading ws s with
      | Some n => strip fuel' ws (string_drop n s)
      | None => s
      end
  end.

Definition trimStart (s : string) : string :=
  strip (String.length s) whitespace s.

Definition trimEnd (s : string) : string :=
  string_rev (strip (String.length s) (map string_rev whitespace) (string_rev s)).

Definition trim (s : string) : string := trimEnd (trimStart s).

(** [l.join(sep)] on an array of strings. *)
Definition join (sep : string) (l : list string) : string := String.concat sep l.

(** The characters of a string: every lead byte with the continuation bytes
    that follow it. *)
Definition continuation (c : ascii) : bool :=
  let n := nat_of_ascii c in (128 <=? n)%nat && (n <? 192)%nat.

Fixpoint characters (s : string) : list string :=
  match s with
  | EmptyString => []
  | String c rest =>
      match characters rest with
      | (String c' _ as first) :: others =>
          if continuation c' then String c first :: others
          else String c "" :: first :: others
      | _ => [String c ""]
      end
  end.

(** A surrogate code unit as the one-unit string that holds it. *)
Definition surrogate (u : N) : string :=
  string_of_list_ascii
    (map ascii_of_N [224 + u / 4096; 128 + (u / 64) mod 64; 128 + u mod 64]%N).

(** The UTF-16 code units of a character, each as the string [s[i]] yields:
    the character itself, or its two surrogates when it lies outside the
    basic plane (four bytes). *)
Definition units_of (character : string) : list string :=
  match map N_of_ascii (list_ascii_of_string character) with
  | [b0; b1; b2; b3] =>
      if (240 <=? b0)%N
      then
        let point := ((b0 mod 8) * 262144 + (b1 mod 64) * 4096
                      + (b2 mod 64) * 64 + b3 mod 64)%N in
        let v := (point - 65536)%N in
        [surrogate (55296 + v / 1024); surrogate (56320 + v mod 1024)]
      else [character]
  | _ => [character]
  end.

Definition code_units (s : string) : list string :=
  flat_map units_of (characters s).

(** [s.length]. *)
Definition String_length (s : string) : nat := List.length (code_units s).

(** *** Numbers *)

Definition of_nat (n : nat) : number := Num (Z.of_nat n) 0.

Fixpoint zeros (n : nat) : string :=
  match n with
  | O => ""
  | S n' => "0" ++ zeros n'
  end.

Fixpoint string_take (n : nat) (s : string) : string :=
  match n, s with
  | S n', String c rest => String c (string_take n' rest)
  | _, _ => EmptyString
  end.

(** A digit string without the zeros it ends with. *)
Fixpoint significant (s : string) : string :=
  match s with
  | EmptyString => EmptyString
  | String c rest =>
      match significant rest with
      | EmptyString => if (c =? "0")%char then EmptyString else String c EmptyString
      | rest' => String c rest'
      end
  end.

Definition decimal (z : Z) : string := NilZero.string_of_int (Z.to_int z).

(** [Number.prototype.toString] in radix 10, laid out as [Number::toString]
    prescribes.  With [s] the significant digits of the number, [k] their
    count and [n] the number of digits before the decimal point:
    an integer below 10^21 prints its digits and the zeros that follow them,
    a number with its point among the digits prints the point there, a
    number from 10^-6 on prints [0.], the zeros and the digits, and every
    other number prints with an exponent. *)
Definition Number_toString (x : number) : string :=
  if (digits x =? 0)%Z then "0"
  else
    let all := decimal (Z.abs (digits x)) in
    let s := significant all in
    let k := String.length s in
    let n := (Z.of_nat (String.length all) - Z.of_nat (scale x))%Z in
    (if (digits x <? 0)%Z then "-" else "") ++
    (if (Z.of_nat k <=? n)%Z && (n <=? 21)%Z
     then s ++ zeros (Z.to_nat n - k)
     else if (0 <? n)%Z && (n <=? 21)%Z
     then string_take (Z.to_nat n) s ++ "." ++ string_drop (Z.to_nat n) s
     else if (-6 <? n)%Z && (n <=? 0)%Z
     then "0." ++ zeros (Z.to_nat (- n)) ++ s
     else
       let e := (n - 1)%Z in
       (if (k =? 1)%nat then s else string_take 1 s ++ "." ++ string_drop 1 s) ++
       "e" ++ (if (e <? 0)%Z then "-" else "+") ++ decimal (Z.abs e)).

(** *** Values *)

(** [ToBoolean]. *)
Definition truthy (v : json) : bool :=
  match v with
  | JUndefined | JNull => false
  | JBool b => b
  | JNum n => negb (digits n =? 0)%Z
  | JStr s => negb (s =? "")
  | JArr _ | JObj _ => true
  end.

(** [a || b]. *)
Definition or_else (a b : json) : json := if truthy a then a else b.

Definition nullish (v : json) : bool :=
  match v with
  | JUndefined | JNull => true
  | _ => false
  end.

(** [typeof v === 'object']. *)
Definition typeof_object (v : json) : bool :=
  match v with
  | JNull | JArr _ | JObj _ => true
  | _ => false
  end.

Definition isArray (v : json) : bool :=
  match v with
  | JArr _ => true
  | _ => false
  end.

Fixpoint lookup {A : Type} (k : string) (fs : list (string * A)) : option A :=
  match fs with
  | [] => None
  | (k', v) :: rest => if k' =? k then Some v else lookup k rest
  end.

Definition own (k : string) (fs : list (string * json)) : json :=
  match lookup k fs with
  | Some v => v
  | None => JUndefined
  end.

(** [v?.k] for a property name [k] that no built-in prototype defines
    (every fixed name the servers read from request data, [length] apart). *)
Definition opt_get (v : json) (k : string) : json :=
  match v with
  | JObj fs => own k fs
  | _ => JUndefined
  end.

(** [v.k], and the destructuring [const { k } = v], for such a name. *)
Definition get (v : json) (k : string) : outcome json :=
  if nullish v
  then Threw (TypeError ("Cannot read property " ++ k ++ " of undefined or null"))
  else Returned (opt_get v k).

(** [v?.length]. *)
Definition opt_length (v : json) : json :=
  match v with
  | JArr l => JNum (of_nat (List.length l))
  | JStr s => JNum (of_nat (String_length s))
  | JObj fs => own "length" fs
  | _ => JUndefined
  end.

Fixpoint indexed {A : Type} (i : nat) (l : list A) : list (string * A) :=
  match l with
  | [] => []
  | x :: rest => (nat_string i, x) :: indexed (S i) rest
  end.

(** Own enumerable properties of a value.  A string has one property per
    UTF-16 code unit, the one-unit string at that index. *)
Definition own_entries (v : json) : list (string * json) :=
  match v with
  | JObj fs => fs
  | JArr l => indexed 0 l
  | JStr s => indexed 0 (map JStr (code_units s))
  | _ => []
  end.

Definition own_keys (v : json) : list string := map fst (own_entries v).

(** [v[k]] for [k] among [Object.keys(v)]. *)
Definition get_own (v : json) (k : string) : json := own k (own_entries v).

(** A built-in function (or, for [__proto__], the prototype object), seen
    through the property reads the servers perform on it: it is truthy, its
    [name] is as given, and every other property the servers read is
    [undefined]. *)
Definition builtin (name : string) : json := JObj [("name", JStr name)].

(** The properties every object literal inherits from [Object.prototype]. *)
Definition Object_prototype : list (string * json) :=
  [ ("constructor", builtin "Object");
    ("__defineGetter__", builtin "__defineGetter__");
    ("__defineSetter__", builtin "__defineSetter__");
    ("hasOwnProperty", builtin "hasOwnProperty");
    ("__lookupGetter__", builtin "__lookupGetter__");
    ("__lookupSetter__", builtin "__lookupSetter__");
    ("isPrototypeOf", builtin "isPrototypeOf");
    ("propertyIsEnumerable", builtin "propertyIsEnumerable");
    ("toString", builtin "toString");
    ("valueOf", builtin "valueOf");
    ("__proto__", JObj []);
    ("toLocaleString", builtin "toLocaleString") ].

(** [table[key]] on an object literal [table]: an own entry, else what the
    literal inherits under that name, else [undefined]. *)
Definition literal_get (table : json) (key : string) : json :=
  match table with
  | JObj fs =>
      match lookup key fs with
      | Some v => v
      | None => own key Object_prototype
      end
  | _ => JUndefined
  end.

Definition has_key (k : string) (fs : list (string * json)) : bool :=
  match lookup k fs with
  | Some _ => true
  | None => false
  end.

(** [ToString], as applied by template literals, by [+] with a string and
    by property-key conversion.  An object whose own [toString] property
    shadows the inherited method cannot be converted; an array is joined
    with commas, [null] and [undefined] elements giving the empty string. *)
Fixpoint ToString (v : json) : outcome string :=
  match v with
  | JUndefined => Returned "undefined"
  | JNull => Returned "null"
  | JBool true => Returned "true"
  | JBool false => Returned "false"
  | JNum n => Returned (Number_toString n)
  | JStr s => Returned s
  | JArr l =>
      (fix elements (l : list json) : outcome string :=
         match l with
         | [] => Returned ""
         | x :: rest =>
             bind (match x with
                   | JUndefined | JNull => Returned ""
                   | _ => ToString x
                   end)
                  (fun s =>
                     match rest with
                     | [] => Returned s
                     | _ :: _ => bind (elements rest) (fun r => Returned (s ++ "," ++ r))
                     end)
         end) l
  | JObj fs =>
      if has_key "toString" fs
      then Threw (TypeError "Cannot convert object to primitive value")
      else Returned "[object Object]"
  end.

(** [v.length], [Object.keys(v)]: both throw on [undefined] and [null]. *)
Definition get_length (v : json) : outcome json :=
  if nullish v
  then Threw (TypeError "Cannot read property length of undefined or null")
  else Returned (opt_length v).

Definition Object_keys (v : json) : outcome (list string) :=
  if nullish v
  then Threw (TypeError "Cannot convert undefined or null to object")
  else Returned (own_keys v).

Fixpoint mapM {A B : Type} (f : A -> outcome B) (l : list A) : outcome (list B) :=
  match l with
  | [] => Returned []
  | x :: rest => bind (f x) (fun y => bind (mapM f rest) (fun ys => Returned (y :: ys)))
  end.

(** [v.map(f)] and [v.join(sep)]; not functions unless [v] is an array. *)
Definition Array_map (v : json) (f : json -> outcome json) : outcome json :=
  match v with
  | JArr l => bind (mapM f l) (fun l' => Returned (JArr l'))
  | _ => Threw (TypeError "map is not a function")
  end.

Definition Array_join (v : json) (sep : string) : outcome string :=
  match v with
  | JArr l =>
      bind (mapM (fun x => match x with
                           | JUndefined | JNull => Returned ""
                           | _ => ToString x
                           end) l)
           (fun ss => Returned (join sep ss))
  | _ => Threw (TypeError "join is not a function")
  end.

(** *** [JSON.stringify (v, null, 2)] *)

Definition hex_digit (n : nat) : string :=
  String (nth n (list_ascii_of_string "0123456789abcdef") "0"%char) "".

Definition escape (c : ascii) : string :=
  let n := nat_of_ascii c in
  if (n =? 34)%nat then backslash ++ dquote
  else if (n =? 92)%nat then backslash ++ backslash
  else if (n =? 8)%nat then backslash ++ "b"
  else if (n =? 9)%nat then backslash ++ "t"
  else if (n =? 10)%nat then backslash ++ "n"
  else if (n =? 12)%nat then backslash ++ "f"
  else if (n =? 13)%nat then backslash ++ "r"
  else if (n <? 32)%nat then backslash ++ "u00" ++ hex_digit (n / 16) ++ hex_digit (n mod 16)
  else String c "".

Fixpoint escaped (s : string) : string :=
  match s with
  | EmptyString => EmptyString
  | String c rest => escape c ++ escaped rest
  end.

Definition QuoteJSONString (s : string) : string := dquote ++ escaped s ++ dquote.

Definition wrap (opening closing indent : string) (items : list string) : string :=
  match items with
  | [] => opening ++ closing
  | _ :: _ =>
      opening ++ newline ++ indent ++ "  " ++
      join ("," ++ newline ++ indent ++ "  ") items ++
      newline ++ indent ++ closing
  end.

(** Serialisation of a property value at the given indentation; an
    [undefined] array element prints as [null], an [undefined] property is
    left out. *)
Fixpoint stringify (indent : string) (v : json) : string :=
  match v with
  | JUndefined | JNull => "null"
  | JBool true => "true"
  | JBool false => "false"
  | JNum n => Number_toString n
  | JStr s => QuoteJSONString s
  | JArr l =>
      wrap "[" "]" indent
        ((fix items (l : list json) : list string :=
            match l with
            | [] => []
            | x :: rest => stringify (indent ++ "  ") x :: items rest
            end) l)
  | JObj fs =>
      wrap "{" "}" indent
        ((fix members (fs : list (string * json)) : list string :=
            match fs with
            | [] => []
            | (k, x) :: rest =>
                match x with
                | JUndefined => members rest
                | _ => (QuoteJSONString k ++ ": " ++ stringify (indent ++ "  ") x)
                       :: members rest
                end
            end) fs)
  end.

(** [JSON.stringify (v, null, 2)]: a string, or [undefined] for [undefined]. *)
Definition JSON_stringify (v : json) : json :=
  match v with
  | JUndefined => JUndefined
  | _ => JStr (stringify "" v)
  end.

Definition int (z : Z) : json := JNum (Num z 0).
Definition dec (z : Z) (s : nat) : json := JNum (Num z s).

(** [v === s] for a string literal [s]. *)
Definition is_string (v : json) (s : string) : bool :=
  match v with
  | JStr t => t =? s
  | _ => false
  end.

(** [v.length === n] for an array [v]. *)
Definition is_length (v : json) (n : nat) : bool :=
  match v with
  | JArr l => (List.length l =? n)%nat
  | _ => false
  end.

Definition is_undefined (v : json) : bool :=
  match v with
  | JUndefined => true
  | _ => false
  end.

End JS.

(** ** Effects

    Methods run in a state-and-exception monad: a method may change the
    state it runs in, and either returns or throws; what it changed before
    throwing stays changed. *)
Module Effect.
Import JS.

Definition M (S A : Type) : Type := S -> outcome A * S.

Definition ret {S A : Type} (a : A) : M S A := fun s => (Returned a, s).

Definition lift {S A : Type} (c : outcome A) : M S A := fun s => (c, s).

Definition mbind {S A B : Type} (c : M S A) (k : A -> M S B) : M S B :=
  fun s =>
    match c s with
    | (Returned a, s') => k a s'
    | (Threw e, s') => (Threw e, s')
    end.

Notation "x <- c ;; k" := (mbind c (fun x => k))
  (at level 61, c at next level, right associativity).
Notation "c ;;; k" := (mbind c (fun _ => k))
  (at level 61, right associativity).

End Effect.

(** ** The stdio server *)
Module Stdio.
Import JS Effect.

(** The server object, and the process around it: the lines written to
    standard output (one message each) and to standard error. *)
Record MCPServer := { tools : json }.

Record process := {
  this : MCPServer;
  stdout : list json;
  stderr : list string
}.

Definition this_tools : M process json := fun p => (Returned (tools (this p)), p).

Definition constructor_tools : json :=
  JArr
    [ JObj
        [ ("name", JStr "list_nodes");
          ("description", JStr "List available n8n nodes");
          ("inputSchema", JObj
            [ ("type", JStr "object");
              ("properties", JObj
                [ ("category", JObj
                    [ ("type", JStr "string");
                      ("description", JStr "Filter by node category") ]) ]) ]) ];
      JObj
        [ ("name", JStr "get_node_info");
          ("description", JStr "Get detailed information about a specific n8n node");
          ("inputSchema", JObj
            [ ("type", JStr "object");
              ("properties", JObj
                [ ("nodeName", JObj
                    [ ("type", JStr "string");
                      ("description", JStr "Name of the node to get information for") ]) ]);
              ("required", JArr [JStr "nodeName"]) ]) ];
      JObj
        [ ("name", JStr "search_nodes");
          ("description", JStr "Search for n8n nodes by keyword");
          ("inputSchema", JObj
            [ ("type", JStr "object");
              ("properties", JObj
                [ ("query", JObj
                    [ ("type", JStr "string");
                      ("description", JStr "Search query") ]) ]);
              ("required", JArr [JStr "query"]) ]) ];
      JObj
        [ ("name", JStr "get_node_documentation");
          ("description", JStr "Get detailed documentation for a specific n8n node");
          ("inputSchema", JObj
            [ ("type", JStr "object");
              ("properties", JObj
                [ ("nodeName", JObj
                    [ ("type", JStr "string");
                      ("description", JStr "Name of the node to get documentation for") ]) ]);
              ("required", JArr [JStr "nodeName"]) ]) ];
      JObj
        [ ("name", JStr "list_node_categories");
          ("description", JStr "List all available n8n node categories");
          ("inputSchema", JObj [("type", JStr "object"); ("properties", JObj [])]) ];
      JObj
        [ ("name", JStr "create_test_workflow");
          ("description", JStr "Create a test workflow for validation and testing");
          ("inputSchema", JObj
            [ ("type", JStr "object");
              ("properties", JObj
                [ ("workflowType", JObj
                    [ ("type", JStr "string");
                      ("description", JStr "Type of test workflow to create");
                      ("enum", JArr
                        [ JStr "webhook_to_slack";
                          JStr "manual_to_http";
                          JStr "schedule_to_email";
                          JStr "ai_agent";
                          JStr "data_processing" ]) ]);
                  ("customName", JObj
                    [ ("type", JStr "string");
                      ("description", JStr "Custom name for the workflow") ]) ]);
              ("required", JArr [JStr "workflowType"]) ]) ];
      JObj
        [ ("name", JStr "validate_workflow");
          ("description", JStr "Validate a workflow structure and configuration");
          ("inputSchema", JObj
            [ ("type", JStr "object");
              ("properties", JObj
                [ ("workflow", JObj
                    [ ("type", JStr "object");
                      ("description", JStr "Workflow object to validate") ]) ]);
              ("required", JArr [JStr "workflow"]) ]) ];
      JObj
        [ ("name", JStr "get_workflow_template");
          ("description", JStr "Get a pre-built workflow template");
          ("inputSchema", JObj
            [ ("type", JStr "object");
              ("properties", JObj
                [ ("templateName", JObj
                    [ ("type", JStr "string");
                      ("description", JStr "Name of the template to get");
                      ("enum", JArr
                        [ JStr "webhook_slack";
                          JStr "email_processor";
                          JStr "data_sync";
                          JStr "ai_chatbot";
                          JStr "file_processor" ]) ]) ]);
              ("required", JArr [JStr "templateName"]) ]) ] ].

Definition constructor : MCPServer := {| tools := constructor_tools |}.

(** [sendMessage]: one line on standard output. *)
Definition sendMessage (message : json) : M process unit :=
  fun p => (Returned tt,
            {| this := this p; stdout := stdout p ++ [message]; stderr := stderr p |}).

(** The two message shapes, [{ jsonrpc, error: { code, message }, id }] and
    [{ jsonrpc, result, id }], and the one-block [content] envelope. *)
Definition error_message (code : Z) (message : string) (id : json) : json :=
  JObj [ ("jsonrpc", JStr "2.0");
         ("error", JObj [("code", int code); ("message", JStr message)]);
         ("id", id) ].

Definition result_message (result id : json) : json :=
  JObj [ ("jsonrpc", JStr "2.0"); ("result", result); ("id", id) ].

Definition text_content (text : string) : json :=
  JObj [ ("content", JArr [JObj [("type", JStr "text"); ("text", JStr text)]]) ].

Definition handleInitialize (id : json) : M process unit :=
  sendMessage
    (result_message
       (JObj [ ("protocolVersion", JStr "2024-11-05");
               ("capabilities", JObj [("tools", JObj [])]);
               ("serverInfo", JObj [ ("name", JStr "n8n-mcp-server");
                                     ("version", JStr "2.7.20") ]) ])
       id).

Definition handleToolsList (id : json) : M process unit :=
  tools <- this_tools ;;
  sendMessage (result_message (JObj [("tools", tools)]) id).

Definition all_nodes : list string :=
  [ "HTTP Request"; "Function"; "If"; "Split In Batches"; "Webhook";
    "Airtable"; "Discord"; "Slack"; "Email"; "Cron"; "Manual Trigger";
    "Code"; "Set"; "Merge"; "Filter"; "Switch"; "Wait"; "Error Trigger";
    "Google Sheets"; "Notion"; "Zapier"; "Pipedrive"; "HubSpot";
    "Shopify"; "Stripe"; "GitHub"; "GitLab"; "Jira"; "Trello";
    "Asana"; "Monday.com"; "ClickUp"; "Linear"; "Figma"; "Canva" ].

(** [names.filter(node => node.toLowerCase().includes(needle.toLowerCase()))];
    [toLowerCase] is not a function unless [needle] is a string. *)
Definition filter_nodes (names : list string) (needle : json) : outcome (list string) :=
  match needle with
  | JStr s => Returned (filter (fun node => includes (toLowerCase node) (toLowerCase s)) names)
  | _ => Threw (TypeError "toLowerCase is not a function")
  end.

Definition handleListNodes (args id : json) : M process unit :=
  let category := opt_get args "category" in
  let nodes := all_nodes in
  nodes <- (if truthy category then lift (filter_nodes nodes category) else ret nodes) ;;
  suffix <- (if truthy category
             then c <- lift (ToString category) ;;
                  ret (" in category " ++ dquote ++ c ++ dquote)
             else ret "") ;;
  sendMessage
    (result_message
       (text_content
          ("Available n8n nodes" ++ suffix ++ ":" ++ newline ++ newline ++
           join ", " nodes ++ newline ++ newline ++
           "Total: " ++ nat_string (List.length nodes) ++ " nodes"))
       id).

Definition nodeInfo : json :=
  JObj
    [ ("HTTP Request", JObj
        [ ("description", JStr "Make HTTP requests to external APIs and services");
          ("category", JStr "Core");
          ("properties", JArr [JStr "URL"; JStr "Method"; JStr "Headers"; JStr "Body"; JStr "Authentication"]);
          ("examples", JArr [JStr "GET API data"; JStr "POST form data"; JStr "PUT update resource"]) ]);
      ("Function", JObj
        [ ("description", JStr "Execute custom JavaScript code to transform data");
          ("category", JStr "Core");
          ("properties", JArr [JStr "Code"; JStr "Input Data"; JStr "Output Format"]);
          ("examples", JArr [JStr "Data transformation"; JStr "Custom logic"; JStr "Data validation"]) ]);
      ("If", JObj
        [ ("description", JStr "Conditionally route workflow execution based on conditions");
          ("category", JStr "Flow Control");
          ("properties", JArr [JStr "Conditions"; JStr "True Path"; JStr "False Path"]);
          ("examples", JArr [JStr "Data filtering"; JStr "Error handling"; JStr "Branching logic"]) ]) ].

Definition generic_info : json :=
  JObj
    [ ("description", JStr "A powerful n8n node for workflow automation");
      ("category", JStr "General");
      ("properties", JArr [JStr "Various configuration options"]);
      ("examples", JArr [JStr "Workflow automation"; JStr "Data processing"; JStr "Integration"]) ].

Definition handleGetNodeInfo (args id : json) : M process unit :=
  let nodeName := or_else (opt_get args "nodeName") (JStr "HTTP Request") in
  key <- lift (ToString nodeName) ;;
  let info := or_else (literal_get nodeInfo key) generic_info in
  name <- lift (ToString nodeName) ;;
  description <- lift (ToString (opt_get info "description")) ;;
  category <- lift (ToString (opt_get info "category")) ;;
  properties <- lift (Array_join (opt_get info "properties") ", ") ;;
  examples <- lift (Array_join (opt_get info "examples") ", ") ;;
  sendMessage
    (result_message
       (text_content
          ("**" ++ name ++ " Node**" ++ newline ++ newline ++
           "**Description:** " ++ description ++ newline ++
           "**Category:** " ++ category ++ newline ++
           "**Key Properties:** " ++ properties ++ newline ++
           "**Common Use Cases:** " ++ examples))
       id).

Definition handleSearchNodes (args id : json) : M process unit :=
  let query := or_else (opt_get args "query") (JStr "") in
  let allNodes := all_nodes in
  matchingNodes <- lift (filter_nodes allNodes query) ;;
  q <- lift (ToString query) ;;
  sendMessage
    (result_message
       (text_content
          ("Search results for " ++ dquote ++ q ++ dquote ++ ":" ++ newline ++ newline ++
           (if (0 <? List.length matchingNodes)%nat
            then join ", " matchingNodes
            else "No nodes found") ++ newline ++ newline ++
           "Found " ++ nat_string (List.length matchingNodes) ++ " matching nodes."))
       id).

Definition documentation : json :=
  JObj
    [ ("HTTP Request", JObj
        [ ("title", JStr "HTTP Request Node Documentation");
          ("description", JStr "The HTTP Request node allows you to make HTTP requests to external APIs and services.");
          ("parameters", JArr
            [ JStr "URL: The endpoint URL to send the request to";
              JStr "Method: HTTP method (GET, POST, PUT, DELETE, etc.)";
              JStr "Headers: Custom headers to include in the request";
              JStr "Body: Request body for POST/PUT requests";
              JStr "Authentication: API keys, OAuth, or basic auth" ]);
          ("examples", JArr
            [ JStr "GET: Fetch data from a REST API";
              JStr "POST: Send data to create a new resource";
              JStr "PUT: Update an existing resource";
              JStr "DELETE: Remove a resource" ]) ]) ].

Definition bullet (x : json) : outcome json :=
  bind (ToString x) (fun s => Returned (JStr ("- " ++ s))).

Definition handleGetNodeDocumentation (args id : json) : M process unit :=
  let nodeName := or_else (opt_get args "nodeName") (JStr "HTTP Request") in
  key <- lift (ToString nodeName) ;;
  found <- ret (literal_get documentation key) ;;
  doc <- (if truthy found then ret found
          else name <- lift (ToString nodeName) ;;
               ret (JObj
                      [ ("title", JStr (name ++ " Node Documentation"));
                        ("description", JStr "Comprehensive documentation for this n8n node.");
                        ("parameters", JArr [JStr "Various configuration parameters available"]);
                        ("examples", JArr [JStr "Multiple use cases and examples available"]) ])) ;;
  title <- lift (ToString (opt_get doc "title")) ;;
  description <- lift (ToString (opt_get doc "description")) ;;
  parameters <- lift (bind (Array_map (opt_get doc "parameters") bullet)
                           (fun a => Array_join a newline)) ;;
  examples <- lift (bind (Array_map (opt_get doc "examples") bullet)
                         (fun a => Array_join a newline)) ;;
  sendMessage
    (result_message
       (text_content
          ("# " ++ title ++ newline ++ newline ++ description ++ newline ++ newline ++
           "## Parameters" ++ newline ++ parameters ++ newline ++ newline ++
           "## Examples" ++ newline ++ examples))
       id).

Definition categories : list string :=
  [ "Core"; "Flow Control"; "Communication"; "Data"; "Files";
    "CRM"; "Marketing"; "E-commerce"; "Development"; "Productivity";
    "Social Media"; "Analytics"; "Finance"; "Design"; "Project Management" ].

Definition handleListNodeCategories (id : json) : M process unit :=
  sendMessage
    (result_message
       (text_content
          ("Available n8n node categories:" ++ newline ++ newline ++
           join ", " categories ++ newline ++ newline ++
           "Total: " ++ nat_string (List.length categories) ++ " categories"))
       id).

Definition handleResourcesList (id : json) : M process unit :=
  sendMessage (result_message (JObj [("resources", JArr [])]) id).

Definition handlePromptsList (id : json) : M process unit :=
  sendMessage (result_message (JObj [("prompts", JArr [])]) id).

Definition workflows (customName : json) : json :=
  JObj
    [ ("webhook_to_slack", JObj
        [ ("name", customName);
          ("nodes", JArr
            [ JObj
                [ ("id", JStr "webhook_1");
                  ("name", JStr "Webhook");
                  ("type", JStr "n8n-nodes-base.webhook");
                  ("typeVersion", int 1);
                  ("position", JArr [int 250; int 300]);
                  ("parameters", JObj
                    [ ("httpMethod", JStr "POST");
                      ("path", JStr "test-webhook");
                      ("responseMode", JStr "responseNode") ]) ];
              JObj
                [ ("id", JStr "slack_1");
                  ("name", JStr "Slack");
                  ("type", JStr "n8n-nodes-base.slack");
                  ("typeVersion", int 1);
                  ("position", JArr [int 450; int 300]);
                  ("parameters", JObj
                    [ ("resource", JStr "message");
                      ("operation", JStr "post");
                      ("channel", JStr "#general");
                      ("text", JStr ("=Test message from n8n workflow: {{$json.message || " ++ dquote ++ "Hello from webhook!" ++ dquote ++ "}}")) ]) ];
              JObj
                [ ("id", JStr "respond_1");
                  ("name", JStr "Respond to Webhook");
                  ("type", JStr "n8n-nodes-base.respondToWebhook");
                  ("typeVersion", int 1);
                  ("position", JArr [int 650; int 300]);
                  ("parameters", JObj
                    [ ("responseCode", int 200);
                      ("responseData", JStr "json");
                      ("responseBody", JStr ("={" ++ dquote ++ "status" ++ dquote ++ ": " ++ dquote ++ "success" ++ dquote ++ ", " ++ dquote ++ "message" ++ dquote ++ ": " ++ dquote ++ "Workflow executed successfully" ++ dquote ++ "}")) ]) ] ]);
          ("connections", JObj
            [ ("Webhook", JObj
                [ ("main", JArr
                    [ JArr
                        [ JObj
                            [ ("node", JStr "Slack");
                              ("type", JStr "main");
                              ("index", int 0) ] ] ]) ]);
              ("Slack", JObj
                [ ("main", JArr
                    [ JArr
                        [ JObj
                            [ ("node", JStr "Respond to Webhook");
                              ("type", JStr "main");
                              ("index", int 0) ] ] ]) ]) ]) ]);
      ("manual_to_http", JObj
        [ ("name", customName);
          ("nodes", JArr
            [ JObj
                [ ("id", JStr "manual_1");
                  ("name", JStr "Manual Trigger");
                  ("type", JStr "n8n-nodes-base.manualTrigger");
                  ("typeVersion", int 1);
                  ("position", JArr [int 250; int 300]);
                  ("parameters", JObj []) ];
              JObj
                [ ("id", JStr "http_1");
                  ("name", JStr "HTTP Request");
                  ("type", JStr "n8n-nodes-base.httpRequest");
                  ("typeVersion", dec 42 1);
                  ("position", JArr [int 450; int 300]);
                  ("parameters", JObj
                    [ ("method", JStr "GET");
                      ("url", JStr "https://httpbin.org/json");
                      ("responseFormat", JStr "json") ]) ];
              JObj
                [ ("id", JStr "set_1");
                  ("name", JStr "Set");
                  ("type", JStr "n8n-nodes-base.set");
                  ("typeVersion", dec 34 1);
                  ("position", JArr [int 650; int 300]);
                  ("parameters", JObj
                    [ ("values", JObj
                        [ ("string", JArr
                            [ JObj
                                [ ("name", JStr "processed_at");
                                  ("value", JStr "={{ new Date().toISOString() }}") ];
                              JObj
                                [ ("name", JStr "status");
                                  ("value", JStr "completed") ] ]) ]) ]) ] ]);
          ("connections", JObj
            [ ("Manual Trigger", JObj
                [ ("main", JArr
                    [ JArr
                        [ JObj
                            [ ("node", JStr "HTTP Request");
                              ("type", JStr "main");
                              ("index", int 0) ] ] ]) ]);
              ("HTTP Request", JObj
                [ ("main", JArr
                    [ JArr
                        [ JObj
                            [ ("node", JStr "Set");
                              ("type", JStr "main");
                              ("index", int 0) ] ] ]) ]) ]) ]);
      ("schedule_to_email", JObj
        [ ("name", customName);
          ("nodes", JArr
            [ JObj
                [ ("id", JStr "schedule_1");
                  ("name", JStr "Schedule Trigger");
                  ("type", JStr "n8n-nodes-base.scheduleTrigger");
                  ("typeVersion", int 1);
                  ("position", JArr [int 250; int 300]);
                  ("parameters", JObj
                    [ ("rule", JObj
                        [ ("interval", JArr
                            [ JObj
                                [ ("field", JStr "minute");
                                  ("value", int 30) ] ]) ]) ]) ];
              JObj
                [ ("id", JStr "email_1");
                  ("name", JStr "Email");
                  ("type", JStr "n8n-nodes-base.emailSend");
                  ("typeVersion", int 2);
                  ("position", JArr [int 450; int 300]);
                  ("parameters", JObj
                    [ ("toEmail", JStr "test@example.com");
                      ("subject", JStr "Scheduled Test Email");
                      ("message", JStr "This is a test email sent by n8n workflow at {{ new Date().toISOString() }}") ]) ] ]);
          ("connections", JObj
            [ ("Schedule Trigger", JObj
                [ ("main", JArr
                    [ JArr
                        [ JObj
                            [ ("node", JStr "Email");
                              ("type", JStr "main");
                              ("index", int 0) ] ] ]) ]) ]) ]);
      ("ai_agent", JObj
        [ ("name", customName);
          ("nodes", JArr
            [ JObj
                [ ("id", JStr "webhook_1");
                  ("name", JStr "Webhook");
                  ("type", JStr "n8n-nodes-base.webhook");
                  ("typeVersion", int 1);
                  ("position", JArr [int 250; int 300]);
                  ("parameters", JObj
                    [ ("httpMethod", JStr "POST");
                      ("path", JStr "ai-chat");
                      ("responseMode", JStr "responseNode") ]) ];
              JObj
                [ ("id", JStr "ai_1");
                  ("name", JStr "AI Agent");
                  ("type", JStr "@n8n/n8n-nodes-langchain.agent");
                  ("typeVersion", int 1);
                  ("position", JArr [int 450; int 300]);
                  ("parameters", JObj
                    [ ("text", JStr "={{ $json.query }}");
                      ("systemMessage", JStr "You are a helpful AI assistant. Answer questions clearly and concisely.") ]) ];
              JObj
                [ ("id", JStr "respond_1");
                  ("name", JStr "Respond to Webhook");
                  ("type", JStr "n8n-nodes-base.respondToWebhook");
                  ("typeVersion", int 1);
                  ("position", JArr [int 650; int 300]);
                  ("parameters", JObj
                    [ ("responseCode", int 200);
                      ("responseData", JStr "json");
                      ("responseBody", JStr ("={" ++ dquote ++ "response" ++ dquote ++ ": " ++ dquote ++ "{{ $json.text }}" ++ dquote ++ "}")) ]) ] ]);
          ("connections", JObj
            [ ("Webhook", JObj
                [ ("main", JArr
                    [ JArr
                        [ JObj
                            [ ("node", JStr "AI Agent");
                              ("type", JStr "main");
                              ("index", int 0) ] ] ]) ]);
              ("AI Agent", JObj
                [ ("main", JArr
                    [ JArr
                        [ JObj
                            [ ("node", JStr "Respond to Webhook");
                              ("type", JStr "main");
                              ("index", int 0) ] ] ]) ]) ]) ]);
      ("data_processing", JObj
        [ ("name", customName);
          ("nodes", JArr
            [ JObj
                [ ("id", JStr "manual_1");
                  ("name", JStr "Manual Trigger");
                  ("type", JStr "n8n-nodes-base.manualTrigger");
                  ("typeVersion", int 1);
                  ("position", JArr [int 250; int 300]);
                  ("parameters", JObj []) ];
              JObj
                [ ("id", JStr "code_1");
                  ("name", JStr "Code");
                  ("type", JStr "n8n-nodes-base.code");
                  ("typeVersion", int 2);
                  ("position", JArr [int 450; int 300]);
                  ("parameters", JObj
                    [ ("jsCode", JStr ("// Generate sample data" ++ newline ++ "const data = [];" ++ newline ++ "for (let i = 0; i < 5; i++) {" ++ newline ++ "  data.push({" ++ newline ++ "    id: i + 1," ++ newline ++ "    name: 'Item ' + (i + 1)," ++ newline ++ "    value: Math.random() * 100," ++ newline ++ "    timestamp: new Date().toISOString()" ++ newline ++ "  });" ++ newline ++ "}" ++ newline ++ "return data;")) ]) ];
              JObj
                [ ("id", JStr "filter_1");
                  ("name", JStr "Filter");
                  ("type", JStr "n8n-nodes-base.if");
                  ("typeVersion", int 2);
                  ("position", JArr [int 650; int 300]);
                  ("parameters", JObj
                    [ ("conditions", JObj
                        [ ("number", JArr
                            [ JObj
                                [ ("value1", JStr "={{ $json.value }}");
                                  ("operation", JStr "larger");
                                  ("value2", int 50) ] ]) ]) ]) ];
              JObj
                [ ("id", JStr "set_1");
                  ("name", JStr "Set");
                  ("type", JStr "n8n-nodes-base.set");
                  ("typeVersion", dec 34 1);
                  ("position", JArr [int 850; int 300]);
                  ("parameters", JObj
                    [ ("values", JObj
                        [ ("string", JArr
                            [ JObj
                                [ ("name", JStr "processed");
                                  ("value", JStr "true") ];
                              JObj
                                [ ("name", JStr "filtered_count");
                                  ("value", JStr "={{ $json.length }}") ] ]) ]) ]) ] ]);
          ("connections", JObj
            [ ("Manual Trigger", JObj
                [ ("main", JArr
                    [ JArr
                        [ JObj
                            [ ("node", JStr "Code");
                              ("type", JStr "main");
                              ("index", int 0) ] ] ]) ]);
              ("Code", JObj
                [ ("main", JArr
                    [ JArr
                        [ JObj
                            [ ("node", JStr "Filter");
                              ("type", JStr "main");
                              ("index", int 0) ] ] ]) ]);
              ("Filter", JObj
                [ ("main", JArr
                    [ JArr
                        [ JObj
                            [ ("node", JStr "Set");
                              ("type", JStr "main");
                              ("index", int 0) ] ] ]) ]) ]) ]) ].

Definition handleCreateTestWorkflow (args id : json) : M process unit :=
  let workflowType := or_else (opt_get args "workflowType") (JStr "webhook_to_slack") in
  customName <- (if truthy (opt_get args "customName")
                 then ret (opt_get args "customName")
                 else t <- lift (ToString workflowType) ;;
                      ret (JStr ("Test Workflow - " ++ t))) ;;
  key <- lift (ToString workflowType) ;;
  let workflow := literal_get (workflows customName) key in
  if negb (truthy workflow)
  then
    t <- lift (ToString workflowType) ;;
    sendMessage (error_message (-32602) ("Unknown workflow type: " ++ t) id)
  else
    name <- lift (ToString (opt_get workflow "name")) ;;
    t <- lift (ToString workflowType) ;;
    nodes <- lift (bind (get_length (opt_get workflow "nodes")) ToString) ;;
    connections <- lift (Object_keys (opt_get workflow "connections")) ;;
    json_text <- lift (ToString (JSON_stringify workflow)) ;;
    sendMessage
      (result_message
         (text_content
            ("âœ… Created test workflow: " ++ dquote ++ name ++ dquote ++ newline ++ newline ++
             "**Workflow Type:** " ++ t ++ newline ++
             "**Nodes:** " ++ nodes ++ newline ++
             "**Connections:** " ++ nat_string (List.length connections) ++ newline ++ newline ++
             "**Workflow JSON:**" ++ newline ++ "```json" ++ newline ++
             json_text ++ newline ++ "```" ++ newline ++ newline ++
             "**Testing Instructions:**" ++ newline ++
             "1. Copy the JSON above" ++ newline ++
             "2. Use validate_workflow to check for issues" ++ newline ++
             "3. Import into n8n instance" ++ newline ++
             "4. Test execution"))
         id).

(** *** [validate_workflow] *)

(** [errors.push(message)] when the condition holds. *)
Definition push_if (condition : bool) (message : string) (array : list string) : list string :=
  if condition then array ++ [message] else array.

(** The body of the [forEach] callback over [workflow.nodes]. *)
Definition check_node (node : json) (index : nat) (lists : list string * list string)
  : outcome (list string * list string) :=
  let '(errors, warnings) := lists in
  let label := "Node " ++ nat_string index in
  bind (get node "id") (fun id =>
  let errors := push_if (negb (truthy id)) (label ++ ": Missing ID") errors in
  bind (get node "name") (fun name =>
  let errors := push_if (negb (truthy name)) (label ++ ": Missing name") errors in
  bind (get node "type") (fun type =>
  let errors := push_if (negb (truthy type)) (label ++ ": Missing type") errors in
  bind (get node "position") (fun position =>
  let errors :=
    push_if (negb (truthy position) || negb (isArray position) ||
             negb (is_length position 2))
            (label ++ ": Invalid position (should be [x, y])") errors in
  bind (get node "typeVersion") (fun typeVersion =>
  let warnings :=
    push_if (negb (truthy typeVersion))
            (label ++ ": Missing typeVersion (recommended)") warnings in
  Returned (errors, warnings)))))).

Fixpoint forEach_node (nodes : list json) (index : nat) (lists : list string * list string)
  : outcome (list string * list string) :=
  match nodes with
  | [] => Returned lists
  | node :: rest =>
      bind (check_node node index lists) (forEach_node rest (S index))
  end.

(** The body of the [forEach] callback over [Object.keys(workflow.connections)]. *)
Definition check_connection (connections : json) (errors : list string) (sourceNode : string)
  : list string :=
  push_if (negb (typeof_object (get_own connections sourceNode)))
          ("Invalid connections for node: " ++ sourceNode) errors.

(** The checks of [handleValidateWorkflow] on a truthy [workflow], up to the
    final [errors] and [warnings] arrays. *)
Definition validate (workflow : json) : outcome (list string * list string) :=
  let errors := [] in
  let warnings := [] in
  let errors := push_if (negb (truthy (opt_get workflow "name"))) "Missing workflow name" errors in
  let nodes := opt_get workflow "nodes" in
  let errors := push_if (negb (truthy nodes) || negb (isArray nodes))
                        "Missing or invalid nodes array" errors in
  let connections := opt_get workflow "connections" in
  let errors := push_if (negb (truthy connections) || negb (typeof_object connections))
                        "Missing or invalid connections object" errors in
  bind (if truthy nodes
        then match nodes with
             | JArr l => forEach_node l 0 (errors, warnings)
             | _ => Threw (TypeError "workflow.nodes.forEach is not a function")
             end
        else Returned (errors, warnings))
       (fun '(errors, warnings) =>
  bind (if truthy connections
        then bind (Object_keys connections)
                  (fun keys => Returned (fold_left (check_connection connections) keys errors))
        else Returned errors)
       (fun errors =>
  Returned (errors, warnings))).

Definition status_of (errors : list string) : string :=
  if (List.length errors =? 0)%nat then "VALID" else "INVALID".

Definition summary_of (workflow : json) (errors warnings : list string) : json :=
  JObj
    [ ("status", JStr (status_of errors));
      ("errors", JNum (of_nat (List.length errors)));
      ("warnings", JNum (of_nat (List.length warnings)));
      ("nodes", or_else (opt_length (opt_get workflow "nodes")) (int 0));
      ("connections",
        JNum (of_nat (List.length
                        (own_keys (or_else (opt_get workflow "connections") (JObj []))))) ) ].

Definition report (summary : json) (errors warnings : list string) : string :=
  "## Workflow Validation Results" ++ newline ++ newline ++
  "**Status:** " ++ status_of errors ++ newline ++
  "**Summary:** " ++ stringify "" summary ++ newline ++ newline ++
  (if (0 <? List.length errors)%nat
   then "**Errors:**" ++ newline ++
        join newline (map (fun e => "- " ++ e) errors) ++ newline ++ newline
   else "") ++
  (if (0 <? List.length warnings)%nat
   then "**Warnings:**" ++ newline ++
        join newline (map (fun w => "- " ++ w) warnings) ++ newline ++ newline
   else "") ++
  "**Recommendations:**" ++ newline ++
  (if (List.length errors =? 0)%nat
   then "- âœ… Workflow structure is valid" ++ newline ++
        "- ðŸ§ª Ready for testing in n8n" ++ newline ++
        "- ðŸ“ Consider adding error handling nodes"
   else "- âŒ Fix errors before testing" ++ newline ++
        "- ðŸ”§ Review node configurations" ++ newline ++
        "- ðŸ“š Check n8n documentation for node types").

Definition handleValidateWorkflow (args id : json) : M process unit :=
  let workflow := opt_get args "workflow" in
  if negb (truthy workflow)
  then sendMessage (error_message (-32602) "Workflow object is required" id)
  else
    lists <- lift (validate workflow) ;;
    let '(errors, warnings) := lists in
    let summary := summary_of workflow errors warnings in
    sendMessage (result_message (text_content (report summary errors warnings)) id).

Definition templates : json :=
  JObj
    [ ("webhook_slack", JObj
        [ ("name", JStr "Webhook to Slack Notification");
          ("description", JStr "Simple webhook that sends notifications to Slack");
          ("category", JStr "Communication");
          ("difficulty", JStr "Beginner");
          ("nodes", int 3);
          ("workflow", JObj
            [ ("name", JStr "Webhook to Slack");
              ("nodes", JArr
                [ JObj
                    [ ("id", JStr "webhook_1");
                      ("name", JStr "Webhook");
                      ("type", JStr "n8n-nodes-base.webhook");
                      ("typeVersion", int 1);
                      ("position", JArr [int 250; int 300]);
                      ("parameters", JObj
                        [ ("httpMethod", JStr "POST");
                          ("path", JStr "slack-notify");
                          ("responseMode", JStr "responseNode") ]) ];
                  JObj
                    [ ("id", JStr "slack_1");
                      ("name", JStr "Slack");
                      ("type", JStr "n8n-nodes-base.slack");
                      ("typeVersion", int 1);
                      ("position", JArr [int 450; int 300]);
                      ("parameters", JObj
                        [ ("resource", JStr "message");
                          ("operation", JStr "post");
                          ("channel", JStr "#general");
                          ("text", JStr ("=New notification: {{$json.message || " ++ dquote ++ "Hello from webhook!" ++ dquote ++ "}}")) ]) ];
                  JObj
                    [ ("id", JStr "respond_1");
                      ("name", JStr "Respond to Webhook");
                      ("type", JStr "n8n-nodes-base.respondToWebhook");
                      ("typeVersion", int 1);
                      ("position", JArr [int 650; int 300]);
                      ("parameters", JObj
                        [ ("responseCode", int 200);
                          ("responseData", JStr "json");
                          ("responseBody", JStr ("={" ++ dquote ++ "status" ++ dquote ++ ": " ++ dquote ++ "sent" ++ dquote ++ "}")) ]) ] ]);
              ("connections", JObj
                [ ("Webhook", JObj
                    [ ("main", JArr
                        [ JArr
                            [ JObj
                                [ ("node", JStr "Slack");
                                  ("type", JStr "main");
                                  ("index", int 0) ] ] ]) ]);
                  ("Slack", JObj
                    [ ("main", JArr
                        [ JArr
                            [ JObj
                                [ ("node", JStr "Respond to Webhook");
                                  ("type", JStr "main");
                                  ("index", int 0) ] ] ]) ]) ]) ]) ]);
      ("email_processor", JObj
        [ ("name", JStr "Email Processing Workflow");
          ("description", JStr "Process incoming emails and extract data");
          ("category", JStr "Data Processing");
          ("difficulty", JStr "Intermediate");
          ("nodes", int 4);
          ("workflow", JObj
            [ ("name", JStr "Email Processor");
              ("nodes", JArr
                [ JObj
                    [ ("id", JStr "email_1");
                      ("name", JStr "Email Read IMAP");
                      ("type", JStr "n8n-nodes-base.emailReadImap");
                      ("typeVersion", int 1);
                      ("position", JArr [int 250; int 300]);
                      ("parameters", JObj [("mailbox", JStr "INBOX"); ("readToEnd", JBool true)]) ];
                  JObj
                    [ ("id", JStr "filter_1");
                      ("name", JStr "Filter");
                      ("type", JStr "n8n-nodes-base.if");
                      ("typeVersion", int 2);
                      ("position", JArr [int 450; int 300]);
                      ("parameters", JObj
                        [ ("conditions", JObj
                            [ ("string", JArr
                                [ JObj
                                    [ ("value1", JStr "={{ $json.subject }}");
                                      ("operation", JStr "contains");
                                      ("value2", JStr "important") ] ]) ]) ]) ];
                  JObj
                    [ ("id", JStr "set_1");
                      ("name", JStr "Set");
                      ("type", JStr "n8n-nodes-base.set");
                      ("typeVersion", dec 34 1);
                      ("position", JArr [int 650; int 300]);
                      ("parameters", JObj
                        [ ("values", JObj
                            [ ("string", JArr
                                [ JObj
                                    [ ("name", JStr "processed_at");
                                      ("value", JStr "={{ new Date().toISOString() }}") ];
                                  JObj
                                    [ ("name", JStr "priority");
                                      ("value", JStr "high") ] ]) ]) ]) ];
                  JObj
                    [ ("id", JStr "slack_1");
                      ("name", JStr "Slack");
                      ("type", JStr "n8n-nodes-base.slack");
                      ("typeVersion", int 1);
                      ("position", JArr [int 850; int 300]);
                      ("parameters", JObj
                        [ ("resource", JStr "message");
                          ("operation", JStr "post");
                          ("channel", JStr "#alerts");
                          ("text", JStr "=Important email received: {{$json.subject}}") ]) ] ]);
              ("connections", JObj
                [ ("Email Read IMAP", JObj
                    [ ("main", JArr
                        [ JArr
                            [ JObj
                                [ ("node", JStr "Filter");
                                  ("type", JStr "main");
                                  ("index", int 0) ] ] ]) ]);
                  ("Filter", JObj
                    [ ("main", JArr
                        [ JArr
                            [ JObj
                                [ ("node", JStr "Set");
                                  ("type", JStr "main");
                                  ("index", int 0) ] ] ]) ]);
                  ("Set", JObj
                    [ ("main", JArr
                        [ JArr
                            [ JObj
                                [ ("node", JStr "Slack");
                                  ("type", JStr "main");
                                  ("index", int 0) ] ] ]) ]) ]) ]) ]) ].

Definition handleGetWorkflowTemplate (args id : json) : M process unit :=
  let templateName := or_else (opt_get args "templateName") (JStr "webhook_slack") in
  key <- lift (ToString templateName) ;;
  let template := literal_get templates key in
  if negb (truthy template)
  then
    t <- lift (ToString templateName) ;;
    sendMessage (error_message (-32602) ("Unknown template: " ++ t) id)
  else
    name <- lift (ToString (opt_get template "name")) ;;
    description <- lift (ToString (opt_get template "description")) ;;
    category <- lift (ToString (opt_get template "category")) ;;
    difficulty <- lift (ToString (opt_get template "difficulty")) ;;
    nodes <- lift (ToString (opt_get template "nodes")) ;;
    json_text <- lift (ToString (JSON_stringify (opt_get template "workflow"))) ;;
    sendMessage
      (result_message
         (text_content
            ("## Workflow Template: " ++ name ++ newline ++ newline ++
             "**Description:** " ++ description ++ newline ++
             "**Category:** " ++ category ++ newline ++
             "**Difficulty:** " ++ difficulty ++ newline ++
             "**Nodes:** " ++ nodes ++ newline ++ newline ++
             "**Workflow JSON:**" ++ newline ++ "```json" ++ newline ++
             json_text ++ newline ++ "```" ++ newline ++ newline ++
             "**Usage:**" ++ newline ++
             "1. Copy the JSON above" ++ newline ++
             "2. Import into n8n" ++ newline ++
             "3. Configure credentials" ++ newline ++
             "4. Test execution"))
         id).

Definition handleToolsCall (params id : json) : M process unit :=
  name <- lift (get params "name") ;;
  args <- lift (get params "arguments") ;;
  if is_string name "list_nodes" then handleListNodes args id
  else if is_string name "get_node_info" then handleGetNodeInfo args id
  else if is_string name "search_nodes" then handleSearchNodes args id
  else if is_string name "get_node_documentation" then handleGetNodeDocumentation args id
  else if is_string name "list_node_categories" then handleListNodeCategories id
  else if is_string name "create_test_workflow" then handleCreateTestWorkflow args id
  else if is_string name "validate_workflow" then handleValidateWorkflow args id
  else if is_string name "get_workflow_template" then handleGetWorkflowTemplate args id
  else sendMessage (error_message (-32601) "Tool not found" id).

Definition handleRequest (request : json) : M process unit :=
  jsonrpc <- lift (get request "jsonrpc") ;;
  method <- lift (get request "method") ;;
  params <- lift (get request "params") ;;
  id <- lift (get request "id") ;;
  if negb (truthy jsonrpc) || negb (is_string jsonrpc "2.0")
  then sendMessage (error_message (-32600) "Invalid Request" JNull)
  else if is_undefined id
  then (if is_string method "notifications/initialized" then ret tt else ret tt)
  else if is_string method "initialize" then handleInitialize id
  else if is_string method "tools/list" then handleToolsList id
  else if is_string method "tools/call" then handleToolsCall params id
  else if is_string method "resources/list" then handleResourcesList id
  else if is_string method "prompts/list" then handlePromptsList id
  else sendMessage (error_message (-32601) "Method not found" id).

(** The [line] listener of [main], on the line as [JSON.parse] reads it
    ([None] when it rejects the line): a rejected line and an exception
    escaping [handleRequest] are both caught and logged on standard error. *)
Definition console_error (text : string) (p : process) : process :=
  {| this := this p; stdout := stdout p; stderr := stderr p ++ [text] |}.

Definition on_line (line : option json) (p : process) : process :=
  match line with
  | None => console_error "Error parsing request: not valid JSON" p
  | Some request =>
      match handleRequest request p with
      | (Returned _, p') => p'
      | (Threw (TypeError message), p') =>
          console_error ("Error parsing request: " ++ message) p'
      end
  end.

(** [main]: a fresh server, then one listener call per input line. *)
Definition start : process :=
  {| this := constructor; stdout := []; stderr := [] |}.

Definition serve (lines : list (option json)) (p : process) : process :=
  fold_left (fun p line => on_line line p) lines p.

Definition main (lines : list (option json)) : process := serve lines start.

End Stdio.

(** ** The HTTP variant *)
Module Http.
Import JS Effect.

Record MCPServer := { tools : json }.

Definition constructor_tools : json :=
  JArr
    [ JObj
        [ ("name", JStr "list_nodes");
          ("description", JStr "List available n8n nodes");
          ("inputSchema", JObj
            [ ("type", JStr "object");
              ("properties", JObj
                [ ("category", JObj
                    [ ("type", JStr "string");
                      ("description", JStr "Filter by node category") ]) ]) ]) ];
      JObj
        [ ("name", JStr "get_node_info");
          ("description", JStr "Get detailed information about a specific n8n node");
          ("inputSchema", JObj
            [ ("type", JStr "object");
              ("properties", JObj
                [ ("nodeName", JObj
                    [ ("type", JStr "string");
                      ("description", JStr "Name of the node to get information for") ]) ]);
              ("required", JArr [JStr "nodeName"]) ]) ];
      JObj
        [ ("name", JStr "search_nodes");
          ("description", JStr "Search for n8n nodes by keyword");
          ("inputSchema", JObj
            [ ("type", JStr "object");
              ("properties", JObj
                [ ("query", JObj
                    [ ("type", JStr "string");
                      ("description", JStr "Search query") ]) ]);
              ("required", JArr [JStr "query"]) ]) ] ].

Definition constructor : MCPServer := {| tools := constructor_tools |}.

(** The environment variables the module reads. *)
Record environment := {
  N8N_MCP_AUTH_TOKEN : option string;
  AUTH_TOKEN : option string
}.

(** Module load: a non-empty [N8N_MCP_AUTH_TOKEN] overrides [AUTH_TOKEN]. *)
Definition load (env : environment) : environment :=
  match N8N_MCP_AUTH_TOKEN env with
  | Some t =>
      if truthy (JStr t)
      then {| N8N_MCP_AUTH_TOKEN := Some t; AUTH_TOKEN := Some t |}
      else env
  | None => env
  end.

(** The request as the handler reads it: [req.method], [req.url],
    [req.headers.authorization] and [req.body] ([undefined] when absent). *)
Record request := {
  method : string;
  url : string;
  authorization : option string;
  body : json
}.

(** The response object: status code, headers set, and what was sent. *)
Inductive payload :=
| Nothing
| Ended
| Json (value : json).

Record response := {
  statusCode : nat;
  headers : list (string * string);
  sent : payload
}.

(** One invocation: the response under construction, the module-level
    server object, the methods of [mcpServer] entered so far (a ghost
    trace), and the calls of [console.error], each with the text and the
    [Error] object it was given.  How the console prints the object (its
    name, its message and its stack) is outside the embedding. *)
Record exchange := {
  res : response;
  mcpServer : MCPServer;
  entered : list string;
  stderr : list (string * exn)
}.

Definition H (A : Type) : Type := M exchange A.

Definition with_res (f : response -> response) : H unit :=
  fun x => (Returned tt,
            {| res := f (res x); mcpServer := mcpServer x;
               entered := entered x; stderr := stderr x |}).

Definition setHeader (name value : string) : H unit :=
  with_res (fun r => {| statusCode := statusCode r;
                        headers := headers r ++ [(name, value)];
                        sent := sent r |}).

Definition status (code : nat) : H unit :=
  with_res (fun r => {| statusCode := code; headers := headers r; sent := sent r |}).

Definition json_ (value : json) : H unit :=
  with_res (fun r => {| statusCode := statusCode r; headers := headers r;
                        sent := Json value |}).

Definition end_ : H unit :=
  with_res (fun r => {| statusCode := statusCode r; headers := headers r;
                        sent := Ended |}).

Definition enter (method : string) : H unit :=
  fun x => (Returned tt,
            {| res := res x; mcpServer := mcpServer x;
               entered := entered x ++ [method]; stderr := stderr x |}).

Definition console_error (text : string) (error : exn) : H unit :=
  fun x => (Returned tt,
            {| res := res x; mcpServer := mcpServer x;
               entered := entered x; stderr := stderr x ++ [(text, error)] |}).

Definition this_tools : H json := fun x => (Returned (tools (mcpServer x)), x).

Definition headersSent (r : response) : bool :=
  match sent r with
  | Nothing => false
  | _ => true
  end.

Definition error_message (code : Z) (message : string) (id : json) : json :=
  JObj [ ("jsonrpc", JStr "2.0");
         ("error", JObj [("code", int code); ("message", JStr message)]);
         ("id", id) ].

Definition result_message (result id : json) : json :=
  JObj [ ("jsonrpc", JStr "2.0"); ("result", result); ("id", id) ].

Definition text_content (text : string) : json :=
  JObj [ ("content", JArr [JObj [("type", JStr "text"); ("text", JStr text)]]) ].

Definition validateAuth (env : environment) (req : request) : bool :=
  match authorization req with
  | None => false
  | Some authHeader =>
      if negb (truthy (JStr authHeader)) then false
      else if negb (startsWith authHeader "Bearer ") then false
      else
        let token := trim (slice authHeader 7) in
        match AUTH_TOKEN env with
        | Some expected => token =? expected
        | None => false
        end
  end.

Definition handleInitialize (req : request) (id : json) : H unit :=
  json_
    (result_message
       (JObj [ ("protocolVersion", JStr "2024-11-05");
               ("capabilities", JObj [("tools", JObj [])]);
               ("serverInfo", JObj [ ("name", JStr "n8n-mcp-server");
                                     ("version", JStr "2.7.20") ]) ])
       id).

Definition handleToolsList (req : request) (id : json) : H unit :=
  tools <- this_tools ;;
  json_ (result_message (JObj [("tools", tools)]) id).

Definition handleToolsCall (req : request) (id : json) : H unit :=
  params <- lift (get (body req) "params") ;;
  name <- lift (get params "name") ;;
  args <- lift (get params "arguments") ;;
  if is_string name "list_nodes" then
    json_
      (result_message
         (text_content
            "Available n8n nodes: HTTP Request, Function, If, Split In Batches, Webhook, Airtable, Discord, Slack, and many more...")
         id)
  else if is_string name "get_node_info" then
    let nodeName := or_else (opt_get args "nodeName") (JStr "HTTP Request") in
    n <- lift (ToString nodeName) ;;
    json_
      (result_message
         (text_content
            ("Information about " ++ n ++
             ": This node allows you to make HTTP requests to external APIs and services."))
         id)
  else if is_string name "search_nodes" then
    let query := or_else (opt_get args "query") (JStr "") in
    q <- lift (ToString query) ;;
    json_
      (result_message
         (text_content
            ("Search results for " ++ dquote ++ q ++ dquote ++
             ": Found multiple nodes matching your query."))
         id)
  else
    status 400 ;;;
    json_ (error_message (-32601) "Tool not found" id).

Definition handleMCPRequest (req : request) : H unit :=
  enter "handleMCPRequest" ;;;
  jsonrpc <- lift (get (body req) "jsonrpc") ;;
  method <- lift (get (body req) "method") ;;
  params <- lift (get (body req) "params") ;;
  id <- lift (get (body req) "id") ;;
  if negb (truthy jsonrpc) || negb (is_string jsonrpc "2.0")
  then status 400 ;;; json_ (error_message (-32600) "Invalid Request" JNull)
  else if is_undefined id
  then (if is_string method "notifications/initialized"
        then status 200 ;;; end_
        else status 200 ;;; end_)
  else if is_string method "initialize" then handleInitialize req id
  else if is_string method "tools/list" then handleToolsList req id
  else if is_string method "tools/call" then handleToolsCall req id
  else if is_string method "resources/list"
  then json_ (result_message (JObj [("resources", JArr [])]) id)
  else if is_string method "prompts/list"
  then json_ (result_message (JObj [("prompts", JArr [])]) id)
  else status 400 ;;; json_ (error_message (-32601) "Method not found" id).

(** The body of the [try] block of the exported handler; [now] is what
    [new Date().toISOString()] gives during the invocation. *)
Definition try_block (env : environment) (now : string) (req : request) : H unit :=
  setHeader "Access-Control-Allow-Origin" "*" ;;;
  setHeader "Access-Control-Allow-Methods" "GET, POST, OPTIONS" ;;;
  setHeader "Access-Control-Allow-Headers" "Content-Type, Authorization" ;;;
  if method req =? "OPTIONS" then status 200 ;;; end_
  else if (method req =? "GET") && (url req =? "/health") then
    status 200 ;;;
    json_ (JObj [ ("status", JStr "ok");
                  ("message", JStr "n8n MCP server is running");
                  ("deployment", JStr "vercel");
                  ("timestamp", JStr now);
                  ("version", JStr "2.7.20");
                  ("authentication", JStr "required_for_mcp") ])
  else if method req =? "POST" then
    enter "validateAuth" ;;;
    if negb (validateAuth env req) then
      status 401 ;;;
      json_ (error_message (-32001) "Unauthorized - Valid Bearer token required"
                           (or_else (opt_get (body req) "id") JNull))
    else handleMCPRequest req
  else
    status 200 ;;;
    json_ (JObj [ ("message", JStr "n8n MCP Server");
                  ("status", JStr "running");
                  ("deployment", JStr "vercel");
                  ("version", JStr "2.7.20");
                  ("authentication", JStr "required_for_mcp");
                  ("endpoints", JObj
                     [ ("health", JStr "/health (GET)");
                       ("mcp", JStr "/ (POST with Authorization: Bearer <token>)") ]);
                  ("documentation", JStr "https://github.com/czlonkowski/n8n-mcp") ]).

(** The exported handler: the [try] block, and the [catch] clause. *)
Definition module_exports (env : environment) (now : string) (req : request)
  : exchange -> exchange :=
  fun x =>
    match try_block env now req x with
    | (Returned _, x') => x'
    | (Threw error, x') =>
        snd ((console_error "API handler error:" error ;;;
              if negb (headersSent (res x'))
              then
                status 500 ;;;
                json_ (JObj [ ("error", JStr "Internal server error");
                              ("message", JStr (message_of error));
                              ("timestamp", JStr now) ])
              else ret tt) x')
    end.

(** A fresh response object and the server built at module load. *)
Definition incoming : exchange :=
  {| res := {| statusCode := 200; headers := []; sent := Nothing |};
     mcpServer := constructor; entered := []; stderr := [] |}.

End Http.

(** ** Notions used to state the properties *)
Module Notions.
Import JS.

(** A message is an error object when it has an [error] member. *)
Definition is_error (message : json) : bool :=
  negb (is_undefined (opt_get message "error")).

(** A node no error check of [validate_workflow] objects to: truthy [id],
    [name] and [type], and a [position] that is an array of two elements. *)
Definition error_free_node (node : json) : bool :=
  truthy (opt_get node "id") && truthy (opt_get node "name") &&
  truthy (opt_get node "type") && is_length (opt_get node "position") 2.

(** A workflow passing all error checks: truthy [name], [nodes] an array of
    error-free nodes, [connections] an object (or array) all of whose
    members are objects. *)
Definition passes_error_checks (workflow : json) : bool :=
  truthy (opt_get workflow "name") &&
  match opt_get workflow "nodes" with
  | JArr nodes => forallb error_free_node nodes
  | _ => false
  end &&
  (truthy (opt_get workflow "connections") &&
   typeof_object (opt_get workflow "connections")) &&
  forallb (fun sourceNode =>
             typeof_object (get_own (opt_get workflow "connections") sourceNode))
          (own_keys (opt_get workflow "connections")).


(** The keys the specification calls known: the workflow types of
    [create_test_workflow] and the node names of [get_node_info]. *)
Definition known_workflow_types : list string :=
  [ "webhook_to_slack"; "manual_to_http"; "schedule_to_email"; "ai_agent";
    "data_processing" ].


(** The names every object literal answers to through its prototype. *)
Definition inherited_names : list string := map fst Object_prototype.

Definition lacks_typeVersion (node : json) : bool :=
  negb (truthy (opt_get node "typeVersion")).

(** One warning for each node without a (truthy) [typeVersion], in order,
    [index] being the position of the first node of [nodes]. *)
Fixpoint expected_warnings (nodes : list json) (index : nat) : list string :=
  match nodes with
  | [] => []
  | node :: rest =>
      (if lacks_typeVersion node
       then ["Node " ++ nat_string index ++ ": Missing typeVersion (recommended)"]
       else []) ++ expected_warnings rest (S index)
  end.

(** A method keeps the server when the server object is the same after it,
    whether it returned or threw. *)
Definition keeps_server {A : Type} (c : Effect.M Stdio.process A) : Prop :=
  forall p, Stdio.this (snd (c p)) = Stdio.this p.

(** The methods the dispatchers know, the tools each server serves, and the
    templates [get_workflow_template] holds. *)
Definition known_methods : list string :=
  [ "initialize"; "tools/list"; "tools/call"; "resources/list"; "prompts/list" ].

Definition stdio_tool_names : list string :=
  [ "list_nodes"; "get_node_info"; "search_nodes"; "get_node_documentation";
    "list_node_categories"; "create_test_workflow"; "validate_workflow";
    "get_workflow_template" ].

Definition http_tool_names : list string :=
  [ "list_nodes"; "get_node_info"; "search_nodes" ].

Definition known_template_names : list string := [ "webhook_slack"; "email_processor" ].

(** The five messages a defective node can add to the error list. *)
Definition node_message (index : nat) (what : string) : string :=
  "Node " ++ nat_string index ++ ": " ++ what.

(** Methods of the HTTP dispatcher set the status to 200 or 400, if at all. *)
Definition status_step (before after : nat) : Prop :=
  after = before \/ after = 200 \/ after = 400.

(** An inert method leaves the response unsent and everything but the
    status code as it was. *)
Definition inert {A : Type} (c : Http.H A) : Prop :=
  forall x,
    Http.headers (Http.res (snd (c x))) = Http.headers (Http.res x)
    /\ Http.sent (Http.res (snd (c x))) = Http.sent (Http.res x)
    /\ Http.mcpServer (snd (c x)) = Http.mcpServer x
    /\ Http.entered (snd (c x)) = Http.entered x
    /\ Http.stderr (snd (c x)) = Http.stderr x
    /\ status_step (Http.statusCode (Http.res x)) (Http.statusCode (Http.res (snd (c x)))).

(** A closing method sends the response when it returns, and leaves it
    unsent when it throws; it touches nothing else but the status code. *)
Definition closing {A : Type} (c : Http.H A) : Prop :=
  forall x,
    Http.headers (Http.res (snd (c x))) = Http.headers (Http.res x)
    /\ Http.mcpServer (snd (c x)) = Http.mcpServer x
    /\ Http.entered (snd (c x)) = Http.entered x
    /\ Http.stderr (snd (c x)) = Http.stderr x
    /\ status_step (Http.statusCode (Http.res x)) (Http.statusCode (Http.res (snd (c x))))
    /\ match fst (c x) with
       | Returned _ => Http.headersSent (Http.res (snd (c x))) = true
       | Threw _ => Http.sent (Http.res (snd (c x))) = Http.sent (Http.res x)
       end.

(** The three headers set on every response. *)
Definition cors_headers : list (string * string) :=
  [ ("Access-Control-Allow-Origin", "*");
    ("Access-Control-Allow-Methods", "GET, POST, OPTIONS");
    ("Access-Control-Allow-Headers", "Content-Type, Authorization") ].

(** The state in which the exported handler takes its decision: the three
    CORS headers are set, one after the other. *)
Definition with_cors (x : Http.exchange) : Http.exchange :=
  {| Http.res :=
       {| Http.statusCode := Http.statusCode (Http.res x);
          Http.headers :=
            ((Http.headers (Http.res x) ++ [("Access-Control-Allow-Origin", "*")]) ++
             [("Access-Control-Allow-Methods", "GET, POST, OPTIONS")]) ++
            [("Access-Control-Allow-Headers", "Content-Type, Authorization")];
          Http.sent := Http.sent (Http.res x) |};
     Http.mcpServer := Http.mcpServer x;
     Http.entered := Http.entered x;
     Http.stderr := Http.stderr x |}.

(** A string that neither starts nor ends with white space. *)
Definition trimmed (s : string) : bool :=
  match leading whitespace s, leading (map string_rev whitespace) (string_rev s) with
  | None, None => true
  | _, _ => false
  end.

(** What a method prints, and how it ends, when run by the given server
    on empty output streams. *)
Definition run {A : Type} (c : Effect.M Stdio.process A) (server : Stdio.MCPServer)
  : outcome A * list json :=
  let '(r, q) := c {| Stdio.this := server; Stdio.stdout := []; Stdio.stderr := [] |} in
  (r, Stdio.stdout q).

(** A method is framed when all it does to the process is to append to
    standard output what [run] says, which depends on the server alone. *)
Definition framed {A : Type} (c : Effect.M Stdio.process A) : Prop :=
  forall p,
    c p = (fst (run c (Stdio.this p)),
           {| Stdio.this := Stdio.this p;
              Stdio.stdout := Stdio.stdout p ++ snd (run c (Stdio.this p));
              Stdio.stderr := Stdio.stderr p |}).

(** A framed method is mute when it prints nothing, and tidy when it prints
    at most one message, and none when it throws. *)
Definition mute {A : Type} (c : Effect.M Stdio.process A) : Prop :=
  framed c /\ forall server, snd (run c server) = [].

Definition tidy {A : Type} (c : Effect.M Stdio.process A) : Prop :=
  framed c /\
  forall server,
    match run c server with
    | (Returned _, out) => List.length out <= 1
    | (Threw _, out) => out = []
    end.

(** A reply to the request of identifier [id]: a result or an error object
    carrying that identifier. *)
Definition is_reply (message id : json) : Prop :=
  (exists result, message = Stdio.result_message result id)
  \/ (exists code text, message = Stdio.error_message code text id).

(** A method answers [id] when it is framed and every message it prints is
    a reply to [id]. *)
Definition answers {A : Type} (id : json) (c : Effect.M Stdio.process A) : Prop :=
  framed c /\
  forall server message, In message (snd (run c server)) -> is_reply message id.

End Notions.

(** * Properties *)

Import JS Effect Notions.

(** ** Auxiliary facts about the JavaScript fragment *)

Lemma is_string_true (v : json) (s : string) :
  is_string v s = true -> v = JStr s.
Proof.
  destruct v; simpl; try discriminate.
  intros H. apply String.eqb_eq in H. now subst.
Qed.

Lemma is_string_other (v : json) (s : string) :
  v <> JStr s -> is_string v s = false.
Proof.
  intros H. destruct (is_string v s) eqn:E; [|reflexivity].
  apply is_string_true in E. contradiction.
Qed.

Lemma opt_get_defined_not_nullish (v : json) (k : string) :
  opt_get v k <> JUndefined -> nullish v = false.
Proof.
  destruct v; simpl; intros H; try reflexivity; now contradiction H.
Qed.

Lemma get_opt_get (v : json) (k : string) :
  nullish v = false -> get v k = Returned (opt_get v k).
Proof.
  intros H. unfold get. now rewrite H.
Qed.

Lemma lookup_absent {A : Type} (k : string) (fs : list (string * A)) :
  ~ In k (map fst fs) -> lookup k fs = None.
Proof.
  induction fs as [|[k' v] fs IH]; simpl; intros H; [reflexivity|].
  destruct (String.eqb_spec k' k) as [->|_].
  - exfalso. apply H. now left.
  - apply IH. intros HIn. apply H. now right.
Qed.




(** ** The request envelope *)

(** C1.  A message whose [jsonrpc] field is missing or is not the string
    ["2.0"] is answered with exactly the error object of code -32600,
    message 'Invalid Request' and id [null], whatever its method, params
    and id are: by [handleRequest] on standard output, and by
    [handleMCPRequest] as the body of a 400 response. *)
Theorem invalid_envelope_rejected (request : json) (p : Stdio.process)
    (req : Http.request) (x : Http.exchange) :
  nullish request = false ->
  opt_get request "jsonrpc" <> JStr "2.0" ->
  Http.body req = request ->
  let invalid :=
    JObj [ ("jsonrpc", JStr "2.0");
           ("error", JObj [ ("code", int (-32600));
                            ("message", JStr "Invalid Request") ]);
           ("id", JNull) ] in
  Stdio.handleRequest request p =
    (Returned tt,
     {| Stdio.this := Stdio.this p;
        Stdio.stdout := Stdio.stdout p ++ [invalid];
        Stdio.stderr := Stdio.stderr p |})
  /\ Http.handleMCPRequest req x =
    (Returned tt,
     {| Http.res := {| Http.statusCode := 400;
                       Http.headers := Http.headers (Http.res x);
                       Http.sent := Http.Json invalid |};
        Http.mcpServer := Http.mcpServer x;
        Http.entered := Http.entered x ++ ["handleMCPRequest"];
        Http.stderr := Http.stderr x |}).
Proof.
  intros Hobj Hrpc Hbody invalid.
  apply is_string_other in Hrpc.
  split.
  - unfold Stdio.handleRequest, mbind, lift.
    rewrite !get_opt_get by assumption.
    rewrite Hrpc, orb_true_r. reflexivity.
  - unfold Http.handleMCPRequest, mbind, lift. simpl.
    rewrite Hbody, !get_opt_get by assumption.
    rewrite Hrpc, orb_true_r. reflexivity.
Qed.

Lemma invalid_envelope_rejected_witness :
  exists out,
    Stdio.handleRequest (JObj [("method", JStr "tools/list"); ("id", int 1)])
      Stdio.start = (Returned tt, out)
    /\ List.length (Stdio.stdout out) = 1.
Proof.
  eexists. split.
  - apply (invalid_envelope_rejected
             (JObj [("method", JStr "tools/list"); ("id", int 1)])
             Stdio.start
             {| Http.method := "POST"; Http.url := "/";
                Http.authorization := None;
                Http.body := JObj [("method", JStr "tools/list"); ("id", int 1)] |}
             Http.incoming).
    + reflexivity.
    + simpl. discriminate.
    + reflexivity.
  - reflexivity.
Defined.

(** C2, as stated, fails: a message with no [id] whose [jsonrpc] field is
    missing is answered, with the -32600 error, because the envelope check
    comes before the notification check. *)
Lemma notification_without_jsonrpc_answered :
  let request := JObj [("method", JStr "notifications/initialized")] in
  opt_get request "id" = JUndefined
  /\ Stdio.stdout (Stdio.main [Some request]) =
       [ JObj [ ("jsonrpc", JStr "2.0");
                ("error", JObj [ ("code", int (-32600));
                                 ("message", JStr "Invalid Request") ]);
                ("id", JNull) ] ].
Proof.
  split; reflexivity.
Qed.

(** C2, amended.  A message whose [jsonrpc] field is ["2.0"] and whose [id]
    field is absent gets no response, whatever its method and params are:
    the line listener leaves standard output, and the whole process,
    as they were. *)
Theorem notification_not_answered (request : json) (p : Stdio.process) :
  opt_get request "jsonrpc" = JStr "2.0" ->
  opt_get request "id" = JUndefined ->
  Stdio.handleRequest request p = (Returned tt, p)
  /\ Stdio.on_line (Some request) p = p.
Proof.
  intros Hrpc Hid.
  assert (Hobj : nullish request = false).
  { apply (opt_get_defined_not_nullish request "jsonrpc"). rewrite Hrpc. discriminate. }
  assert (Hrun : Stdio.handleRequest request p = (Returned tt, p)).
  { unfold Stdio.handleRequest, mbind, lift.
    rewrite !get_opt_get by assumption.
    rewrite Hrpc, Hid. simpl.
    destruct (is_string (opt_get request "method") "notifications/initialized");
      reflexivity. }
  split; [assumption|].
  unfold Stdio.on_line. now rewrite Hrun.
Qed.

Lemma notification_not_answered_witness :
  Stdio.on_line
    (Some (JObj [("jsonrpc", JStr "2.0"); ("method", JStr "notifications/initialized")]))
    Stdio.start = Stdio.start.
Proof.
  apply (notification_not_answered
           (JObj [("jsonrpc", JStr "2.0"); ("method", JStr "notifications/initialized")])
           Stdio.start); reflexivity.
Defined.

(** ** [validate_workflow] *)

(** C3.  On [{name: "x", nodes: [], connections: {}}] the validation finds
    no error and no warning, and the result sent reports status VALID and
    an error count of zero: its text, given here in full, has the line
    [**Status:** VALID] and a summary with the status VALID and zero for
    the errors, the warnings, the nodes and the connections, no section of
    errors or warnings, and the recommendations of a valid workflow. *)
Theorem empty_workflow_valid (id : json) (p : Stdio.process) :
  let workflow :=
    JObj [("name", JStr "x"); ("nodes", JArr []); ("connections", JObj [])] in
  let summary :=
    JObj [ ("status", JStr "VALID"); ("errors", int 0); ("warnings", int 0);
           ("nodes", int 0); ("connections", int 0) ] in
  let text :=
    "## Workflow Validation Results" ++ newline ++ newline ++
    "**Status:** VALID" ++ newline ++
    "**Summary:** {" ++ newline ++
    "  " ++ dquote ++ "status" ++ dquote ++ ": " ++ dquote ++ "VALID" ++ dquote ++ "," ++ newline ++
    "  " ++ dquote ++ "errors" ++ dquote ++ ": 0," ++ newline ++
    "  " ++ dquote ++ "warnings" ++ dquote ++ ": 0," ++ newline ++
    "  " ++ dquote ++ "nodes" ++ dquote ++ ": 0," ++ newline ++
    "  " ++ dquote ++ "connections" ++ dquote ++ ": 0" ++ newline ++
    "}" ++ newline ++ newline ++
    "**Recommendations:**" ++ newline ++
    "- âœ… Workflow structure is valid" ++ newline ++
    "- ðŸ§ª Ready for testing in n8n" ++ newline ++
    "- ðŸ“ Consider adding error handling nodes" in
  Stdio.validate workflow = Returned ([], [])
  /\ Stdio.summary_of workflow [] [] = summary
  /\ Stdio.handleValidateWorkflow (JObj [("workflow", workflow)]) id p =
       (Returned tt,
        {| Stdio.this := Stdio.this p;
           Stdio.stdout :=
             Stdio.stdout p ++
             [Stdio.result_message (Stdio.text_content (Stdio.report summary [] [])) id];
           Stdio.stderr := Stdio.stderr p |})
  /\ includes (Stdio.report summary [] []) "**Status:** VALID" = true
  /\ Stdio.report summary [] [] = text
  /\ Stdio.handleValidateWorkflow (JObj [("workflow", workflow)]) id p =
       (Returned tt,
        {| Stdio.this := Stdio.this p;
           Stdio.stdout :=
             Stdio.stdout p ++
             [JObj [ ("jsonrpc", JStr "2.0");
                     ("result",
                      JObj [("content",
                             JArr [JObj [("type", JStr "text"); ("text", JStr text)]])]);
                     ("id", id) ]];
           Stdio.stderr := Stdio.stderr p |})
  /\ includes text ("**Status:** VALID" ++ newline) = true
  /\ includes text (dquote ++ "status" ++ dquote ++ ": " ++ dquote ++ "VALID" ++ dquote ++ ",")
     = true
  /\ includes text (dquote ++ "errors" ++ dquote ++ ": 0,") = true.
Proof.
  repeat split; reflexivity.
Qed.

(** *** The error list only grows *)

Lemma push_if_keeps (c : bool) (m e : string) (es : list string) :
  In e es -> In e (Stdio.push_if c m es).
Proof.
  unfold Stdio.push_if. destruct c; [|trivial].
  intros H. apply in_or_app. now left.
Qed.

Lemma push_if_true (m : string) (es : list string) :
  In m (Stdio.push_if true m es).
Proof.
  simpl. apply in_or_app. right. now left.
Qed.

Lemma push_if_nil (c : bool) (m : string) (es : list string) :
  Stdio.push_if c m es = [] -> c = false /\ es = [].
Proof.
  destruct c; simpl.
  - destruct es; discriminate.
  - auto.
Qed.

Lemma check_connection_keeps (connections : json) (keys : list string)
    (e : string) (es : list string) :
  In e es -> In e (fold_left (Stdio.check_connection connections) keys es).
Proof.
  revert es. induction keys as [|k keys IH]; simpl; intros es H; [assumption|].
  apply IH. now apply push_if_keeps.
Qed.

Lemma check_node_keeps (node : json) (index : nat) (e : string)
    (es ws es' ws' : list string) :
  Stdio.check_node node index (es, ws) = Returned (es', ws') ->
  In e es -> In e es'.
Proof.
  unfold Stdio.check_node, get. destruct (nullish node); simpl; [discriminate|].
  intros H HIn. injection H as H _. subst es'.
  now repeat apply push_if_keeps.
Qed.

Lemma forEach_node_keeps (nodes : list json) (index : nat) (e : string)
    (es ws es' ws' : list string) :
  Stdio.forEach_node nodes index (es, ws) = Returned (es', ws') ->
  In e es -> In e es'.
Proof.
  revert index es ws. induction nodes as [|node nodes IH]; intros index es ws H HIn.
  - injection H as H _. now subst es'.
  - cbn [Stdio.forEach_node] in H.
    destruct (Stdio.check_node node index (es, ws)) as [[es1 ws1]|] eqn:E;
      cbn [bind] in H; [|discriminate].
    eapply IH; [eassumption|].
    eapply check_node_keeps; eassumption.
Qed.

Lemma truthy_not_nullish (v : json) : truthy v = true -> nullish v = false.
Proof. destruct v; simpl; congruence. Qed.

Lemma append_associative (a b c : string) : (a ++ b) ++ c = a ++ (b ++ c).
Proof. induction a as [|x a IH]; cbn; [reflexivity|now rewrite IH]. Qed.

(** Brings a text built from literals and unknown strings to the form in
    which the literals are spelled out and every append is nested to the
    right. *)
Ltac flatten_text :=
  cbv -[append Number_toString];
  repeat (progress cbn [append] || rewrite append_associative).

(** When the validation completes, [workflow.nodes] is an array or a falsy
    value, and the summary counts its elements. *)
Lemma validate_returns_nodes (workflow : json) (lists : list string * list string) :
  Stdio.validate workflow = Returned lists ->
  or_else (opt_length (opt_get workflow "nodes")) (int 0) =
  JNum (of_nat (match opt_get workflow "nodes" with
                | JArr nodes => List.length nodes
                | _ => 0
                end)).
Proof.
  unfold Stdio.validate. generalize (opt_get workflow "nodes") as nodes.
  intros nodes H.
  destruct nodes as [| |b|n|s|nodes|fs]; try reflexivity.
  - destruct s; [reflexivity|discriminate].
  - now destruct nodes.
  - discriminate.
Qed.

Lemma status_of_valid (errors : list string) :
  Stdio.status_of errors = "VALID" <-> errors = [].
Proof.
  unfold Stdio.status_of. destruct errors; simpl; split; intros H;
    try reflexivity; discriminate.
Qed.

Lemma status_of_invalid (e : string) (errors : list string) :
  In e errors -> Stdio.status_of errors = "INVALID".
Proof. destruct errors; simpl; [contradiction|reflexivity]. Qed.

(** The part of C4 the code keeps: when [workflow.nodes] is missing, or is
    any other falsy value, validation completes, the error list mentions
    the nodes array and the status is INVALID. *)
Lemma missing_nodes_invalid (workflow : json) :
  truthy (opt_get workflow "nodes") = false ->
  exists errors,
    Stdio.validate workflow = Returned (errors, [])
    /\ In "Missing or invalid nodes array" errors
    /\ Stdio.status_of errors = "INVALID".
Proof.
  intros Hnodes. unfold Stdio.validate. rewrite Hnodes. simpl.
  set (es := Stdio.push_if _ "Missing or invalid connections object" _).
  assert (Hin : In "Missing or invalid nodes array" es).
  { apply push_if_keeps, push_if_true. }
  destruct (truthy (opt_get workflow "connections")) eqn:Hc.
  - unfold Object_keys. rewrite (truthy_not_nullish _ Hc). simpl.
    eexists. split; [reflexivity|].
    split; [|eapply status_of_invalid]; apply check_connection_keeps, Hin.
  - simpl. exists es. repeat split; [assumption|].
    now apply (status_of_invalid _ _ Hin).
Qed.

(** The part the code misses: a truthy [workflow.nodes] that is not an
    array makes the validation throw, after the error was recorded and
    before any result is sent. *)
Lemma non_array_nodes_throw (workflow : json) :
  truthy (opt_get workflow "nodes") = true ->
  isArray (opt_get workflow "nodes") = false ->
  Stdio.validate workflow =
    Threw (TypeError "workflow.nodes.forEach is not a function").
Proof.
  intros Ht Ha. unfold Stdio.validate. rewrite Ht.
  destruct (opt_get workflow "nodes"); try discriminate; reflexivity.
Qed.

(** C4 fails on the code at [{name: "x", nodes: {}, connections: {}}]:
    [nodes] is not an array, yet no result is sent; the call throws, the
    line listener logs the exception and standard output stays empty. *)
Theorem non_array_nodes_no_result :
  let workflow :=
    JObj [("name", JStr "x"); ("nodes", JObj []); ("connections", JObj [])] in
  let request :=
    JObj [ ("jsonrpc", JStr "2.0"); ("method", JStr "tools/call");
           ("params", JObj [ ("name", JStr "validate_workflow");
                             ("arguments", JObj [("workflow", workflow)]) ]);
           ("id", int 1) ] in
  isArray (opt_get workflow "nodes") = false
  /\ Stdio.validate workflow =
       Threw (TypeError "workflow.nodes.forEach is not a function")
  /\ Stdio.stdout (Stdio.main [Some request]) = []
  /\ Stdio.stderr (Stdio.main [Some request]) =
       ["Error parsing request: workflow.nodes.forEach is not a function"].
Proof.
  repeat split; reflexivity.
Qed.

(** *** Workflows that pass every error check *)

Lemma push_if_app (c : bool) (m : string) (a : list string) :
  Stdio.push_if c m a = (a ++ (if c then [m] else []))%list.
Proof. destruct c; simpl; [reflexivity|now rewrite app_nil_r]. Qed.

Lemma is_length_array (v : json) (n : nat) :
  is_length v n = true -> truthy v = true /\ isArray v = true.
Proof. destruct v; simpl; try discriminate. auto. Qed.

Lemma error_free_node_object (node : json) :
  error_free_node node = true -> nullish node = false.
Proof.
  unfold error_free_node. destruct node; simpl; try reflexivity; discriminate.
Qed.

Lemma check_node_error_free (node : json) (index : nat) (es ws : list string) :
  error_free_node node = true ->
  Stdio.check_node node index (es, ws) =
    Returned (es, (ws ++ expected_warnings [node] index)%list).
Proof.
  intros H. pose proof (error_free_node_object _ H) as Hobj.
  unfold error_free_node in H.
  apply andb_prop in H as [H Hpos]. apply andb_prop in H as [H Htype].
  apply andb_prop in H as [Hid Hname].
  destruct (is_length_array _ _ Hpos) as [Htruthy Harray].
  unfold Stdio.check_node, get. rewrite Hobj. cbn [bind].
  rewrite Hid, Hname, Htype, Htruthy, Harray, Hpos. cbn [negb orb Stdio.push_if].
  rewrite push_if_app. cbn [expected_warnings]. rewrite app_nil_r.
  reflexivity.
Qed.

Lemma forEach_node_error_free (nodes : list json) (index : nat) (es ws : list string) :
  forallb error_free_node nodes = true ->
  Stdio.forEach_node nodes index (es, ws) =
    Returned (es, (ws ++ expected_warnings nodes index)%list).
Proof.
  revert index ws. induction nodes as [|node nodes IH]; intros index ws H.
  - cbn. now rewrite app_nil_r.
  - cbn [forallb] in H. apply andb_prop in H as [Hnode Hrest].
    cbn [Stdio.forEach_node]. rewrite (check_node_error_free _ _ _ _ Hnode).
    cbn [bind]. rewrite (IH _ _ Hrest).
    cbn [expected_warnings]. now rewrite app_nil_r, app_assoc.
Qed.

Lemma check_connection_objects (connections : json) (keys : list string)
    (es : list string) :
  forallb (fun k => typeof_object (get_own connections k)) keys = true ->
  fold_left (Stdio.check_connection connections) keys es = es.
Proof.
  revert es. induction keys as [|k keys IH]; intros es H; [reflexivity|].
  cbn [forallb] in H. apply andb_prop in H as [Hk Hrest].
  cbn [fold_left]. unfold Stdio.check_connection at 2. rewrite Hk. cbn.
  now apply IH.
Qed.

Lemma expected_warnings_length (nodes : list json) (index : nat) :
  List.length (expected_warnings nodes index) =
  List.length (filter lacks_typeVersion nodes).
Proof.
  revert index. induction nodes as [|node nodes IH]; intros index; [reflexivity|].
  cbn [expected_warnings filter]. rewrite length_app, IH.
  destruct (lacks_typeVersion node); reflexivity.
Qed.

Lemma passes_error_checks_validate (workflow : json) :
  passes_error_checks workflow = true ->
  exists nodes,
    opt_get workflow "nodes" = JArr nodes
    /\ Stdio.validate workflow = Returned ([], expected_warnings nodes 0).
Proof.
  unfold passes_error_checks. intros H.
  apply andb_prop in H as [H Hkeys]. apply andb_prop in H as [H Hconn].
  apply andb_prop in H as [Hname Hnodes]. apply andb_prop in Hconn as [Hct Hco].
  destruct (opt_get workflow "nodes") as [| | | | |nodes|] eqn:En; try discriminate.
  exists nodes. split; [reflexivity|].
  unfold Stdio.validate. rewrite En, Hname, Hct, Hco. cbn [truthy isArray negb orb Stdio.push_if].
  rewrite (forEach_node_error_free _ _ _ _ Hnodes). cbn [bind app].
  unfold Object_keys. rewrite (truthy_not_nullish _ Hct). cbn [bind].
  now rewrite (check_connection_objects _ _ _ Hkeys).
Qed.

Lemma check_node_no_error (node : json) (index : nat) (ws ws' : list string) :
  Stdio.check_node node index ([], ws) = Returned ([], ws') ->
  error_free_node node = true.
Proof.
  unfold Stdio.check_node, get. destruct (nullish node); cbn [bind]; [discriminate|].
  intros H. injection H as H _.
  apply push_if_nil in H as [Hpos H]. apply push_if_nil in H as [Htype H].
  apply push_if_nil in H as [Hname H]. apply push_if_nil in H as [Hid _].
  unfold error_free_node.
  apply negb_false_iff in Hid, Hname, Htype. rewrite Hid, Hname, Htype.
  apply orb_false_elim in Hpos as [_ Hpos]. now apply negb_false_iff in Hpos.
Qed.

Lemma check_node_nonempty (node : json) (index : nat) (e : string)
    (es ws es' ws' : list string) :
  Stdio.check_node node index (e :: es, ws) = Returned (es', ws') -> es' <> [].
Proof.
  intros H Hnil. subst es'.
  eapply (check_node_keeps _ _ e) in H; [contradiction|now left].
Qed.

Lemma forEach_node_no_error (nodes : list json) (index : nat) (ws ws' : list string) :
  Stdio.forEach_node nodes index ([], ws) = Returned ([], ws') ->
  forallb error_free_node nodes = true.
Proof.
  revert index ws. induction nodes as [|node nodes IH]; intros index ws H; [reflexivity|].
  cbn [Stdio.forEach_node] in H.
  destruct (Stdio.check_node node index ([], ws)) as [[es1 ws1]|] eqn:E;
    cbn [bind] in H; [|discriminate].
  destruct es1 as [|e es1].
  - cbn [forallb]. rewrite (check_node_no_error _ _ _ _ E). eapply IH, H.
  - eapply (forEach_node_keeps _ _ e) in H; [contradiction|now left].
Qed.

Lemma check_connection_no_error (connections : json) (keys : list string)
    (es : list string) :
  fold_left (Stdio.check_connection connections) keys es = [] ->
  es = [] /\ forallb (fun k => typeof_object (get_own connections k)) keys = true.
Proof.
  revert es. induction keys as [|k keys IH]; intros es H; [now split|].
  cbn [fold_left] in H. apply IH in H as [H Hrest].
  apply push_if_nil in H as [Hk Hes]. apply negb_false_iff in Hk.
  cbn [forallb]. now rewrite Hk, Hrest.
Qed.

Lemma connections_stage_no_error (connections : json) (es : list string) :
  (if truthy connections
   then bind (Object_keys connections)
             (fun keys => Returned (fold_left (Stdio.check_connection connections) keys es))
   else Returned es) = Returned [] ->
  es = [] /\
  (truthy connections = true ->
   forallb (fun k => typeof_object (get_own connections k)) (own_keys connections) = true).
Proof.
  destruct (truthy connections) eqn:Hc.
  - unfold Object_keys. rewrite (truthy_not_nullish _ Hc). cbn [bind].
    intros H. injection H as H.
    apply check_connection_no_error in H as [-> Hk]. auto.
  - intros H. injection H as ->. split; [reflexivity|discriminate].
Qed.

Lemma validate_no_error (workflow : json) (warnings : list string) :
  Stdio.validate workflow = Returned ([], warnings) ->
  passes_error_checks workflow = true.
Proof.
  unfold Stdio.validate, passes_error_checks.
  generalize (opt_get workflow "name") as name.
  generalize (opt_get workflow "nodes") as nodes.
  generalize (opt_get workflow "connections") as connections.
  intros connections nodes name.
  remember (Stdio.push_if (negb (truthy connections) || negb (typeof_object connections))
              "Missing or invalid connections object"
              (Stdio.push_if (negb (truthy nodes) || negb (isArray nodes))
                 "Missing or invalid nodes array"
                 (Stdio.push_if (negb (truthy name)) "Missing workflow name" [])))
    as es eqn:Ees.
  intros H.
  destruct (if truthy nodes then _ else _) as [[es1 ws1]|] eqn:E1;
    cbn [bind] in H; [|discriminate].
  destruct (if truthy connections then _ else _) as [es2|] eqn:E2;
    cbn [bind] in H; [|discriminate].
  injection H as -> _.
  apply connections_stage_no_error in E2 as [-> Hkeys].
  assert (Hes : es = []).
  { destruct es as [|e es']; [reflexivity|].
    destruct (truthy nodes).
    - destruct nodes; try discriminate.
      eapply (forEach_node_keeps _ _ e) in E1; [contradiction|now left].
    - discriminate. }
  rewrite Hes in Ees, E1. symmetry in Ees.
  apply push_if_nil in Ees as [Hconn Ees].
  apply push_if_nil in Ees as [Hnodes Ees]. apply push_if_nil in Ees as [Hname _].
  apply negb_false_iff in Hname.
  apply orb_false_elim in Hconn as [Hct Hco]. apply negb_false_iff in Hct, Hco.
  apply orb_false_elim in Hnodes as [Hnt Hna]. apply negb_false_iff in Hnt, Hna.
  rewrite Hname, Hct, Hco, (Hkeys Hct). rewrite Hnt in E1.
  destruct nodes; try discriminate.
  now rewrite (forEach_node_no_error _ _ _ _ E1).
Qed.

(** C10.  Whenever the validation of a workflow completes, the status
    reported in the result is VALID exactly when the accumulated error list
    is empty: the text sent opens with the title and the line
    [**Status:** VALID] when there is no error and [**Status:** INVALID]
    otherwise, followed by the summary, whose status is the same and whose
    counts of errors and warnings are the lengths of the two lists.
    Warnings do not enter the status: a workflow passing all error checks
    gets no error, one warning for each node without a [typeVersion], and
    status VALID; the text sent for it, given in full, reports VALID, zero
    errors, that many warnings, the number of nodes and of connection
    sources, then lists the warnings, if any, and ends with the
    recommendations of a valid workflow.  (Passing all error checks is, in
    turn, exactly what makes the error list empty.) *)
Theorem status_valid_iff_no_error (args workflow id : json) (p : Stdio.process) :
  opt_get args "workflow" = workflow ->
  truthy workflow = true ->
  (forall errors warnings,
      Stdio.validate workflow = Returned (errors, warnings) ->
      let summary := Stdio.summary_of workflow errors warnings in
      Stdio.handleValidateWorkflow args id p =
        (Returned tt,
         {| Stdio.this := Stdio.this p;
            Stdio.stdout :=
              Stdio.stdout p ++
              [Stdio.result_message
                 (Stdio.text_content (Stdio.report summary errors warnings)) id];
            Stdio.stderr := Stdio.stderr p |})
      /\ (opt_get summary "status" = JStr "VALID" <-> errors = [])
      /\ (Stdio.status_of errors = "VALID" <-> errors = [])
      /\ (let status := match errors with [] => "VALID" | _ :: _ => "INVALID" end in
          exists rest,
            Stdio.report summary errors warnings =
              "## Workflow Validation Results" ++ newline ++ newline ++
              "**Status:** " ++ status ++ newline ++
              "**Summary:** {" ++ newline ++
              "  " ++ dquote ++ "status" ++ dquote ++ ": " ++
                dquote ++ status ++ dquote ++ "," ++ newline ++
              "  " ++ dquote ++ "errors" ++ dquote ++ ": " ++
                Number_toString (of_nat (List.length errors)) ++ "," ++ newline ++
              "  " ++ dquote ++ "warnings" ++ dquote ++ ": " ++
                Number_toString (of_nat (List.length warnings)) ++ "," ++ newline ++
              rest))
  /\ (passes_error_checks workflow = true ->
      exists nodes,
        opt_get workflow "nodes" = JArr nodes
        /\ Stdio.validate workflow = Returned ([], expected_warnings nodes 0)
        /\ List.length (expected_warnings nodes 0) =
           List.length (filter lacks_typeVersion nodes)
        /\ opt_get (Stdio.summary_of workflow [] (expected_warnings nodes 0)) "status" =
           JStr "VALID"
        /\ Stdio.report (Stdio.summary_of workflow [] (expected_warnings nodes 0))
                        [] (expected_warnings nodes 0) =
             "## Workflow Validation Results" ++ newline ++ newline ++
             "**Status:** VALID" ++ newline ++
             "**Summary:** {" ++ newline ++
             "  " ++ dquote ++ "status" ++ dquote ++ ": " ++
               dquote ++ "VALID" ++ dquote ++ "," ++ newline ++
             "  " ++ dquote ++ "errors" ++ dquote ++ ": 0," ++ newline ++
             "  " ++ dquote ++ "warnings" ++ dquote ++ ": " ++
               Number_toString (of_nat (List.length (filter lacks_typeVersion nodes))) ++
               "," ++ newline ++
             "  " ++ dquote ++ "nodes" ++ dquote ++ ": " ++
               Number_toString (of_nat (List.length nodes)) ++ "," ++ newline ++
             "  " ++ dquote ++ "connections" ++ dquote ++ ": " ++
               Number_toString
                 (of_nat (List.length (own_keys (opt_get workflow "connections")))) ++
               newline ++
             "}" ++ newline ++ newline ++
             match expected_warnings nodes 0 with
             | [] => ""
             | warnings =>
                 "**Warnings:**" ++ newline ++
                 join newline (map (fun w => "- " ++ w) warnings) ++ newline ++ newline
             end ++
             "**Recommendations:**" ++ newline ++
             "- âœ… Workflow structure is valid" ++ newline ++
             "- ðŸ§ª Ready for testing in n8n" ++ newline ++
             "- ðŸ“ Consider adding error handling nodes")
  /\ (passes_error_checks workflow = true <->
      exists warnings, Stdio.validate workflow = Returned ([], warnings)).
Proof.
  intros Hargs Htruthy. split; [|split].
  - intros errors warnings Hv summary. split; [|split; [|split]].
    + unfold Stdio.handleValidateWorkflow. rewrite Hargs, Htruthy. cbn [negb].
      unfold mbind, lift. rewrite Hv. reflexivity.
    + cbn. rewrite <- status_of_valid. split; [now intros [= ->]|now intros ->].
    + apply status_of_valid.
    + subst summary. unfold Stdio.report, Stdio.summary_of.
      rewrite (validate_returns_nodes _ _ Hv).
      set (w := of_nat (List.length warnings)).
      set (n := of_nat (match opt_get workflow "nodes" with JArr _ => _ | _ => _ end)).
      set (c := of_nat (List.length (own_keys _))). clearbody w n c.
      destruct errors as [|e errors];
        [|set (k := of_nat (List.length (e :: errors))); clearbody k];
        eexists; flatten_text; reflexivity.
  - intros Hpass. destruct (passes_error_checks_validate _ Hpass) as (nodes & Hn & Hv).
    exists nodes. split; [assumption|]. split; [assumption|].
    split; [apply expected_warnings_length|]. split; [reflexivity|].
    rewrite <- expected_warnings_length with (index := 0).
    unfold passes_error_checks in Hpass.
    apply andb_prop in Hpass as [Hpass _]. apply andb_prop in Hpass as [_ Hconn].
    apply andb_prop in Hconn as [Hct _].
    unfold Stdio.report, Stdio.summary_of. rewrite Hn.
    replace (or_else (opt_get workflow "connections") (JObj []))
      with (opt_get workflow "connections") by (unfold or_else; now rewrite Hct).
    replace (or_else (opt_length (JArr nodes)) (int 0))
      with (JNum (of_nat (List.length nodes))) by (now destruct nodes).
    set (n := of_nat (List.length nodes)).
    set (c := of_nat (List.length (own_keys _))). clearbody n c.
    destruct (expected_warnings nodes 0) as [|warning warnings];
      [|set (w := of_nat (List.length (warning :: warnings))); clearbody w];
      flatten_text; reflexivity.
  - split.
    + intros Hpass. destruct (passes_error_checks_validate _ Hpass) as (nodes & _ & Hv).
      eauto.
    + intros [warnings Hv]. eapply validate_no_error, Hv.
Qed.

Lemma status_valid_iff_no_error_witness :
  let workflow :=
    JObj [ ("name", JStr "x");
           ("nodes", JArr
              [ JObj [ ("id", JStr "a"); ("name", JStr "A"); ("type", JStr "t");
                       ("typeVersion", int 1); ("position", JArr [int 0; int 0]) ];
                JObj [ ("id", JStr "b"); ("name", JStr "B"); ("type", JStr "t");
                       ("position", JArr [int 1; int 1]) ] ]);
           ("connections", JObj [("A", JObj [("main", JArr [])])]) ] in
  Stdio.validate workflow =
    Returned ([], ["Node 1: Missing typeVersion (recommended)"])
  /\ Stdio.status_of [] = "VALID".
Proof.
  intros workflow.
  destruct (status_valid_iff_no_error
              (JObj [("workflow", workflow)]) workflow (int 1) Stdio.start
              eq_refl eq_refl) as (Hstatus & Hpass & _).
  destruct (Hpass eq_refl) as (nodes & Hnodes & Hvalidate & _).
  injection Hnodes as <-.
  split; [exact Hvalidate|].
  apply (Hstatus _ _ Hvalidate). reflexivity.
Defined.

(** ** Table lookups *)

Lemma literal_get_unknown (table : json) (fs : list (string * json)) (key : string) :
  table = JObj fs ->
  ~ In key (map fst fs) ->
  ~ In key inherited_names ->
  literal_get table key = JUndefined.
Proof.
  intros -> Hown Hproto. unfold literal_get, own.
  now rewrite (lookup_absent _ _ Hown), (lookup_absent _ _ Hproto).
Qed.



Lemma truthy_string (s : string) : s <> "" -> truthy (JStr s) = true.
Proof.
  intros H. simpl. now apply negb_true_iff, String.eqb_neq.
Qed.


(** What the amended C5 leaves out: a workflow type naming an inherited
    member, such as ["constructor"], passes the unknown-type test and the
    call throws on [workflow.nodes.length]; nothing is sent. *)
Lemma inherited_workflow_type_throws :
  let request :=
    JObj [ ("jsonrpc", JStr "2.0"); ("method", JStr "tools/call");
           ("params", JObj [ ("name", JStr "create_test_workflow");
                             ("arguments", JObj [("workflowType", JStr "constructor")]) ]);
           ("id", int 1) ] in
  Stdio.stdout (Stdio.main [Some request]) = []
  /\ List.length (Stdio.stderr (Stdio.main [Some request])) = 1.
Proof. split; vm_compute; reflexivity. Qed.




(** What the amended C6 leaves out: a node name naming an inherited member,
    such as ["constructor"], is found in the table through the prototype;
    the call then throws on [info.properties.join] and nothing is sent. *)
Lemma inherited_node_name_throws :
  let request :=
    JObj [ ("jsonrpc", JStr "2.0"); ("method", JStr "tools/call");
           ("params", JObj [ ("name", JStr "get_node_info");
                             ("arguments", JObj [("nodeName", JStr "constructor")]) ]);
           ("id", int 1) ] in
  Stdio.stdout (Stdio.main [Some request]) = []
  /\ List.length (Stdio.stderr (Stdio.main [Some request])) = 1.
Proof. split; vm_compute; reflexivity. Qed.




(** ** [list_nodes] *)

(** C7.  With category ["slack"], the case-insensitive substring filter
    over the constant list of 35 node names keeps exactly ["Slack"]: that
    name matches, no other does, and the result sent lists it alone. *)
Theorem list_nodes_slack (id : json) (p : Stdio.process) :
  List.length Stdio.all_nodes = 35
  /\ Stdio.filter_nodes Stdio.all_nodes (JStr "slack") = Returned ["Slack"]
  /\ (forall node,
         In node Stdio.all_nodes ->
         (includes (toLowerCase node) (toLowerCase "slack") = true <-> node = "Slack"))
  /\ In "Slack" Stdio.all_nodes
  /\ Stdio.handleListNodes (JObj [("category", JStr "slack")]) id p =
       (Returned tt,
        {| Stdio.this := Stdio.this p;
           Stdio.stdout :=
             Stdio.stdout p ++
             [ Stdio.result_message
                 (Stdio.text_content
                    ("Available n8n nodes in category " ++ dquote ++ "slack" ++ dquote ++
                     ":" ++ newline ++ newline ++ "Slack" ++ newline ++ newline ++
                     "Total: 1 nodes"))
                 id ];
           Stdio.stderr := Stdio.stderr p |}).
Proof.
  assert (Hfilter :
            filter (fun node => includes (toLowerCase node) (toLowerCase "slack"))
                   Stdio.all_nodes = ["Slack"]) by reflexivity.
  split; [reflexivity|]. split; [reflexivity|]. split; [|split].
  - intros node Hin. split.
    + intros Hmatch.
      assert (H : In node ["Slack"]).
      { rewrite <- Hfilter. apply filter_In. now split. }
      destruct H as [H|[]]. now symmetry.
    + intros ->. reflexivity.
  - assert (H : In "Slack" ["Slack"]) by now left.
    rewrite <- Hfilter in H. now apply filter_In in H.
  - reflexivity.
Qed.

(** ** The authentication gate of the HTTP variant *)

Lemma validateAuth_true (env : Http.environment) (req : Http.request) :
  Http.validateAuth env req = true <->
  exists header,
    Http.authorization req = Some header
    /\ startsWith header "Bearer " = true
    /\ Http.AUTH_TOKEN env = Some (trim (slice header 7)).
Proof.
  unfold Http.validateAuth. split.
  - destruct (Http.authorization req) as [header|]; [|discriminate].
    destruct (truthy (JStr header)); cbn [negb]; [|discriminate].
    destruct (startsWith header "Bearer ") eqn:Hprefix; cbn [negb]; [|discriminate].
    destruct (Http.AUTH_TOKEN env) as [expected|]; [|discriminate].
    intros H. apply String.eqb_eq in H. subst expected.
    exists header. auto.
  - intros (header & -> & Hprefix & ->). rewrite Hprefix. cbn [negb].
    destruct header as [|c header]; [discriminate|].
    cbn [truthy negb String.eqb]. apply String.eqb_refl.
Qed.

(** C8, as stated, fails: with token ["secret"], the header
    ["Bearer  secret"] (two spaces) is not 'Bearer ' followed by the exact
    token, yet the request is let through to the dispatcher, because the
    text after 'Bearer ' is trimmed before it is compared. *)
Lemma padded_bearer_token_accepted :
  let env := Http.load {| Http.N8N_MCP_AUTH_TOKEN := Some "secret";
                          Http.AUTH_TOKEN := None |} in
  let req := {| Http.method := "POST"; Http.url := "/";
                Http.authorization := Some "Bearer  secret";
                Http.body := JObj [ ("jsonrpc", JStr "2.0");
                                    ("method", JStr "tools/list");
                                    ("id", int 1) ] |} in
  let after := Http.module_exports env "2026-01-01T00:00:00.000Z" req Http.incoming in
  Http.AUTH_TOKEN env = Some "secret"
  /\ startsWith "Bearer  secret" ("Bearer " ++ "secret") = false
  /\ Http.statusCode (Http.res after) = 200
  /\ Http.entered after = ["validateAuth"; "handleMCPRequest"].
Proof. repeat split; reflexivity. Qed.

(** C8, amended.  A POST request, to any path, is answered with status 401
    and the JSON-RPC error of code -32001, without the dispatcher being
    entered, whenever it has no [Authorization] header, or one that does
    not start with 'Bearer ', or one whose text after 'Bearer ', trimmed of
    surrounding white space, is not the token of the environment. *)
Theorem unauthorized_post_rejected (env : Http.environment) (now : string)
    (req : Http.request) (x : Http.exchange) :
  Http.method req = "POST" ->
  (Http.authorization req = None
   \/ exists header,
        Http.authorization req = Some header
        /\ (startsWith header "Bearer " = false
            \/ Http.AUTH_TOKEN env <> Some (trim (slice header 7)))) ->
  Http.module_exports env now req x =
    {| Http.res :=
         {| Http.statusCode := 401;
            Http.headers :=
              Http.headers (Http.res x) ++
              [ ("Access-Control-Allow-Origin", "*");
                ("Access-Control-Allow-Methods", "GET, POST, OPTIONS");
                ("Access-Control-Allow-Headers", "Content-Type, Authorization") ];
            Http.sent :=
              Http.Json
                (JObj [ ("jsonrpc", JStr "2.0");
                        ("error",
                         JObj [ ("code", int (-32001));
                                ("message",
                                 JStr "Unauthorized - Valid Bearer token required") ]);
                        ("id", or_else (opt_get (Http.body req) "id") JNull) ]) |};
       Http.mcpServer := Http.mcpServer x;
       Http.entered := Http.entered x ++ ["validateAuth"];
       Http.stderr := Http.stderr x |}
  /\ ~ In "handleMCPRequest"
          (Http.entered (Http.module_exports env now req Http.incoming)).
Proof.
  intros Hmethod Hauth.
  assert (Hvalid : Http.validateAuth env req = false).
  { destruct (Http.validateAuth env req) eqn:E; [|reflexivity].
    apply validateAuth_true in E as (header & Hheader & Hprefix & Htoken).
    destruct Hauth as [Hnone|(header' & Hheader' & [Hno|Hno])].
    - congruence.
    - rewrite Hheader in Hheader'. injection Hheader' as <-. congruence.
    - rewrite Hheader in Hheader'. injection Hheader' as <-. contradiction. }
  assert (Hrun : forall y,
             Http.module_exports env now req y =
             {| Http.res :=
                  {| Http.statusCode := 401;
                     Http.headers :=
                       ((Http.headers (Http.res y) ++
                         [("Access-Control-Allow-Origin", "*")]) ++
                        [("Access-Control-Allow-Methods", "GET, POST, OPTIONS")]) ++
                       [("Access-Control-Allow-Headers", "Content-Type, Authorization")];
                     Http.sent :=
                       Http.Json
                         (Http.error_message (-32001)
                            "Unauthorized - Valid Bearer token required"
                            (or_else (opt_get (Http.body req) "id") JNull)) |};
                Http.mcpServer := Http.mcpServer y;
                Http.entered := Http.entered y ++ ["validateAuth"];
                Http.stderr := Http.stderr y |}).
  { intros y. unfold Http.module_exports, Http.try_block.
    rewrite Hmethod, Hvalid. reflexivity. }
  split.
  - rewrite Hrun, <- !app_assoc. reflexivity.
  - rewrite Hrun. cbn. intros [H|[]]. discriminate H.
Qed.

Lemma unauthorized_post_rejected_witness :
  Http.statusCode
    (Http.res
       (Http.module_exports
          {| Http.N8N_MCP_AUTH_TOKEN := None; Http.AUTH_TOKEN := Some "secret" |}
          "2026-01-01T00:00:00.000Z"
          {| Http.method := "POST"; Http.url := "/mcp";
             Http.authorization := None;
             Http.body := JObj [ ("jsonrpc", JStr "2.0");
                                 ("method", JStr "tools/list");
                                 ("id", int 1) ] |}
          Http.incoming)) = 401.
Proof.
  destruct (unauthorized_post_rejected
              {| Http.N8N_MCP_AUTH_TOKEN := None; Http.AUTH_TOKEN := Some "secret" |}
              "2026-01-01T00:00:00.000Z"
              {| Http.method := "POST"; Http.url := "/mcp";
                 Http.authorization := None;
                 Http.body := JObj [ ("jsonrpc", JStr "2.0");
                                     ("method", JStr "tools/list");
                                     ("id", int 1) ] |}
              Http.incoming eq_refl (or_introl eq_refl)) as [Hrun _].
  rewrite Hrun. reflexivity.
Defined.

(** ** The tool table *)

Lemma keeps_ret {A : Type} (a : A) : keeps_server (ret a).
Proof. intros p. reflexivity. Qed.

Lemma keeps_lift {A : Type} (c : outcome A) : keeps_server (lift c).
Proof. intros p. reflexivity. Qed.

Lemma keeps_this_tools : keeps_server Stdio.this_tools.
Proof. intros p. reflexivity. Qed.

Lemma keeps_sendMessage (message : json) : keeps_server (Stdio.sendMessage message).
Proof. intros p. reflexivity. Qed.

Lemma keeps_mbind {A B : Type} (c : M Stdio.process A) (k : A -> M Stdio.process B) :
  keeps_server c -> (forall a, keeps_server (k a)) -> keeps_server (mbind c k).
Proof.
  intros Hc Hk p. unfold mbind. specialize (Hc p).
  destruct (c p) as [[a|e] p']; cbn [snd] in *.
  - now rewrite Hk.
  - assumption.
Qed.

Ltac keeps_with known :=
  repeat first
    [ known
    | apply keeps_sendMessage
    | apply keeps_ret
    | apply keeps_lift
    | apply keeps_this_tools
    | progress lazy zeta
    | match goal with
      | |- keeps_server (if ?c then _ else _) => destruct c
      | |- keeps_server (let '(_, _) := ?x in _) => destruct x
      end
    | apply keeps_mbind; [|intros ?] ].

Lemma handleToolsCall_keeps (params id : json) :
  keeps_server (Stdio.handleToolsCall params id).
Proof.
  unfold Stdio.handleToolsCall,
    Stdio.handleListNodes, Stdio.handleGetNodeInfo, Stdio.handleSearchNodes,
    Stdio.handleGetNodeDocumentation, Stdio.handleListNodeCategories,
    Stdio.handleCreateTestWorkflow, Stdio.handleValidateWorkflow,
    Stdio.handleGetWorkflowTemplate.
  keeps_with fail.
Qed.

Lemma handleRequest_keeps (request : json) :
  keeps_server (Stdio.handleRequest request).
Proof.
  unfold Stdio.handleRequest, Stdio.handleInitialize, Stdio.handleToolsList,
    Stdio.handleResourcesList, Stdio.handlePromptsList.
  keeps_with ltac:(apply handleToolsCall_keeps).
Qed.

Lemma on_line_keeps (line : option json) (p : Stdio.process) :
  Stdio.this (Stdio.on_line line p) = Stdio.this p.
Proof.
  destruct line as [request|]; [|reflexivity].
  unfold Stdio.on_line. pose proof (handleRequest_keeps request p) as H.
  destruct (Stdio.handleRequest request p) as [[[]|[message]] p']; exact H.
Qed.

Lemma serve_keeps (lines : list (option json)) (p : Stdio.process) :
  Stdio.this (Stdio.serve lines p) = Stdio.this p.
Proof.
  revert p. induction lines as [|line lines IH]; intros p; [reflexivity|].
  unfold Stdio.serve in *. cbn [fold_left]. now rewrite IH, on_line_keeps.
Qed.

(** C9.  After any sequence of input lines, the server object is the one
    the constructor built: no listener call changes the tool table.  A
    [tools/list] request is therefore always answered with the same array
    of eight tool descriptors, whatever was requested before. *)
Theorem tools_list_constant (lines : list (option json)) (request id : json) :
  opt_get request "jsonrpc" = JStr "2.0" ->
  opt_get request "method" = JStr "tools/list" ->
  opt_get request "id" = id ->
  id <> JUndefined ->
  let p := Stdio.serve lines Stdio.start in
  Stdio.this p = Stdio.constructor
  /\ (exists descriptors,
         Stdio.constructor_tools = JArr descriptors /\ List.length descriptors = 8)
  /\ Stdio.on_line (Some request) p =
       {| Stdio.this := Stdio.constructor;
          Stdio.stdout :=
            Stdio.stdout p ++
            [ JObj [ ("jsonrpc", JStr "2.0");
                     ("result", JObj [("tools", Stdio.constructor_tools)]);
                     ("id", id) ] ];
          Stdio.stderr := Stdio.stderr p |}
  /\ (forall line q, Stdio.this (Stdio.on_line line q) = Stdio.this q).
Proof.
  intros Hrpc Hmethod Hid Hdefined p.
  assert (Hthis : Stdio.this p = Stdio.constructor) by apply serve_keeps.
  split; [assumption|]. split; [eexists; split; reflexivity|].
  split; [|apply on_line_keeps].
  assert (Hobj : nullish request = false).
  { apply (opt_get_defined_not_nullish request "jsonrpc"). rewrite Hrpc. discriminate. }
  unfold Stdio.on_line, Stdio.handleRequest, mbind, lift.
  rewrite !get_opt_get by assumption.
  rewrite Hrpc, Hmethod, Hid.
  replace (is_undefined id) with false
    by (destruct id; try reflexivity; now contradiction Hdefined).
  cbn. rewrite Hthis. reflexivity.
Qed.

Lemma tools_list_constant_witness :
  let earlier :=
    [ Some (JObj [ ("jsonrpc", JStr "2.0"); ("method", JStr "tools/call");
                   ("params", JObj [ ("name", JStr "list_nodes");
                                     ("arguments", JObj [("category", JStr "slack")]) ]);
                   ("id", int 1) ]);
      None;
      Some (JObj [ ("jsonrpc", JStr "2.0"); ("method", JStr "tools/call");
                   ("params", JObj [ ("name", JStr "search_nodes");
                                     ("arguments", JObj [("query", int 5)]) ]);
                   ("id", int 2) ]) ] in
  let request :=
    JObj [("jsonrpc", JStr "2.0"); ("method", JStr "tools/list"); ("id", int 3)] in
  Stdio.this (Stdio.on_line (Some request) (Stdio.serve earlier Stdio.start)) =
  Stdio.constructor.
Proof.
  intros earlier request.
  destruct (tools_list_constant earlier request (int 3) eq_refl eq_refl eq_refl
              ltac:(discriminate)) as (_ & _ & Hrun & _).
  rewrite Hrun. reflexivity.
Defined.

(** * Further properties of the stdio server *)

(** ** Framing: what a method does to the process *)

Lemma framed_run {A : Type} (c : M Stdio.process A) (server : Stdio.MCPServer)
    (r : outcome A) (out : list json) :
  (forall p, c p = (r, {| Stdio.this := Stdio.this p;
                          Stdio.stdout := Stdio.stdout p ++ out;
                          Stdio.stderr := Stdio.stderr p |})) ->
  run c server = (r, out).
Proof.
  intros H. unfold run. rewrite H. reflexivity.
Qed.

Lemma mute_intro {A : Type} (c : M Stdio.process A) (r : outcome A) :
  (forall p, c p = (r, p)) -> mute c.
Proof.
  intros H.
  assert (Hrun : forall server, run c server = (r, [])).
  { intros server. unfold run. now rewrite H. }
  split.
  - intros p. rewrite Hrun, H. cbn [fst snd]. rewrite app_nil_r. now destruct p.
  - intros server. now rewrite Hrun.
Qed.

Lemma mute_ret {A : Type} (a : A) : mute (ret (S:=Stdio.process) a).
Proof. apply (mute_intro _ (Returned a)). reflexivity. Qed.

Lemma mute_lift {A : Type} (c : outcome A) : mute (lift (S:=Stdio.process) c).
Proof. apply (mute_intro _ c). reflexivity. Qed.

Lemma run_mbind {A B : Type} (c : M Stdio.process A) (k : A -> M Stdio.process B)
    (server : Stdio.MCPServer) :
  framed c -> (forall a, framed (k a)) ->
  run (mbind c k) server =
    match run c server with
    | (Returned a, out) => (fst (run (k a) server), (out ++ snd (run (k a) server))%list)
    | (Threw e, out) => (Threw e, out)
    end.
Proof.
  intros Hc Hk. unfold run at 1, mbind.
  rewrite Hc. cbn [Stdio.this Stdio.stdout Stdio.stderr app].
  destruct (run c server) as [[a|e] out]; cbn [fst snd]; [|reflexivity].
  rewrite Hk. reflexivity.
Qed.

Lemma framed_mbind {A B : Type} (c : M Stdio.process A) (k : A -> M Stdio.process B) :
  framed c -> (forall a, framed (k a)) -> framed (mbind c k).
Proof.
  intros Hc Hk p. rewrite (run_mbind _ _ _ Hc Hk).
  unfold mbind. rewrite Hc.
  destruct (run c (Stdio.this p)) as [[a|e] out]; cbn [fst snd]; [|reflexivity].
  rewrite Hk. cbn [Stdio.this Stdio.stdout Stdio.stderr fst snd].
  now rewrite app_assoc.
Qed.

Lemma mute_mbind {A B : Type} (c : M Stdio.process A) (k : A -> M Stdio.process B) :
  mute c -> (forall a, mute (k a)) -> mute (mbind c k).
Proof.
  intros [Hc Hcs] Hk.
  assert (Hkf : forall a, framed (k a)) by (intros a; apply Hk).
  split; [now apply framed_mbind|].
  intros server. rewrite (run_mbind _ _ _ Hc Hkf).
  specialize (Hcs server). destruct (run c server) as [[a|e] out]; cbn [snd] in *.
  - subst out. apply (proj2 (Hk a)).
  - assumption.
Qed.

Lemma tidy_mute {A : Type} (c : M Stdio.process A) : mute c -> tidy c.
Proof.
  intros [Hc Hs]. split; [assumption|].
  intros server. specialize (Hs server).
  destruct (run c server) as [[a|e] out]; cbn [snd] in Hs; subst out; auto.
Qed.

Lemma tidy_mbind {A B : Type} (c : M Stdio.process A) (k : A -> M Stdio.process B) :
  mute c -> (forall a, tidy (k a)) -> tidy (mbind c k).
Proof.
  intros [Hc Hcs] Hk.
  assert (Hkf : forall a, framed (k a)) by (intros a; apply Hk).
  split; [now apply framed_mbind|].
  intros server. rewrite (run_mbind _ _ _ Hc Hkf).
  specialize (Hcs server). destruct (run c server) as [[a|e] out]; cbn [snd] in *.
  - subst out. cbn [app]. pose proof (proj2 (Hk a) server) as H.
    now destruct (run (k a) server).
  - assumption.
Qed.

Lemma tidy_sendMessage (message : json) : tidy (Stdio.sendMessage message).
Proof.
  split.
  - intros p. reflexivity.
  - intros server. cbn. auto.
Qed.

Lemma mute_this_tools : mute Stdio.this_tools.
Proof.
  split.
  - intros p. unfold run, Stdio.this_tools. cbn. rewrite app_nil_r. now destruct p.
  - intros server. reflexivity.
Qed.

Ltac mute_with known :=
  repeat first
    [ known
    | apply mute_ret
    | apply mute_lift
    | apply mute_this_tools
    | progress lazy zeta
    | match goal with
      | |- mute (if ?c then _ else _) => destruct c
      | |- mute (mbind _ _) => apply mute_mbind; [|intros ?]
      end ].

Ltac tidy_with known :=
  repeat first
    [ known
    | apply tidy_sendMessage
    | progress lazy zeta
    | match goal with
      | |- tidy (if ?c then _ else _) => destruct c
      | |- tidy (let '(_, _) := ?x in _) => destruct x
      | |- tidy (mbind _ _) => apply tidy_mbind; [mute_with fail|intros ?]
      | |- tidy (ret _) => apply tidy_mute, mute_ret
      end ].

Lemma handleListNodes_tidy (args id : json) : tidy (Stdio.handleListNodes args id).
Proof. unfold Stdio.handleListNodes. tidy_with fail. Qed.

Lemma handleGetNodeInfo_tidy (args id : json) : tidy (Stdio.handleGetNodeInfo args id).
Proof. unfold Stdio.handleGetNodeInfo. tidy_with fail. Qed.

Lemma handleSearchNodes_tidy (args id : json) : tidy (Stdio.handleSearchNodes args id).
Proof. unfold Stdio.handleSearchNodes. tidy_with fail. Qed.

Lemma handleGetNodeDocumentation_tidy (args id : json) :
  tidy (Stdio.handleGetNodeDocumentation args id).
Proof. unfold Stdio.handleGetNodeDocumentation. tidy_with fail. Qed.

Lemma handleCreateTestWorkflow_tidy (args id : json) :
  tidy (Stdio.handleCreateTestWorkflow args id).
Proof. unfold Stdio.handleCreateTestWorkflow. tidy_with fail. Qed.

Lemma handleValidateWorkflow_tidy (args id : json) :
  tidy (Stdio.handleValidateWorkflow args id).
Proof. unfold Stdio.handleValidateWorkflow. tidy_with fail. Qed.

Lemma handleGetWorkflowTemplate_tidy (args id : json) :
  tidy (Stdio.handleGetWorkflowTemplate args id).
Proof. unfold Stdio.handleGetWorkflowTemplate. tidy_with fail. Qed.

Lemma handleToolsCall_tidy (params id : json) : tidy (Stdio.handleToolsCall params id).
Proof.
  unfold Stdio.handleToolsCall, Stdio.handleListNodeCategories.
  tidy_with ltac:(first
    [ apply handleListNodes_tidy | apply handleGetNodeInfo_tidy
    | apply handleSearchNodes_tidy | apply handleGetNodeDocumentation_tidy
    | apply handleCreateTestWorkflow_tidy | apply handleValidateWorkflow_tidy
    | apply handleGetWorkflowTemplate_tidy ]).
Qed.

Lemma handleRequest_tidy (request : json) : tidy (Stdio.handleRequest request).
Proof.
  unfold Stdio.handleRequest, Stdio.handleInitialize, Stdio.handleToolsList,
    Stdio.handleResourcesList, Stdio.handlePromptsList.
  tidy_with ltac:(apply handleToolsCall_tidy).
Qed.

(** ** Replies carry the identifier of the request *)

Lemma answers_mute {A : Type} (id : json) (c : M Stdio.process A) :
  mute c -> answers id c.
Proof.
  intros [Hc Hs]. split; [assumption|].
  intros server message. now rewrite Hs.
Qed.

Lemma answers_mbind {A B : Type} (id : json) (c : M Stdio.process A)
    (k : A -> M Stdio.process B) :
  mute c -> (forall a, answers id (k a)) -> answers id (mbind c k).
Proof.
  intros [Hc Hcs] Hk.
  assert (Hkf : forall a, framed (k a)) by (intros a; apply Hk).
  split; [now apply framed_mbind|].
  intros server message. rewrite (run_mbind _ _ _ Hc Hkf).
  specialize (Hcs server). destruct (run c server) as [[a|e] out]; cbn [snd] in *;
    subst out; cbn [app]; [apply (proj2 (Hk a))|contradiction].
Qed.

Lemma answers_result (result id : json) :
  answers id (Stdio.sendMessage (Stdio.result_message result id)).
Proof.
  split; [apply tidy_sendMessage|].
  intros server message [<-|[]]. left. now exists result.
Qed.

Lemma answers_error (code : Z) (text : string) (id : json) :
  answers id (Stdio.sendMessage (Stdio.error_message code text id)).
Proof.
  split; [apply tidy_sendMessage|].
  intros server message [<-|[]]. right. now exists code, text.
Qed.

Ltac answers_with known :=
  repeat first
    [ known
    | apply answers_result
    | apply answers_error
    | progress lazy zeta
    | match goal with
      | |- answers _ (if ?c then _ else _) => destruct c
      | |- answers _ (let '(_, _) := ?x in _) => destruct x
      | |- answers _ (mbind _ _) => apply answers_mbind; [mute_with fail|intros ?]
      | |- answers _ (ret _) => apply answers_mute, mute_ret
      end ].

Lemma handleListNodes_answers (args id : json) :
  answers id (Stdio.handleListNodes args id).
Proof. unfold Stdio.handleListNodes. answers_with fail. Qed.

Lemma handleGetNodeInfo_answers (args id : json) :
  answers id (Stdio.handleGetNodeInfo args id).
Proof. unfold Stdio.handleGetNodeInfo. answers_with fail. Qed.

Lemma handleSearchNodes_answers (args id : json) :
  answers id (Stdio.handleSearchNodes args id).
Proof. unfold Stdio.handleSearchNodes. answers_with fail. Qed.

Lemma handleGetNodeDocumentation_answers (args id : json) :
  answers id (Stdio.handleGetNodeDocumentation args id).
Proof. unfold Stdio.handleGetNodeDocumentation. answers_with fail. Qed.

Lemma handleCreateTestWorkflow_answers (args id : json) :
  answers id (Stdio.handleCreateTestWorkflow args id).
Proof. unfold Stdio.handleCreateTestWorkflow. answers_with fail. Qed.

Lemma handleValidateWorkflow_answers (args id : json) :
  answers id (Stdio.handleValidateWorkflow args id).
Proof. unfold Stdio.handleValidateWorkflow. answers_with fail. Qed.

Lemma handleGetWorkflowTemplate_answers (args id : json) :
  answers id (Stdio.handleGetWorkflowTemplate args id).
Proof. unfold Stdio.handleGetWorkflowTemplate. answers_with fail. Qed.

Lemma handleToolsCall_answers (params id : json) :
  answers id (Stdio.handleToolsCall params id).
Proof.
  unfold Stdio.handleToolsCall, Stdio.handleListNodeCategories.
  answers_with ltac:(first
    [ apply handleListNodes_answers | apply handleGetNodeInfo_answers
    | apply handleSearchNodes_answers | apply handleGetNodeDocumentation_answers
    | apply handleCreateTestWorkflow_answers | apply handleValidateWorkflow_answers
    | apply handleGetWorkflowTemplate_answers ]).
Qed.

(** Past the envelope check, the dispatcher answers the identifier it read. *)
Lemma dispatch_answers (method params id : json) :
  answers id
    (if is_undefined id
     then (if is_string method "notifications/initialized" then ret tt else ret tt)
     else if is_string method "initialize" then Stdio.handleInitialize id
     else if is_string method "tools/list" then Stdio.handleToolsList id
     else if is_string method "tools/call" then Stdio.handleToolsCall params id
     else if is_string method "resources/list" then Stdio.handleResourcesList id
     else if is_string method "prompts/list" then Stdio.handlePromptsList id
     else Stdio.sendMessage (Stdio.error_message (-32601) "Method not found" id)).
Proof.
  unfold Stdio.handleInitialize, Stdio.handleToolsList,
    Stdio.handleResourcesList, Stdio.handlePromptsList.
  answers_with ltac:(apply handleToolsCall_answers).
Qed.

Lemma run_stdout {A : Type} (c : M Stdio.process A) (server : Stdio.MCPServer) :
  snd (run c server) =
  Stdio.stdout (snd (c {| Stdio.this := server; Stdio.stdout := []; Stdio.stderr := [] |})).
Proof. unfold run. now destruct (c _). Qed.

Lemma handleRequest_replies (request : json) (server : Stdio.MCPServer) (message : json) :
  In message (snd (run (Stdio.handleRequest request) server)) ->
  is_reply message (opt_get request "id")
  \/ message = Stdio.error_message (-32600) "Invalid Request" JNull.
Proof.
  rewrite run_stdout. unfold Stdio.handleRequest, get.
  destruct (nullish request); [intros []|].
  unfold mbind at 1 2 3 4. unfold lift at 1 2 3 4. cbn iota beta.
  destruct (negb (truthy (opt_get request "jsonrpc")) ||
            negb (is_string (opt_get request "jsonrpc") "2.0")).
  - intros [<-|[]]. now right.
  - rewrite <- run_stdout. intros H. left.
    exact (proj2 (dispatch_answers _ _ _) server message H).
Qed.

(** The effect of the line listener on the process. *)
Lemma on_line_effect (line : option json) (p : Stdio.process) :
  exists out err,
    Stdio.on_line line p =
      {| Stdio.this := Stdio.this p;
         Stdio.stdout := Stdio.stdout p ++ out;
         Stdio.stderr := Stdio.stderr p ++ err |}
    /\ (forall q,
           Stdio.this q = Stdio.this p ->
           Stdio.on_line line q =
             {| Stdio.this := Stdio.this q;
                Stdio.stdout := Stdio.stdout q ++ out;
                Stdio.stderr := Stdio.stderr q ++ err |})
    /\ ((out = [] /\ err = [])
        \/ (exists message, out = [message] /\ err = [])
        \/ (exists text, out = [] /\ err = [text]))
    /\ (forall request message,
           line = Some request -> In message out ->
           is_reply message (opt_get request "id")
           \/ message = Stdio.error_message (-32600) "Invalid Request" JNull).
Proof.
  destruct line as [request|].
  - destruct (handleRequest_tidy request) as [Hframed Hsingle].
    specialize (Hsingle (Stdio.this p)).
    pose proof (handleRequest_replies request (Stdio.this p)) as Hreply.
    destruct (run (Stdio.handleRequest request) (Stdio.this p)) as [[[]|[text]] out] eqn:Hrun.
    + exists out, []. split; [|split; [|split]].
      * unfold Stdio.on_line. rewrite Hframed, Hrun. cbn [fst snd].
        now rewrite app_nil_r.
      * intros q Hq. unfold Stdio.on_line. rewrite Hframed, Hq, Hrun. cbn [fst snd].
        now rewrite app_nil_r.
      * destruct out as [|message [|]]; cbn in Hsingle.
        -- now left.
        -- right. left. now exists message.
        -- exfalso. inversion Hsingle as [|? H]. inversion H.
      * intros request' message [= <-]. apply Hreply.
    + subst out. exists [], ["Error parsing request: " ++ text]. split; [|split; [|split]].
      * unfold Stdio.on_line. rewrite Hframed, Hrun. reflexivity.
      * intros q Hq. unfold Stdio.on_line. rewrite Hframed, Hq, Hrun. reflexivity.
      * right. right. now eexists.
      * intros request' message _ [].
  - exists [], ["Error parsing request: not valid JSON"]. split; [|split; [|split]].
    + cbn. unfold Stdio.console_error. now rewrite app_nil_r.
    + intros q _. cbn. unfold Stdio.console_error. now rewrite app_nil_r.
    + right. right. now eexists.
    + intros request message [=].
Qed.

(** X1.  Each input line makes the server write exactly one of: nothing,
    one message on standard output, or one line on standard error; it never
    writes two messages, and never a message together with an error line. *)
Theorem line_yields_one_reply_or_one_log (line : option json) (p : Stdio.process) :
  exists out err,
    Stdio.on_line line p =
      {| Stdio.this := Stdio.this p;
         Stdio.stdout := Stdio.stdout p ++ out;
         Stdio.stderr := Stdio.stderr p ++ err |}
    /\ ((out = [] /\ err = [])
        \/ (exists message, out = [message] /\ err = [])
        \/ (exists text, out = [] /\ err = [text])).
Proof.
  destruct (on_line_effect line p) as (out & err & Hrun & _ & Hone & _).
  now exists out, err.
Qed.

(** X2.  Every message written in answer to a request is a JSON-RPC 2.0
    result or error object carrying the [id] of that request; the only
    exception is the -32600 error for an invalid envelope, whose [id] is
    [null]. *)
Theorem reply_echoes_request_id (request : json) (p : Stdio.process) :
  exists out,
    Stdio.stdout (Stdio.on_line (Some request) p) = (Stdio.stdout p ++ out)%list
    /\ forall message,
         In message out ->
         opt_get message "jsonrpc" = JStr "2.0"
         /\ (is_reply message (opt_get request "id")
             /\ opt_get message "id" = opt_get request "id"
             \/ message = Stdio.error_message (-32600) "Invalid Request" JNull).
Proof.
  destruct (on_line_effect (Some request) p) as (out & err & Hrun & _ & _ & Hreply).
  exists out. split; [now rewrite Hrun|].
  intros message Hin.
  destruct (Hreply request message eq_refl Hin) as [Hr| ->]; [|split; [reflexivity|now right]].
  assert (Hfields : opt_get message "jsonrpc" = JStr "2.0"
                    /\ opt_get message "id" = opt_get request "id").
  { destruct Hr as [[result ->]|(code & text & ->)]; split; reflexivity. }
  destruct Hfields as [Hrpc Hid]. split; [assumption|]. left. now split.
Qed.

Lemma serve_effect (lines : list (option json)) (p : Stdio.process) :
  exists out err,
    forall q,
      Stdio.this q = Stdio.this p ->
      Stdio.serve lines q =
        {| Stdio.this := Stdio.this q;
           Stdio.stdout := Stdio.stdout q ++ out;
           Stdio.stderr := Stdio.stderr q ++ err |}.
Proof.
  revert p. induction lines as [|line lines IH]; intros p.
  - exists [], []. intros q _. cbn. rewrite !app_nil_r. now destruct q.
  - destruct (on_line_effect line p) as (out1 & err1 & _ & Hline & _).
    destruct (IH p) as (out2 & err2 & Hrest).
    exists (out1 ++ out2)%list, (err1 ++ err2)%list. intros q Hq.
    unfold Stdio.serve in *. cbn [fold_left]. rewrite (Hline q Hq).
    rewrite Hrest by (cbn; assumption). cbn. now rewrite !app_assoc.
Qed.

(** X3.  The server keeps nothing from one line to the next: what it writes
    for a sequence of lines does not depend on the lines served before, so
    the output for [before ++ after] is the output for [before] followed by
    the output for [after] served on their own. *)
Theorem answers_independent_of_history (before after : list (option json)) :
  Stdio.stdout (Stdio.main (before ++ after)) =
    (Stdio.stdout (Stdio.main before) ++ Stdio.stdout (Stdio.main after))%list
  /\ Stdio.stderr (Stdio.main (before ++ after)) =
    (Stdio.stderr (Stdio.main before) ++ Stdio.stderr (Stdio.main after))%list.
Proof.
  unfold Stdio.main, Stdio.serve. rewrite fold_left_app.
  fold (Stdio.serve before Stdio.start).
  fold (Stdio.serve after (Stdio.serve before Stdio.start)).
  fold (Stdio.serve after Stdio.start).
  destruct (serve_effect after Stdio.start) as (out & err & Hafter).
  rewrite (Hafter (Stdio.serve before Stdio.start)) by apply serve_keeps.
  rewrite (Hafter Stdio.start) by reflexivity.
  split; reflexivity.
Qed.

(** ** Dispatch errors *)

Lemma is_string_not_in (v : json) (s : string) (known : list string) :
  (forall k, In k known -> v <> JStr k) -> In s known -> is_string v s = false.
Proof. intros H Hin. apply is_string_other, H, Hin. Qed.

Ltac not_known H :=
  repeat (rewrite (is_string_not_in _ _ _ H) by (cbn; tauto)).

(** X4.  A request with a valid envelope and an [id] whose method is none
    of the five known ones (or is not a string at all) is answered with the
    error of code -32601, 'Method not found', under the request's [id]: on
    standard output by the stdio server, with status 400 by the HTTP one. *)
Theorem unknown_method_not_found (request : json) (p : Stdio.process)
    (req : Http.request) (x : Http.exchange) :
  opt_get request "jsonrpc" = JStr "2.0" ->
  opt_get request "id" <> JUndefined ->
  (forall m, In m known_methods -> opt_get request "method" <> JStr m) ->
  Http.body req = request ->
  let answer :=
    JObj [ ("jsonrpc", JStr "2.0");
           ("error", JObj [ ("code", int (-32601));
                            ("message", JStr "Method not found") ]);
           ("id", opt_get request "id") ] in
  Stdio.handleRequest request p =
    (Returned tt,
     {| Stdio.this := Stdio.this p;
        Stdio.stdout := Stdio.stdout p ++ [answer];
        Stdio.stderr := Stdio.stderr p |})
  /\ Http.handleMCPRequest req x =
    (Returned tt,
     {| Http.res := {| Http.statusCode := 400;
                       Http.headers := Http.headers (Http.res x);
                       Http.sent := Http.Json answer |};
        Http.mcpServer := Http.mcpServer x;
        Http.entered := Http.entered x ++ ["handleMCPRequest"];
        Http.stderr := Http.stderr x |}).
Proof.
  intros Hrpc Hid Hmethod Hbody answer.
  assert (Hobj : nullish request = false).
  { apply (opt_get_defined_not_nullish request "jsonrpc"). rewrite Hrpc. discriminate. }
  assert (Hdef : is_undefined (opt_get request "id") = false).
  { destruct (opt_get request "id"); try reflexivity. now contradiction Hid. }
  split.
  - unfold Stdio.handleRequest, mbind, lift. rewrite !get_opt_get by assumption.
    rewrite Hrpc, Hdef. cbn [truthy negb orb is_string String.eqb Ascii.eqb Bool.eqb].
    not_known Hmethod. reflexivity.
  - unfold Http.handleMCPRequest, mbind, lift. cbn [Http.enter]. rewrite Hbody.
    rewrite !get_opt_get by assumption.
    rewrite Hrpc, Hdef. cbn [truthy negb orb is_string String.eqb Ascii.eqb Bool.eqb].
    not_known Hmethod. reflexivity.
Qed.

Lemma unknown_method_not_found_witness :
  Stdio.stdout
    (snd (Stdio.handleRequest
            (JObj [("jsonrpc", JStr "2.0"); ("method", JStr "ping"); ("id", JNull)])
            Stdio.start)) =
  [ JObj [ ("jsonrpc", JStr "2.0");
           ("error", JObj [ ("code", int (-32601));
                            ("message", JStr "Method not found") ]);
           ("id", JNull) ] ].
Proof.
  assert (Hmethod : forall m, In m known_methods -> JStr "ping" <> JStr m).
  { cbn. intros m H. repeat destruct H as [<-|H]; try discriminate. destruct H. }
  destruct (unknown_method_not_found
              (JObj [("jsonrpc", JStr "2.0"); ("method", JStr "ping"); ("id", JNull)])
              Stdio.start
              {| Http.method := "POST"; Http.url := "/"; Http.authorization := None;
                 Http.body := JObj [ ("jsonrpc", JStr "2.0"); ("method", JStr "ping");
                                     ("id", JNull) ] |}
              Http.incoming eq_refl ltac:(discriminate) Hmethod eq_refl) as [Hrun _].
  rewrite Hrun. reflexivity.
Defined.

(** X5.  [tools/call] on the stdio server with a tool name that is none of
    the eight served (or is not a string) is answered with the error of
    code -32601, 'Tool not found', whatever the arguments are. *)
Theorem unknown_tool_not_found (params id : json) (p : Stdio.process) :
  nullish params = false ->
  (forall t, In t stdio_tool_names -> opt_get params "name" <> JStr t) ->
  Stdio.handleToolsCall params id p =
    (Returned tt,
     {| Stdio.this := Stdio.this p;
        Stdio.stdout :=
          Stdio.stdout p ++
          [ JObj [ ("jsonrpc", JStr "2.0");
                   ("error", JObj [ ("code", int (-32601));
                                    ("message", JStr "Tool not found") ]);
                   ("id", id) ] ];
        Stdio.stderr := Stdio.stderr p |}).
Proof.
  intros Hobj Hname.
  unfold Stdio.handleToolsCall, mbind, lift. rewrite !get_opt_get by assumption.
  not_known Hname. reflexivity.
Qed.

Lemma unknown_tool_not_found_witness :
  Stdio.stdout
    (snd (Stdio.handleToolsCall (JObj [("name", JStr "delete_workflow")]) (int 4)
            Stdio.start)) =
  [ JObj [ ("jsonrpc", JStr "2.0");
           ("error", JObj [ ("code", int (-32601));
                            ("message", JStr "Tool not found") ]);
           ("id", int 4) ] ].
Proof.
  assert (Hname : forall t, In t stdio_tool_names -> JStr "delete_workflow" <> JStr t).
  { cbn. intros t H. repeat destruct H as [<-|H]; try discriminate. destruct H. }
  rewrite (unknown_tool_not_found (JObj [("name", JStr "delete_workflow")]) (int 4)
             Stdio.start eq_refl Hname).
  reflexivity.
Defined.

(** X6.  The HTTP server serves three tools only: [tools/call] with any
    other name, the five further tools of the stdio server included, is
    answered with status 400 and the error of code -32601, 'Tool not found'. *)
Theorem http_unserved_tool_not_found (req : Http.request) (id : json) (x : Http.exchange) :
  nullish (Http.body req) = false ->
  nullish (opt_get (Http.body req) "params") = false ->
  (forall t, In t http_tool_names ->
             opt_get (opt_get (Http.body req) "params") "name" <> JStr t) ->
  Http.handleToolsCall req id x =
    (Returned tt,
     {| Http.res := {| Http.statusCode := 400;
                       Http.headers := Http.headers (Http.res x);
                       Http.sent :=
                         Http.Json
                           (JObj [ ("jsonrpc", JStr "2.0");
                                   ("error", JObj [ ("code", int (-32601));
                                                    ("message", JStr "Tool not found") ]);
                                   ("id", id) ]) |};
        Http.mcpServer := Http.mcpServer x;
        Http.entered := Http.entered x;
        Http.stderr := Http.stderr x |}).
Proof.
  intros Hbody Hparams Hname.
  unfold Http.handleToolsCall, mbind, lift. rewrite !get_opt_get by assumption.
  not_known Hname. reflexivity.
Qed.

Lemma http_unserved_tool_not_found_witness :
  Http.statusCode
    (Http.res
       (snd (Http.handleToolsCall
               {| Http.method := "POST"; Http.url := "/"; Http.authorization := None;
                  Http.body :=
                    JObj [ ("jsonrpc", JStr "2.0"); ("method", JStr "tools/call");
                           ("params", JObj [ ("name", JStr "validate_workflow");
                                             ("arguments", JObj []) ]);
                           ("id", int 1) ] |}
               (int 1) Http.incoming))) = 400.
Proof.
  assert (Hname : forall t, In t http_tool_names -> JStr "validate_workflow" <> JStr t).
  { cbn. intros t H. repeat destruct H as [<-|H]; try discriminate. destruct H. }
  rewrite (http_unserved_tool_not_found
             {| Http.method := "POST"; Http.url := "/"; Http.authorization := None;
                Http.body :=
                  JObj [ ("jsonrpc", JStr "2.0"); ("method", JStr "tools/call");
                         ("params", JObj [ ("name", JStr "validate_workflow");
                                           ("arguments", JObj []) ]);
                         ("id", int 1) ] |}
             (int 1) Http.incoming eq_refl eq_refl Hname).
  reflexivity.
Defined.

(** X7.  A [tools/call] request that has no [params] (or [null] params) is
    not answered at all by the stdio server: reading the tool name throws,
    the listener logs one line on standard error, and standard output
    stays as it was. *)
Theorem tools_call_without_params_unanswered (request : json) (p : Stdio.process) :
  opt_get request "jsonrpc" = JStr "2.0" ->
  opt_get request "id" <> JUndefined ->
  opt_get request "method" = JStr "tools/call" ->
  nullish (opt_get request "params") = true ->
  Stdio.stdout (Stdio.on_line (Some request) p) = Stdio.stdout p
  /\ exists text,
       Stdio.stderr (Stdio.on_line (Some request) p) = (Stdio.stderr p ++ [text])%list.
Proof.
  intros Hrpc Hid Hmethod Hparams.
  assert (Hobj : nullish request = false).
  { apply (opt_get_defined_not_nullish request "jsonrpc"). rewrite Hrpc. discriminate. }
  assert (Hdef : is_undefined (opt_get request "id") = false).
  { destruct (opt_get request "id"); try reflexivity. now contradiction Hid. }
  unfold Stdio.on_line, Stdio.handleRequest, mbind, lift.
  rewrite !get_opt_get by assumption. rewrite Hrpc, Hdef, Hmethod.
  cbn [truthy negb orb is_string String.eqb Ascii.eqb Bool.eqb].
  unfold Stdio.handleToolsCall, mbind, lift, get. rewrite Hparams.
  split; [reflexivity|]. eexists. reflexivity.
Qed.

Lemma tools_call_without_params_unanswered_witness :
  Stdio.stdout
    (Stdio.on_line
       (Some (JObj [ ("jsonrpc", JStr "2.0"); ("method", JStr "tools/call");
                     ("id", int 9) ]))
       Stdio.start) = [].
Proof.
  apply (tools_call_without_params_unanswered
           (JObj [ ("jsonrpc", JStr "2.0"); ("method", JStr "tools/call");
                   ("id", int 9) ])
           Stdio.start eq_refl ltac:(discriminate) eq_refl eq_refl).
Defined.

(** ** More on [validate_workflow] *)

(** X8.  [validate_workflow] without a [workflow] argument, or with a falsy
    one ([null], [false], 0, the empty string), is answered with the error
    of code -32602, 'Workflow object is required'; no validation is run. *)
Theorem missing_workflow_rejected (args id : json) (p : Stdio.process) :
  truthy (opt_get args "workflow") = false ->
  Stdio.handleValidateWorkflow args id p =
    (Returned tt,
     {| Stdio.this := Stdio.this p;
        Stdio.stdout :=
          Stdio.stdout p ++
          [ JObj [ ("jsonrpc", JStr "2.0");
                   ("error", JObj [ ("code", int (-32602));
                                    ("message", JStr "Workflow object is required") ]);
                   ("id", id) ] ];
        Stdio.stderr := Stdio.stderr p |}).
Proof.
  intros H. unfold Stdio.handleValidateWorkflow. rewrite H. reflexivity.
Qed.

Lemma missing_workflow_rejected_witness :
  Stdio.stdout (snd (Stdio.handleValidateWorkflow JUndefined (int 2) Stdio.start)) =
  [ JObj [ ("jsonrpc", JStr "2.0");
           ("error", JObj [ ("code", int (-32602));
                            ("message", JStr "Workflow object is required") ]);
           ("id", int 2) ] ].
Proof.
  rewrite (missing_workflow_rejected JUndefined (int 2) Stdio.start eq_refl).
  reflexivity.
Defined.

Lemma check_node_returns (node : json) (index : nat) (lists : list string * list string) :
  nullish node = false ->
  exists lists', Stdio.check_node node index lists = Returned lists'.
Proof.
  intros H. destruct lists as [es ws]. unfold Stdio.check_node, get. rewrite H.
  cbn [bind]. eexists. reflexivity.
Qed.

Lemma check_node_null (node : json) (index : nat) (lists : list string * list string) :
  nullish node = true ->
  exists e, Stdio.check_node node index lists = Threw e.
Proof.
  intros H. destruct lists as [es ws]. unfold Stdio.check_node, get. rewrite H.
  cbn [bind]. eexists. reflexivity.
Qed.

Lemma forEach_node_outcome (nodes : list json) (index : nat)
    (lists : list string * list string) :
  (existsb nullish nodes = false /\
   exists lists', Stdio.forEach_node nodes index lists = Returned lists')
  \/ (existsb nullish nodes = true /\
      exists e, Stdio.forEach_node nodes index lists = Threw e).
Proof.
  revert index lists. induction nodes as [|node nodes IH]; intros index lists.
  - left. split; [reflexivity|]. now exists lists.
  - cbn [existsb Stdio.forEach_node]. destruct (nullish node) eqn:Hnode.
    + right. split; [reflexivity|].
      destruct (check_node_null node index lists Hnode) as [e ->]. now exists e.
    + destruct (check_node_returns node index lists Hnode) as [lists1 ->].
      cbn [bind orb]. apply IH.
Qed.

(** X9.  The validation of a truthy workflow throws, so that the request
    gets no answer, in exactly two cases: [nodes] is a truthy value that is
    not an array, or it is an array holding a [null] entry.  In every other
    case it completes with its two lists. *)
Theorem validate_throws_iff (workflow : json) :
  (exists e, Stdio.validate workflow = Threw e) <->
  (truthy (opt_get workflow "nodes") = true /\ isArray (opt_get workflow "nodes") = false)
  \/ (exists nodes, opt_get workflow "nodes" = JArr nodes /\ existsb nullish nodes = true).
Proof.
  unfold Stdio.validate.
  generalize (opt_get workflow "name") as name.
  generalize (opt_get workflow "connections") as connections.
  generalize (opt_get workflow "nodes") as nodes.
  intros nodes connections name.
  set (es := Stdio.push_if _ "Missing or invalid connections object" _).
  assert (Hsecond : forall lists : list string * list string,
             exists lists',
               (let '(errors, warnings) := lists in
                bind (if truthy connections
                      then bind (Object_keys connections)
                                (fun keys => Returned (fold_left (Stdio.check_connection connections) keys errors))
                      else Returned errors)
                     (fun errors => Returned (errors, warnings))) = Returned lists').
  { intros [errors warnings]. destruct (truthy connections) eqn:Hc.
    - unfold Object_keys. rewrite (truthy_not_nullish _ Hc). cbn [bind]. eexists. reflexivity.
    - cbn [bind]. eexists. reflexivity. }
  destruct nodes as [| |b|n|s|elements|fs]; cbn [truthy isArray].
  1, 2: split; [intros [e H]; destruct (Hsecond (es, [])) as [l Hl];
                cbn [bind] in H; rewrite Hl in H; discriminate
               |intros [[H _]|(l & H & _)]; discriminate].
  - destruct b; cbn [bind].
    + split; [intros _; left; auto|intros _; eexists; reflexivity].
    + split; [intros [e H]; destruct (Hsecond (es, [])) as [l Hl];
              rewrite Hl in H; discriminate
             |intros [[H _]|(l & H & _)]; discriminate].
  - destruct (negb (digits n =? 0)%Z); cbn [bind].
    + split; [intros _; left; auto|intros _; eexists; reflexivity].
    + split; [intros [e H]; destruct (Hsecond (es, [])) as [l Hl];
              rewrite Hl in H; discriminate
             |intros [[H _]|(l & H & _)]; discriminate].
  - destruct (negb (s =? "")); cbn [bind].
    + split; [intros _; left; auto|intros _; eexists; reflexivity].
    + split; [intros [e H]; destruct (Hsecond (es, [])) as [l Hl];
              rewrite Hl in H; discriminate
             |intros [[H _]|(l & H & _)]; discriminate].
  - destruct (forEach_node_outcome elements 0 (es, [])) as [[Hn [l Hl]]|[Hn [e He]]].
    + rewrite Hl. cbn [bind]. split.
      * intros [e H]. destruct (Hsecond l) as [l' Hl']. rewrite Hl' in H. discriminate.
      * intros [[_ H]|(l' & [= <-] & H)]; [discriminate|congruence].
    + rewrite He. cbn [bind]. split.
      * intros _. right. now exists elements.
      * intros _. now exists e.
  - cbn [bind]. split; [intros _; left; auto|intros _; eexists; reflexivity].
Qed.

Lemma check_node_reports (node : json) (index : nat)
    (es ws es' ws' : list string) :
  Stdio.check_node node index (es, ws) = Returned (es', ws') ->
  (truthy (opt_get node "id") = false -> In (node_message index "Missing ID") es')
  /\ (truthy (opt_get node "name") = false -> In (node_message index "Missing name") es')
  /\ (truthy (opt_get node "type") = false -> In (node_message index "Missing type") es')
  /\ (is_length (opt_get node "position") 2 = false ->
      In (node_message index "Invalid position (should be [x, y])") es')
  /\ (truthy (opt_get node "typeVersion") = false ->
      In (node_message index "Missing typeVersion (recommended)") ws')
  /\ (forall w, In w ws -> In w ws').
Proof.
  unfold Stdio.check_node, get. destruct (nullish node); cbn [bind]; [discriminate|].
  intros H. injection H as H1 H2. subst es' ws'.
  repeat split.
  - intros ->. do 3 apply push_if_keeps. apply push_if_true.
  - intros ->. do 2 apply push_if_keeps. apply push_if_true.
  - intros ->. apply push_if_keeps. apply push_if_true.
  - intros Hlen.
    replace (negb (truthy (opt_get node "position")) ||
             negb (isArray (opt_get node "position")) ||
             negb (is_length (opt_get node "position") 2)) with true
      by (rewrite Hlen; now rewrite !orb_true_r).
    apply push_if_true.
  - intros ->. apply push_if_true.
  - intros w Hw. now apply push_if_keeps.
Qed.

Lemma forEach_node_keeps_warnings (nodes : list json) (index : nat) (w : string)
    (es ws es' ws' : list string) :
  Stdio.forEach_node nodes index (es, ws) = Returned (es', ws') ->
  In w ws -> In w ws'.
Proof.
  revert index es ws. induction nodes as [|node nodes IH]; intros index es ws H HIn.
  - injection H as _ H. now subst ws'.
  - cbn [Stdio.forEach_node] in H.
    destruct (Stdio.check_node node index (es, ws)) as [[es1 ws1]|] eqn:E;
      cbn [bind] in H; [|discriminate].
    eapply IH; [eassumption|].
    now apply (check_node_reports _ _ _ _ _ _ E).
Qed.

Lemma forEach_node_reports (nodes : list json) (start i : nat) (node : json)
    (es ws es' ws' : list string) :
  Stdio.forEach_node nodes start (es, ws) = Returned (es', ws') ->
  nth_error nodes i = Some node ->
  (truthy (opt_get node "id") = false -> In (node_message (start + i) "Missing ID") es')
  /\ (truthy (opt_get node "name") = false ->
      In (node_message (start + i) "Missing name") es')
  /\ (truthy (opt_get node "type") = false ->
      In (node_message (start + i) "Missing type") es')
  /\ (is_length (opt_get node "position") 2 = false ->
      In (node_message (start + i) "Invalid position (should be [x, y])") es')
  /\ (truthy (opt_get node "typeVersion") = false ->
      In (node_message (start + i) "Missing typeVersion (recommended)") ws').
Proof.
  revert start i es ws. induction nodes as [|first nodes IH]; intros start i es ws H Hnth.
  - destruct i; discriminate.
  - cbn [Stdio.forEach_node] in H.
    destruct (Stdio.check_node first start (es, ws)) as [[es1 ws1]|] eqn:E;
      cbn [bind] in H; [|discriminate].
    destruct i as [|i].
    + injection Hnth as ->. rewrite Nat.add_0_r.
      destruct (check_node_reports _ _ _ _ _ _ E) as (H1 & H2 & H3 & H4 & H5 & _).
      repeat split; intros Hd.
      * eapply forEach_node_keeps; [eassumption|auto].
      * eapply forEach_node_keeps; [eassumption|auto].
      * eapply forEach_node_keeps; [eassumption|auto].
      * eapply forEach_node_keeps; [eassumption|auto].
      * eapply forEach_node_keeps_warnings; [eassumption|auto].
    + cbn [nth_error] in Hnth. rewrite <- Nat.add_succ_comm.
      eapply IH; eassumption.
Qed.

(** X10.  When the validation completes, no defect of a node goes
    unreported: for the node at position [i], a missing (falsy) [id],
    [name] or [type] and a [position] that is not a two-element array each
    leave their message, numbered [i], in the error list, and a missing
    [typeVersion] leaves its message in the warning list. *)
Theorem node_defects_reported (workflow : json) (nodes : list json) (i : nat)
    (node : json) (errors warnings : list string) :
  opt_get workflow "nodes" = JArr nodes ->
  nth_error nodes i = Some node ->
  Stdio.validate workflow = Returned (errors, warnings) ->
  (truthy (opt_get node "id") = false -> In (node_message i "Missing ID") errors)
  /\ (truthy (opt_get node "name") = false -> In (node_message i "Missing name") errors)
  /\ (truthy (opt_get node "type") = false -> In (node_message i "Missing type") errors)
  /\ (is_length (opt_get node "position") 2 = false ->
      In (node_message i "Invalid position (should be [x, y])") errors)
  /\ (truthy (opt_get node "typeVersion") = false ->
      In (node_message i "Missing typeVersion (recommended)") warnings).
Proof.
  intros Hnodes Hnth. unfold Stdio.validate. rewrite Hnodes. cbn [truthy isArray].
  set (es := Stdio.push_if _ "Missing or invalid connections object" _).
  destruct (Stdio.forEach_node nodes 0 (es, [])) as [[es1 ws1]|] eqn:E;
    cbn [bind]; [|discriminate].
  intros H.
  assert (Hws : warnings = ws1 /\ forall e, In e es1 -> In e errors).
  { destruct (truthy (opt_get workflow "connections")) eqn:Hc.
    - unfold Object_keys in H. rewrite (truthy_not_nullish _ Hc) in H.
      cbn [bind] in H. injection H as H1 H2. subst. split; [reflexivity|].
      intros e. apply check_connection_keeps.
    - cbn [bind] in H. injection H as H1 H2. subst. auto. }
  destruct Hws as [-> Hes].
  destruct (forEach_node_reports _ 0 i node _ _ _ _ E Hnth) as (H1 & H2 & H3 & H4 & H5).
  cbn [Nat.add] in *. repeat split; auto.
Qed.

Lemma node_defects_reported_witness :
  In "Node 1: Missing name"
     (match Stdio.validate
              (JObj [ ("name", JStr "w");
                      ("nodes", JArr [ JObj [("id", int 1); ("name", JStr "a")];
                                       JObj [("id", int 2)] ]);
                      ("connections", JObj []) ]) with
      | Returned (errors, _) => errors
      | Threw _ => []
      end).
Proof.
  destruct (node_defects_reported
              (JObj [ ("name", JStr "w");
                      ("nodes", JArr [ JObj [("id", int 1); ("name", JStr "a")];
                                       JObj [("id", int 2)] ]);
                      ("connections", JObj []) ])
              _ 1 (JObj [("id", int 2)]) _ _ eq_refl eq_refl eq_refl)
    as (_ & Hname & _).
  exact (Hname eq_refl).
Defined.

(** ** The node filters *)

(** X11.  [list_nodes] with a truthy [category] that is not a string, and
    [search_nodes] with such a [query] (a number, [true], an array, an
    object), throw on [toLowerCase] before anything is sent: the request
    gets no answer. *)
Theorem non_string_filter_throws (args id filter : json) (p : Stdio.process) :
  truthy filter = true ->
  (forall s, filter <> JStr s) ->
  (opt_get args "category" = filter ->
   exists e, Stdio.handleListNodes args id p = (Threw e, p))
  /\ (opt_get args "query" = filter ->
      exists e, Stdio.handleSearchNodes args id p = (Threw e, p)).
Proof.
  intros Htruthy Hstring. split; intros Hargs.
  - unfold Stdio.handleListNodes. rewrite Hargs, Htruthy.
    unfold mbind, lift, Stdio.filter_nodes.
    destruct filter; try (eexists; reflexivity). now contradiction (Hstring s).
  - unfold Stdio.handleSearchNodes. rewrite Hargs. unfold or_else. rewrite Htruthy.
    unfold mbind, lift, Stdio.filter_nodes.
    destruct filter; try (eexists; reflexivity). now contradiction (Hstring s).
Qed.

Lemma non_string_filter_throws_witness :
  exists e,
    Stdio.handleSearchNodes (JObj [("query", int 5)]) (int 1) Stdio.start =
    (Threw e, Stdio.start).
Proof.
  assert (Hstring : forall s, int 5 <> JStr s) by (intros s; discriminate).
  apply (non_string_filter_throws (JObj [("query", int 5)]) (int 1) (int 5)
           Stdio.start eq_refl Hstring).
  reflexivity.
Defined.

Lemma includes_empty (s : string) : includes s "" = true.
Proof. destruct s; reflexivity. Qed.

Lemma filter_everything {A : Type} (f : A -> bool) (l : list A) :
  (forall x, f x = true) -> filter f l = l.
Proof.
  intros H. induction l as [|x l IH]; cbn; [reflexivity|]. now rewrite H, IH.
Qed.

(** X12.  Without a filter, nothing is filtered out: [list_nodes] with an
    absent or falsy [category], and [search_nodes] with an absent or falsy
    [query], both list all 35 node names. *)
Theorem empty_filter_lists_all (args id : json) (p : Stdio.process) :
  let all := "HTTP Request, Function, If, Split In Batches, Webhook, Airtable, Discord, Slack, Email, Cron, Manual Trigger, Code, Set, Merge, Filter, Switch, Wait, Error Trigger, Google Sheets, Notion, Zapier, Pipedrive, HubSpot, Shopify, Stripe, GitHub, GitLab, Jira, Trello, Asana, Monday.com, ClickUp, Linear, Figma, Canva" in
  (truthy (opt_get args "category") = false ->
   Stdio.handleListNodes args id p =
     (Returned tt,
      {| Stdio.this := Stdio.this p;
         Stdio.stdout :=
           Stdio.stdout p ++
           [ Stdio.result_message
               (Stdio.text_content
                  ("Available n8n nodes:" ++ newline ++ newline ++ all ++
                   newline ++ newline ++ "Total: 35 nodes"))
               id ];
         Stdio.stderr := Stdio.stderr p |}))
  /\ (truthy (opt_get args "query") = false ->
      Stdio.handleSearchNodes args id p =
        (Returned tt,
         {| Stdio.this := Stdio.this p;
            Stdio.stdout :=
              Stdio.stdout p ++
              [ Stdio.result_message
                  (Stdio.text_content
                     ("Search results for " ++ dquote ++ dquote ++ ":" ++
                      newline ++ newline ++ all ++ newline ++ newline ++
                      "Found 35 matching nodes."))
                  id ];
            Stdio.stderr := Stdio.stderr p |})).
Proof.
  intros all. split; intros Hfalsy.
  - unfold Stdio.handleListNodes. rewrite Hfalsy. reflexivity.
  - unfold Stdio.handleSearchNodes, or_else. rewrite Hfalsy.
    unfold mbind, lift, Stdio.filter_nodes.
    rewrite filter_everything by (intros node; apply includes_empty).
    reflexivity.
Qed.

Lemma empty_filter_lists_all_witness :
  List.length
    (Stdio.stdout (snd (Stdio.handleSearchNodes (JObj [("query", JStr "")]) (int 1)
                          Stdio.start))) = 1.
Proof.
  destruct (empty_filter_lists_all (JObj [("query", JStr "")]) (int 1) Stdio.start)
    as [_ Hsearch].
  rewrite (Hsearch eq_refl). reflexivity.
Defined.

(** ** Templates and documentation *)

Lemma templates_keys :
  exists fs, Stdio.templates = JObj fs /\ map fst fs = known_template_names.
Proof. eexists. split; reflexivity. Qed.

Lemma documentation_keys :
  exists fs, Stdio.documentation = JObj fs /\ map fst fs = ["HTTP Request"].
Proof. eexists. split; reflexivity. Qed.

(** X13.  [get_workflow_template] holds two templates.  For a non-empty
    [templateName] string that is neither of them nor the name of an
    inherited member, the answer is the error of code -32602, 'Unknown
    template: ' followed by the name; this includes the three names the
    tool's schema advertises beyond the two. *)
Theorem unknown_template_rejected (args id : json) (templateName : string)
    (p : Stdio.process) :
  opt_get args "templateName" = JStr templateName ->
  templateName <> "" ->
  ~ In templateName known_template_names ->
  ~ In templateName inherited_names ->
  Stdio.handleGetWorkflowTemplate args id p =
    (Returned tt,
     {| Stdio.this := Stdio.this p;
        Stdio.stdout :=
          Stdio.stdout p ++
          [ JObj [ ("jsonrpc", JStr "2.0");
                   ("error", JObj [ ("code", int (-32602));
                                    ("message",
                                     JStr ("Unknown template: " ++ templateName)) ]);
                   ("id", id) ] ];
        Stdio.stderr := Stdio.stderr p |}).
Proof.
  intros Hargs Hne Hknown Hproto.
  unfold Stdio.handleGetWorkflowTemplate. rewrite Hargs.
  replace (or_else (JStr templateName) (JStr "webhook_slack")) with (JStr templateName)
    by (unfold or_else; now rewrite (truthy_string _ Hne)).
  unfold mbind, lift. cbn [ToString].
  destruct templates_keys as (fs & Hfs & Hkeys).
  rewrite (literal_get_unknown _ fs _ Hfs); [|now rewrite Hkeys|assumption].
  reflexivity.
Qed.

Lemma unknown_template_rejected_witness :
  map (fun name =>
         map is_error
             (Stdio.stdout
                (snd (Stdio.handleGetWorkflowTemplate
                        (JObj [("templateName", JStr name)]) (int 1) Stdio.start))))
      ["data_sync"] = [[true]].
Proof.
  assert (Hknown : ~ In "data_sync" known_template_names).
  { simpl. intros H. repeat destruct H as [H|H]; try discriminate H. exact H. }
  assert (Hproto : ~ In "data_sync" inherited_names).
  { simpl. intros H. repeat destruct H as [H|H]; try discriminate H. exact H. }
  cbn [map].
  rewrite (unknown_template_rejected (JObj [("templateName", JStr "data_sync")])
             (int 1) "data_sync" Stdio.start eq_refl ltac:(discriminate) Hknown Hproto).
  reflexivity.
Defined.

(** X14.  [get_node_documentation] documents one node, HTTP Request.  For
    any other non-empty [nodeName] string that is not the name of an
    inherited member it sends, as a result, the generic documentation
    titled with that name. *)
Theorem unknown_node_generic_documentation (args id : json) (nodeName : string)
    (p : Stdio.process) :
  opt_get args "nodeName" = JStr nodeName ->
  nodeName <> "" ->
  nodeName <> "HTTP Request" ->
  ~ In nodeName inherited_names ->
  Stdio.handleGetNodeDocumentation args id p =
    (Returned tt,
     {| Stdio.this := Stdio.this p;
        Stdio.stdout :=
          Stdio.stdout p ++
          [ Stdio.result_message
              (Stdio.text_content
                 ("# " ++ (nodeName ++ " Node Documentation") ++ newline ++ newline ++
                  "Comprehensive documentation for this n8n node." ++ newline ++ newline ++
                  "## Parameters" ++ newline ++
                  "- Various configuration parameters available" ++ newline ++ newline ++
                  "## Examples" ++ newline ++
                  "- Multiple use cases and examples available"))
              id ];
        Stdio.stderr := Stdio.stderr p |}).
Proof.
  intros Hargs Hne Hknown Hproto.
  unfold Stdio.handleGetNodeDocumentation. rewrite Hargs.
  replace (or_else (JStr nodeName) (JStr "HTTP Request")) with (JStr nodeName)
    by (unfold or_else; now rewrite (truthy_string _ Hne)).
  unfold mbind, lift, ret. cbn [ToString].
  destruct documentation_keys as (fs & Hfs & Hkeys).
  rewrite (literal_get_unknown _ fs _ Hfs);
    [|rewrite Hkeys; intros [H|[]]; now apply Hknown|assumption].
  reflexivity.
Qed.

Lemma unknown_node_generic_documentation_witness :
  map is_error
      (Stdio.stdout
         (snd (Stdio.handleGetNodeDocumentation (JObj [("nodeName", JStr "Slack")])
                 (int 1) Stdio.start))) = [false].
Proof.
  assert (Hproto : ~ In "Slack" inherited_names).
  { simpl. intros H. repeat destruct H as [H|H]; try discriminate H. exact H. }
  rewrite (unknown_node_generic_documentation (JObj [("nodeName", JStr "Slack")])
             (int 1) "Slack" Stdio.start eq_refl ltac:(discriminate)
             ltac:(discriminate) Hproto).
  reflexivity.
Defined.

(** ** The workflows the server hands out *)

Ltac built_workflow_validates name Hname :=
  unfold Stdio.validate;
  match goal with
  | |- context [truthy (opt_get ?w "name")] =>
      change (opt_get w "name") with name; rewrite Hname
  end;
  vm_compute; reflexivity.

(** X15.  The server's own workflows pass its own validation.  Whatever
    truthy name it is given, each of the five workflows built by
    [create_test_workflow] validates with no error and no warning, and so
    does the workflow of each of the two templates, whose advertised node
    count is the number of its nodes.  The name the handler passes is
    always truthy: the custom name when there is one, else the default
    'Test Workflow - ' followed by the type. *)
Theorem built_workflows_validate (customName : json) (workflowType : string) :
  truthy customName = true ->
  In workflowType known_workflow_types ->
  Stdio.validate (literal_get (Stdio.workflows customName) workflowType) =
    Returned ([], [])
  /\ opt_get (literal_get (Stdio.workflows customName) workflowType) "name" = customName
  /\ truthy (JStr ("Test Workflow - " ++ workflowType)) = true
  /\ (forall templateName,
         In templateName known_template_names ->
         let template := literal_get Stdio.templates templateName in
         Stdio.validate (opt_get template "workflow") = Returned ([], [])
         /\ opt_get template "nodes" =
            opt_length (opt_get (opt_get template "workflow") "nodes")).
Proof.
  intros Hname Hin. split; [|split; [|split]].
  - cbn in Hin. repeat destruct Hin as [<-|Hin]; try contradiction;
      built_workflow_validates customName Hname.
  - cbn in Hin. repeat destruct Hin as [<-|Hin]; try contradiction; reflexivity.
  - reflexivity.
  - intros templateName Ht. cbn in Ht.
    repeat destruct Ht as [<-|Ht]; try contradiction; split; vm_compute; reflexivity.
Qed.

Lemma built_workflows_validate_witness :
  Stdio.validate (literal_get (Stdio.workflows (JStr "Nightly sync")) "data_processing") =
    Returned ([], []).
Proof.
  apply (built_workflows_validate (JStr "Nightly sync") "data_processing" eq_refl).
  cbn. tauto.
Defined.

(** * Further properties of the HTTP variant *)

Lemma status_step_refl (n : nat) : status_step n n.
Proof. now left. Qed.

Lemma status_step_trans (a b c : nat) :
  status_step a b -> status_step b c -> status_step a c.
Proof. unfold status_step. intros [->|H] [->|H']; auto. Qed.

Lemma inert_ret {A : Type} (a : A) : inert (ret (S:=Http.exchange) a).
Proof. intros x. cbn. repeat split. apply status_step_refl. Qed.

Lemma inert_lift {A : Type} (c : outcome A) : inert (lift (S:=Http.exchange) c).
Proof. intros x. cbn. repeat split. apply status_step_refl. Qed.

Lemma inert_this_tools : inert Http.this_tools.
Proof. intros x. cbn. repeat split. apply status_step_refl. Qed.

Lemma inert_status_200 : inert (Http.status 200).
Proof. intros x. cbn. repeat split. right. now left. Qed.

Lemma inert_status_400 : inert (Http.status 400).
Proof. intros x. cbn. repeat split. right. now right. Qed.

Lemma closing_json (value : json) : closing (Http.json_ value).
Proof. intros x. cbn. repeat split. apply status_step_refl. Qed.

Lemma closing_end : closing Http.end_.
Proof. intros x. cbn. repeat split. apply status_step_refl. Qed.

Lemma closing_mbind {A B : Type} (c : Http.H A) (k : A -> Http.H B) :
  inert c -> (forall a, closing (k a)) -> closing (mbind c k).
Proof.
  intros Hc Hk x. unfold mbind.
  destruct (Hc x) as (Hh & Hs & Hm & He & Hstderr & Hst).
  destruct (c x) as [[a|e] x1]; cbn [fst snd] in *.
  - destruct (Hk a x1) as (Hh' & Hm' & He' & Hstderr' & Hst' & Hend).
    rewrite Hh', Hm', He', Hstderr'. repeat split; try assumption.
    + eapply status_step_trans; eassumption.
    + destruct (fst (k a x1)); [assumption|]. now rewrite Hend.
  - repeat split; assumption.
Qed.

Ltac closing_with known :=
  repeat first
    [ known
    | apply closing_json
    | apply closing_end
    | progress lazy zeta
    | match goal with
      | |- closing (if ?c then _ else _) => destruct c
      | |- closing (mbind (lift _) _) => apply closing_mbind; [apply inert_lift|intros ?]
      | |- closing (mbind Http.this_tools _) =>
          apply closing_mbind; [apply inert_this_tools|intros ?]
      | |- closing (mbind (Http.status 200) _) =>
          apply closing_mbind; [apply inert_status_200|intros ?]
      | |- closing (mbind (Http.status 400) _) =>
          apply closing_mbind; [apply inert_status_400|intros ?]
      end ].

Lemma http_handleToolsCall_closing (req : Http.request) (id : json) :
  closing (Http.handleToolsCall req id).
Proof. unfold Http.handleToolsCall. closing_with fail. Qed.

(** The dispatcher, past the note that it was entered. *)
Lemma http_dispatch_closing (req : Http.request) :
  closing
    (jsonrpc <- lift (get (Http.body req) "jsonrpc") ;;
     method <- lift (get (Http.body req) "method") ;;
     params <- lift (get (Http.body req) "params") ;;
     id <- lift (get (Http.body req) "id") ;;
     if negb (truthy jsonrpc) || negb (is_string jsonrpc "2.0")
     then Http.status 400 ;;; Http.json_ (Http.error_message (-32600) "Invalid Request" JNull)
     else if is_undefined id
     then (if is_string method "notifications/initialized"
           then Http.status 200 ;;; Http.end_
           else Http.status 200 ;;; Http.end_)
     else if is_string method "initialize" then Http.handleInitialize req id
     else if is_string method "tools/list" then Http.handleToolsList req id
     else if is_string method "tools/call" then Http.handleToolsCall req id
     else if is_string method "resources/list"
     then Http.json_ (Http.result_message (JObj [("resources", JArr [])]) id)
     else if is_string method "prompts/list"
     then Http.json_ (Http.result_message (JObj [("prompts", JArr [])]) id)
     else Http.status 400 ;;; Http.json_ (Http.error_message (-32601) "Method not found" id)).
Proof.
  unfold Http.handleInitialize, Http.handleToolsList.
  closing_with ltac:(apply http_handleToolsCall_closing).
Qed.

Lemma setHeader_then {A : Type} (name value : string) (k : unit -> Http.H A)
    (x : Http.exchange) :
  mbind (Http.setHeader name value) k x = k tt (snd (Http.setHeader name value x)).
Proof. reflexivity. Qed.

Lemma enter_then {A : Type} (method : string) (k : unit -> Http.H A) (x : Http.exchange) :
  mbind (Http.enter method) k x = k tt (snd (Http.enter method x)).
Proof. reflexivity. Qed.

Lemma with_cors_headers (x : Http.exchange) :
  Http.headers (Http.res (with_cors x)) =
  (Http.headers (Http.res x) ++ cors_headers)%list.
Proof. cbn. now rewrite <- !app_assoc. Qed.

(** The dispatcher notes that it was entered, then behaves as a closing
    method. *)
Lemma handleMCPRequest_effect (req : Http.request) (x : Http.exchange) :
  Http.headers (Http.res (snd (Http.handleMCPRequest req x))) = Http.headers (Http.res x)
  /\ Http.mcpServer (snd (Http.handleMCPRequest req x)) = Http.mcpServer x
  /\ Http.entered (snd (Http.handleMCPRequest req x)) =
     (Http.entered x ++ ["handleMCPRequest"])%list
  /\ Http.stderr (snd (Http.handleMCPRequest req x)) = Http.stderr x
  /\ status_step (Http.statusCode (Http.res x))
                 (Http.statusCode (Http.res (snd (Http.handleMCPRequest req x))))
  /\ match fst (Http.handleMCPRequest req x) with
     | Returned _ => Http.headersSent (Http.res (snd (Http.handleMCPRequest req x))) = true
     | Threw _ =>
         Http.sent (Http.res (snd (Http.handleMCPRequest req x))) = Http.sent (Http.res x)
     end.
Proof.
  unfold Http.handleMCPRequest. rewrite enter_then.
  exact (http_dispatch_closing req (snd (Http.enter "handleMCPRequest" x))).
Qed.

(** The [catch] clause of the exported handler always leaves a response
    sent. *)
Lemma catch_effect (error : exn) (now : string) (y : Http.exchange) :
  let z :=
    snd ((Http.console_error "API handler error:" error ;;;
          if negb (Http.headersSent (Http.res y))
          then
            Http.status 500 ;;;
            Http.json_ (JObj [ ("error", JStr "Internal server error");
                               ("message", JStr (message_of error));
                               ("timestamp", JStr now) ])
          else ret tt) y) in
  Http.headers (Http.res z) = Http.headers (Http.res y)
  /\ Http.mcpServer z = Http.mcpServer y
  /\ Http.entered z = Http.entered y
  /\ Http.headersSent (Http.res z) = true
  /\ (Http.sent (Http.res y) = Http.Nothing -> Http.statusCode (Http.res z) = 500)
  /\ (Http.statusCode (Http.res z) = Http.statusCode (Http.res y)
      \/ Http.statusCode (Http.res z) = 500).
Proof.
  destruct y as [[code headers sent] server entered stderr].
  destruct sent; cbn; repeat split; auto; discriminate.
Qed.

(** What one invocation of the exported handler does, whatever the request. *)
Lemma module_exports_effect (env : Http.environment) (now : string)
    (req : Http.request) (x : Http.exchange) :
  let x' := Http.module_exports env now req x in
  Http.headers (Http.res x') = Http.headers (Http.res (with_cors x))
  /\ Http.mcpServer x' = Http.mcpServer x
  /\ Http.headersSent (Http.res x') = true
  /\ (Http.statusCode (Http.res x') = Http.statusCode (Http.res x)
      \/ In (Http.statusCode (Http.res x')) [200; 400; 401; 500])
  /\ (Http.method req <> "POST" ->
      Http.entered x' = Http.entered x /\ Http.stderr x' = Http.stderr x
      /\ Http.statusCode (Http.res x') = 200)
  /\ (Http.method req = "POST" ->
      Http.entered x' =
        (Http.entered x ++
         "validateAuth" ::
         (if Http.validateAuth env req then ["handleMCPRequest"] else []))%list).
Proof.
  unfold Http.module_exports, Http.try_block.
  rewrite !setHeader_then.
  change (snd (Http.setHeader _ _ (snd (Http.setHeader _ _ (snd (Http.setHeader _ _ x))))))
    with (with_cors x).
  destruct (String.eqb_spec (Http.method req) "OPTIONS") as [Hopt|_].
  { cbn. repeat split; auto; try congruence. }
  destruct ((Http.method req =? "GET") && (Http.url req =? "/health")) eqn:Hhealth.
  { apply andb_prop in Hhealth as [Hget _]. apply String.eqb_eq in Hget.
    cbn. repeat split; auto; try congruence. }
  destruct (String.eqb_spec (Http.method req) "POST") as [Hpost|Hother].
  2: { cbn. repeat split; auto; try congruence. }
  rewrite enter_then.
  destruct (Http.validateAuth env req); cbn [negb].
  2: { cbn. repeat split; auto; try tauto; try congruence. }
  set (y := snd (Http.enter "validateAuth" (with_cors x))).
  destruct (handleMCPRequest_effect req y) as (Hh & Hm & He & Hs & Hst & Hend).
  assert (Hstatus : Http.statusCode (Http.res (snd (Http.handleMCPRequest req y))) =
                    Http.statusCode (Http.res x)
                    \/ In (Http.statusCode (Http.res (snd (Http.handleMCPRequest req y))))
                          [200; 400]).
  { destruct Hst as [Hst | [Hst | Hst]]; rewrite Hst; cbn; tauto. }
  destruct (Http.handleMCPRequest req y) as [[[]|error] y'] eqn:Hrun;
    cbn [fst snd] in *.
  - rewrite Hh, Hm, He. repeat split; auto; try congruence.
    + destruct Hstatus as [H|[H|[H|[]]]]; rewrite H; cbn; tauto.
    + cbn. now rewrite <- app_assoc.
  - destruct (catch_effect error now y') as (Zh & Zm & Ze & Zs & _ & Zst).
    cbv zeta in Zh, Zm, Ze, Zs, Zst.
    rewrite Zh, Zm, Ze, Hh, Hm, He. repeat split; auto; try congruence.
    + destruct Zst as [Zst|Zst]; rewrite Zst; [|cbn; tauto].
      destruct Hstatus as [H|[H|[H|[]]]]; rewrite H; cbn; tauto.
    + cbn. now rewrite <- app_assoc.
Qed.

(** X16.  Every invocation of the exported handler is answered, whatever
    the request and its body are, exceptions included: a response has been
    sent when it returns, it carries the three CORS headers, its status is
    200, 400, 401 or 500 (on a fresh response object), and the server
    object, with its tool table, is left as it was. *)
Theorem http_always_answers (env : Http.environment) (now : string)
    (req : Http.request) (x : Http.exchange) :
  let x' := Http.module_exports env now req x in
  Http.headersSent (Http.res x') = true
  /\ Http.headers (Http.res x') = (Http.headers (Http.res x) ++ cors_headers)%list
  /\ (Http.statusCode (Http.res x') = Http.statusCode (Http.res x)
      \/ In (Http.statusCode (Http.res x')) [200; 400; 401; 500])
  /\ Http.mcpServer x' = Http.mcpServer x.
Proof.
  destruct (module_exports_effect env now req x) as (Hh & Hm & Hs & Hst & _).
  cbv zeta in *. rewrite Hh, with_cors_headers. auto.
Qed.

(** X17.  Only POST requests are authenticated and dispatched.  A request
    with any other method (OPTIONS, GET to [/health] or elsewhere, PUT,
    ...) is answered with status 200 without the [Authorization] header
    being looked at: neither [validateAuth] nor the dispatcher is entered,
    and nothing is logged. *)
Theorem only_post_is_authenticated (env : Http.environment) (now : string)
    (req : Http.request) (x : Http.exchange) :
  Http.method req <> "POST" ->
  let x' := Http.module_exports env now req x in
  Http.statusCode (Http.res x') = 200
  /\ Http.entered x' = Http.entered x
  /\ Http.stderr x' = Http.stderr x.
Proof.
  intros Hmethod.
  destruct (module_exports_effect env now req x) as (_ & _ & _ & _ & Hother & _).
  destruct (Hother Hmethod) as (He & Hs & Hst). auto.
Qed.

Lemma only_post_is_authenticated_witness :
  Http.entered
    (Http.module_exports
       {| Http.N8N_MCP_AUTH_TOKEN := None; Http.AUTH_TOKEN := Some "secret" |}
       "2026-01-01T00:00:00.000Z"
       {| Http.method := "GET"; Http.url := "/health"; Http.authorization := None;
          Http.body := JUndefined |}
       Http.incoming) = [].
Proof.
  apply (only_post_is_authenticated
           {| Http.N8N_MCP_AUTH_TOKEN := None; Http.AUTH_TOKEN := Some "secret" |}
           "2026-01-01T00:00:00.000Z"
           {| Http.method := "GET"; Http.url := "/health"; Http.authorization := None;
              Http.body := JUndefined |}
           Http.incoming).
  discriminate.
Defined.

(** X18.  For a POST request the dispatcher is entered exactly when the
    request is authorized, that is when its [Authorization] header starts
    with 'Bearer ' and the rest of it, trimmed, is the token of the
    environment; and then it is entered whatever the body is. *)
Theorem dispatcher_entered_iff_authorized (env : Http.environment) (now : string)
    (req : Http.request) :
  Http.method req = "POST" ->
  (In "handleMCPRequest"
      (Http.entered (Http.module_exports env now req Http.incoming))
   <-> exists header,
         Http.authorization req = Some header
         /\ startsWith header "Bearer " = true
         /\ Http.AUTH_TOKEN env = Some (trim (slice header 7))).
Proof.
  intros Hmethod.
  destruct (module_exports_effect env now req Http.incoming) as (_ & _ & _ & _ & _ & Hpost).
  cbv zeta in Hpost. rewrite (Hpost Hmethod), <- validateAuth_true.
  destruct (Http.validateAuth env req); cbn; split; intros H; auto; try discriminate.
  destruct H as [H|[]]. discriminate.
Qed.

Lemma dispatcher_entered_iff_authorized_witness :
  In "handleMCPRequest"
     (Http.entered
        (Http.module_exports
           {| Http.N8N_MCP_AUTH_TOKEN := None; Http.AUTH_TOKEN := Some "secret" |}
           "2026-01-01T00:00:00.000Z"
           {| Http.method := "POST"; Http.url := "/";
              Http.authorization := Some "Bearer secret"; Http.body := JUndefined |}
           Http.incoming)).
Proof.
  apply (dispatcher_entered_iff_authorized
           {| Http.N8N_MCP_AUTH_TOKEN := None; Http.AUTH_TOKEN := Some "secret" |}
           "2026-01-01T00:00:00.000Z"
           {| Http.method := "POST"; Http.url := "/";
              Http.authorization := Some "Bearer secret"; Http.body := JUndefined |}
           eq_refl).
  exists "Bearer secret". repeat split; reflexivity.
Defined.

(** X19.  An authorized POST request without a body (or with the body
    [null]) is answered with status 500 and the 'Internal server error'
    object: the dispatcher throws on reading the envelope, the handler
    catches the exception, calls [console.error] once, with the text
    'API handler error:' and the exception object, and sends the message
    of that exception in the response. *)
Theorem authorized_post_without_body_is_500 (env : Http.environment) (now : string)
    (req : Http.request) (x : Http.exchange) :
  Http.method req = "POST" ->
  Http.validateAuth env req = true ->
  nullish (Http.body req) = true ->
  Http.sent (Http.res x) = Http.Nothing ->
  let x' := Http.module_exports env now req x in
  exists error,
    Http.statusCode (Http.res x') = 500
    /\ Http.sent (Http.res x') =
         Http.Json
           (JObj [ ("error", JStr "Internal server error");
                   ("message", JStr (message_of error));
                   ("timestamp", JStr now) ])
    /\ Http.stderr x' = (Http.stderr x ++ [("API handler error:", error)])%list
    /\ Http.entered x' = (Http.entered x ++ ["validateAuth"; "handleMCPRequest"])%list.
Proof.
  intros Hmethod Hauth Hbody Hsent.
  assert (Hthrow : forall y,
             Http.handleMCPRequest req y =
             (Threw (TypeError "Cannot read property jsonrpc of undefined or null"),
              snd (Http.enter "handleMCPRequest" y))).
  { intros y. unfold Http.handleMCPRequest. rewrite enter_then.
    unfold mbind, lift, get. now rewrite Hbody. }
  cbv zeta. unfold Http.module_exports, Http.try_block.
  rewrite !setHeader_then, Hmethod. cbn [String.eqb Ascii.eqb Bool.eqb andb].
  rewrite enter_then, Hauth. cbn [negb]. rewrite Hthrow.
  cbn. rewrite Hsent. cbn.
  exists (TypeError "Cannot read property jsonrpc of undefined or null").
  repeat split. now rewrite <- app_assoc.
Qed.

Lemma authorized_post_without_body_is_500_witness :
  Http.statusCode
    (Http.res
       (Http.module_exports
          {| Http.N8N_MCP_AUTH_TOKEN := None; Http.AUTH_TOKEN := Some "secret" |}
          "2026-01-01T00:00:00.000Z"
          {| Http.method := "POST"; Http.url := "/";
             Http.authorization := Some "Bearer secret"; Http.body := JUndefined |}
          Http.incoming)) = 500.
Proof.
  destruct (authorized_post_without_body_is_500
              {| Http.N8N_MCP_AUTH_TOKEN := None; Http.AUTH_TOKEN := Some "secret" |}
              "2026-01-01T00:00:00.000Z"
              {| Http.method := "POST"; Http.url := "/";
                 Http.authorization := Some "Bearer secret"; Http.body := JUndefined |}
              Http.incoming eq_refl eq_refl eq_refl eq_refl) as (error & Hstatus & _).
  exact Hstatus.
Defined.

(** X20.  Over HTTP a notification, a message with a valid envelope and no
    [id], is acknowledged with status 200 and an empty response, whatever
    its method is; no JSON-RPC object is sent. *)
Theorem http_notification_acknowledged (req : Http.request) (x : Http.exchange) :
  opt_get (Http.body req) "jsonrpc" = JStr "2.0" ->
  opt_get (Http.body req) "id" = JUndefined ->
  Http.handleMCPRequest req x =
    (Returned tt,
     {| Http.res := {| Http.statusCode := 200;
                       Http.headers := Http.headers (Http.res x);
                       Http.sent := Http.Ended |};
        Http.mcpServer := Http.mcpServer x;
        Http.entered := Http.entered x ++ ["handleMCPRequest"];
        Http.stderr := Http.stderr x |}).
Proof.
  intros Hrpc Hid.
  assert (Hobj : nullish (Http.body req) = false).
  { apply (opt_get_defined_not_nullish _ "jsonrpc"). rewrite Hrpc. discriminate. }
  unfold Http.handleMCPRequest, mbind, lift. cbn [Http.enter].
  rewrite !get_opt_get by assumption. rewrite Hrpc, Hid.
  cbn [truthy negb orb is_string String.eqb Ascii.eqb Bool.eqb is_undefined].
  destruct (is_string (opt_get (Http.body req) "method") "notifications/initialized");
    reflexivity.
Qed.

Lemma http_notification_acknowledged_witness :
  Http.sent
    (Http.res
       (snd (Http.handleMCPRequest
               {| Http.method := "POST"; Http.url := "/"; Http.authorization := None;
                  Http.body := JObj [ ("jsonrpc", JStr "2.0");
                                      ("method", JStr "notifications/initialized") ] |}
               Http.incoming))) = Http.Ended.
Proof.
  rewrite (http_notification_acknowledged
             {| Http.method := "POST"; Http.url := "/"; Http.authorization := None;
                Http.body := JObj [ ("jsonrpc", JStr "2.0");
                                    ("method", JStr "notifications/initialized") ] |}
             Http.incoming eq_refl eq_refl).
  reflexivity.
Defined.

(** X21.  Over HTTP, [tools/list] answers with the tool table of the
    server object as it is; the table the constructor builds holds three
    descriptors, which are the first three of the eight of the stdio
    server. *)
Theorem http_tools_list (req : Http.request) (x : Http.exchange) :
  opt_get (Http.body req) "jsonrpc" = JStr "2.0" ->
  opt_get (Http.body req) "method" = JStr "tools/list" ->
  opt_get (Http.body req) "id" <> JUndefined ->
  Http.handleMCPRequest req x =
    (Returned tt,
     {| Http.res :=
          {| Http.statusCode := Http.statusCode (Http.res x);
             Http.headers := Http.headers (Http.res x);
             Http.sent :=
               Http.Json
                 (JObj [ ("jsonrpc", JStr "2.0");
                         ("result", JObj [("tools", Http.tools (Http.mcpServer x))]);
                         ("id", opt_get (Http.body req) "id") ]) |};
        Http.mcpServer := Http.mcpServer x;
        Http.entered := Http.entered x ++ ["handleMCPRequest"];
        Http.stderr := Http.stderr x |})
  /\ exists descriptors,
       Stdio.constructor_tools = JArr descriptors
       /\ Http.tools Http.constructor = JArr (firstn 3 descriptors)
       /\ List.length (firstn 3 descriptors) = 3.
Proof.
  intros Hrpc Hmethod Hid. split.
  - assert (Hobj : nullish (Http.body req) = false).
    { apply (opt_get_defined_not_nullish _ "jsonrpc"). rewrite Hrpc. discriminate. }
    assert (Hdef : is_undefined (opt_get (Http.body req) "id") = false).
    { destruct (opt_get (Http.body req) "id"); try reflexivity. now contradiction Hid. }
    unfold Http.handleMCPRequest, mbind, lift. cbn [Http.enter].
    rewrite !get_opt_get by assumption. rewrite Hrpc, Hmethod, Hdef.
    reflexivity.
  - eexists. split; [reflexivity|]. split; reflexivity.
Qed.

Lemma http_tools_list_witness :
  Http.sent
    (Http.res
       (snd (Http.handleMCPRequest
               {| Http.method := "POST"; Http.url := "/"; Http.authorization := None;
                  Http.body := JObj [ ("jsonrpc", JStr "2.0");
                                      ("method", JStr "tools/list"); ("id", int 1) ] |}
               Http.incoming))) =
  Http.Json
    (JObj [ ("jsonrpc", JStr "2.0");
            ("result", JObj [("tools", Http.constructor_tools)]);
            ("id", int 1) ]).
Proof.
  destruct (http_tools_list
              {| Http.method := "POST"; Http.url := "/"; Http.authorization := None;
                 Http.body := JObj [ ("jsonrpc", JStr "2.0");
                                     ("method", JStr "tools/list"); ("id", int 1) ] |}
              Http.incoming eq_refl eq_refl ltac:(discriminate)) as [Hrun _].
  rewrite Hrun. reflexivity.
Defined.

(** ** Trimming and the token *)

Lemma append_empty (s : string) : s ++ "" = s.
Proof. induction s as [|c s IH]; cbn; [reflexivity|now rewrite IH]. Qed.

Lemma length_append (a b : string) :
  String.length (a ++ b) = String.length a + String.length b.
Proof. induction a as [|x a IH]; cbn; [reflexivity|now rewrite IH]. Qed.

Lemma string_rev_append (a b : string) :
  string_rev (a ++ b) = string_rev b ++ string_rev a.
Proof.
  induction a as [|x a IH]; cbn.
  - now rewrite append_empty.
  - now rewrite IH, append_associative.
Qed.

Lemma string_rev_involutive (s : string) : string_rev (string_rev s) = s.
Proof.
  induction s as [|c s IH]; cbn; [reflexivity|].
  now rewrite string_rev_append, IH.
Qed.

Lemma string_rev_length (s : string) : String.length (string_rev s) = String.length s.
Proof.
  induction s as [|c s IH]; cbn; [reflexivity|].
  rewrite length_append, IH. cbn. now rewrite Nat.add_comm.
Qed.

Lemma prefix_append (a b : string) : String.prefix a (a ++ b) = true.
Proof.
  induction a as [|c a IH]; cbn; [now destruct b|].
  destruct (ascii_dec c c); [assumption|contradiction].
Qed.

Lemma prefix_split (a s : string) :
  String.prefix a s = true -> s = a ++ string_drop (String.length a) s.
Proof.
  revert s. induction a as [|c a IH]; intros s H; [reflexivity|].
  destruct s as [|d s]; cbn in H; [discriminate|].
  destruct (ascii_dec c d) as [->|]; [|discriminate].
  cbn. f_equal. now apply IH.
Qed.

Lemma prefix_weaken (w a b : string) :
  String.prefix w a = true -> String.prefix w (a ++ b) = true.
Proof.
  intros H. rewrite (prefix_split _ _ H), append_associative. apply prefix_append.
Qed.

Lemma leading_some (ws : list string) (s : string) (n : nat) :
  leading ws s = Some n ->
  exists w, In w ws /\ String.prefix w s = true /\ n = String.length w.
Proof.
  unfold leading. destruct (find _ ws) as [w|] eqn:E; [|discriminate].
  intros [= <-]. apply find_some in E as [Hin Hprefix]. now exists w.
Qed.

Lemma leading_none (ws : list string) (s w : string) :
  leading ws s = None -> In w ws -> String.prefix w s = false.
Proof.
  unfold leading. destruct (find _ ws) as [w'|] eqn:E; [discriminate|].
  intros _ Hin. exact (find_none _ _ E w Hin).
Qed.

Lemma strip_suffix (fuel : nat) (ws : list string) (s : string) :
  exists before, s = before ++ strip fuel ws s.
Proof.
  revert s. induction fuel as [|fuel IH]; intros s; [now exists ""|].
  cbn [strip]. destruct (leading ws s) as [n|] eqn:E; [|now exists ""].
  apply leading_some in E as (w & _ & Hprefix & ->).
  destruct (IH (string_drop (String.length w) s)) as [before Hbefore].
  exists (w ++ before). rewrite append_associative, <- Hbefore.
  now apply prefix_split.
Qed.

Lemma strip_no_leading (fuel : nat) (ws : list string) (s : string) :
  (forall w, In w ws -> w <> "") ->
  String.length s <= fuel ->
  leading ws (strip fuel ws s) = None.
Proof.
  intros Hws. revert s. induction fuel as [|fuel IH]; intros s Hlen.
  - cbn [strip]. destruct s; [|cbn in Hlen; inversion Hlen].
    destruct (leading ws "") as [n|] eqn:E; [|reflexivity].
    apply leading_some in E as (w & Hin & Hprefix & _).
    destruct w; [now contradiction (Hws _ Hin)|discriminate].
  - cbn [strip]. destruct (leading ws s) as [n|] eqn:E; [|assumption].
    apply IH. apply leading_some in E as (w & Hin & Hprefix & ->).
    pose proof (f_equal String.length (prefix_split _ _ Hprefix)) as Hsplit.
    rewrite length_append in Hsplit.
    assert (Hpos : 1 <= String.length w).
    { destruct w; [now contradiction (Hws _ Hin)|cbn; apply le_n_S, Nat.le_0_l]. }
    apply Nat.succ_le_mono. rewrite Hsplit in Hlen.
    eapply Nat.le_trans; [|exact Hlen].
    rewrite <- Nat.add_1_l. now apply Nat.add_le_mono_r.
Qed.

Lemma whitespace_nonempty (w : string) : In w whitespace -> w <> "".
Proof.
  intros Hin ->. revert Hin. cbn. intros H.
  repeat destruct H as [H|H]; try discriminate H. exact H.
Qed.

Lemma reversed_whitespace_nonempty (w : string) :
  In w (map string_rev whitespace) -> w <> "".
Proof.
  intros Hin ->. revert Hin. cbn. intros H.
  repeat destruct H as [H|H]; try discriminate H. exact H.
Qed.

(** What [trim] returns neither starts nor ends with white space. *)
Lemma trim_is_trimmed (s w : string) :
  In w whitespace ->
  String.prefix w (trim s) = false
  /\ String.prefix (string_rev w) (string_rev (trim s)) = false.
Proof.
  intros Hin. unfold trim, trimEnd. split.
  - set (u := trimStart s).
    destruct (strip_suffix (String.length u) (map string_rev whitespace) (string_rev u))
      as [before Hbefore].
    set (kept := strip _ _ _) in *.
    assert (Hu : u = string_rev kept ++ string_rev before).
    { rewrite <- (string_rev_involutive u), Hbefore. apply string_rev_append. }
    destruct (String.prefix w (string_rev kept)) eqn:E; [|reflexivity].
    apply (prefix_weaken _ _ (string_rev before)) in E. rewrite <- Hu in E.
    assert (Hnone : leading whitespace u = None).
    { apply strip_no_leading; [apply whitespace_nonempty|apply Nat.le_refl]. }
    now rewrite (leading_none _ _ _ Hnone Hin) in E.
  - rewrite string_rev_involutive.
    apply (leading_none (map string_rev whitespace)); [|now apply in_map].
    apply strip_no_leading; [apply reversed_whitespace_nonempty|].
    now rewrite string_rev_length.
Qed.

(** X22.  The token of a header is trimmed before it is compared, the
    configured token is not: when the token of the environment starts or
    ends with a white-space character (a trailing newline, say), no
    [Authorization] header matches it, and every POST request is rejected. *)
Theorem untrimmed_token_never_matches (env : Http.environment) (req : Http.request)
    (w rest : string) :
  In w whitespace ->
  Http.AUTH_TOKEN env = Some (w ++ rest) \/ Http.AUTH_TOKEN env = Some (rest ++ w) ->
  Http.validateAuth env req = false
  /\ (Http.method req = "POST" ->
      forall now x,
        Http.statusCode (Http.res (Http.module_exports env now req x)) = 401).
Proof.
  intros Hin Htoken.
  assert (Hvalid : Http.validateAuth env req = false);
    [|split; [assumption|];
      intros Hmethod now x; unfold Http.module_exports, Http.try_block;
      rewrite !setHeader_then, Hmethod, Hvalid; reflexivity].
  destruct (Http.validateAuth env req) eqn:E; [|reflexivity].
  apply validateAuth_true in E as (header & _ & _ & Hmatch).
  destruct (trim_is_trimmed (slice header 7) w Hin) as [Hstart Hend].
  destruct Htoken as [Htoken|Htoken].
  - assert (Heq : trim (slice header 7) = w ++ rest) by congruence.
    rewrite Heq in Hstart. now rewrite prefix_append in Hstart.
  - assert (Heq : trim (slice header 7) = rest ++ w) by congruence.
    rewrite Heq in Hend. now rewrite string_rev_append, prefix_append in Hend.
Qed.

Lemma untrimmed_token_never_matches_witness :
  Http.validateAuth
    {| Http.N8N_MCP_AUTH_TOKEN := None; Http.AUTH_TOKEN := Some ("secret" ++ newline) |}
    {| Http.method := "POST"; Http.url := "/";
       Http.authorization := Some ("Bearer secret" ++ newline);
       Http.body := JUndefined |} = false.
Proof.
  apply (untrimmed_token_never_matches _ _ newline "secret").
  - cbn. tauto.
  - right. reflexivity.
Defined.

Lemma strip_nothing (fuel : nat) (ws : list string) (s : string) :
  leading ws s = None -> strip fuel ws s = s.
Proof. intros H. destruct fuel; cbn [strip]; [reflexivity|now rewrite H]. Qed.

Lemma trim_trimmed (s : string) : trimmed s = true -> trim s = s.
Proof.
  unfold trimmed.
  destruct (leading whitespace s) eqn:Hstart; [discriminate|].
  destruct (leading (map string_rev whitespace) (string_rev s)) eqn:Hend; [discriminate|].
  intros _. unfold trim, trimStart. rewrite (strip_nothing _ _ _ Hstart).
  unfold trimEnd. rewrite (strip_nothing _ _ _ Hend). apply string_rev_involutive.
Qed.

(** X23.  A non-empty [N8N_MCP_AUTH_TOKEN] is the token that counts once
    the module is loaded, whatever [AUTH_TOKEN] held before: when it
    neither starts nor ends with white space, the header 'Bearer '
    followed by it is accepted. *)
Theorem n8n_token_overrides (env : Http.environment) (req : Http.request)
    (token : string) :
  Http.N8N_MCP_AUTH_TOKEN env = Some token ->
  token <> "" ->
  trimmed token = true ->
  Http.authorization req = Some ("Bearer " ++ token) ->
  Http.AUTH_TOKEN (Http.load env) = Some token
  /\ Http.validateAuth (Http.load env) req = true.
Proof.
  intros Hn8n Hne Htrimmed Hheader.
  assert (Hload : Http.AUTH_TOKEN (Http.load env) = Some token).
  { unfold Http.load. rewrite Hn8n, (truthy_string _ Hne). reflexivity. }
  split; [assumption|].
  apply validateAuth_true. exists ("Bearer " ++ token).
  split; [assumption|]. split; [apply prefix_append|].
  rewrite Hload. cbn [slice string_drop append]. now rewrite trim_trimmed.
Qed.

Lemma n8n_token_overrides_witness :
  Http.validateAuth
    (Http.load {| Http.N8N_MCP_AUTH_TOKEN := Some "secret";
                  Http.AUTH_TOKEN := Some "old" |})
    {| Http.method := "POST"; Http.url := "/";
       Http.authorization := Some "Bearer secret";
       Http.body := JUndefined |} = true.
Proof.
  apply (n8n_token_overrides
           {| Http.N8N_MCP_AUTH_TOKEN := Some "secret"; Http.AUTH_TOKEN := Some "old" |}
           {| Http.method := "POST"; Http.url := "/";
              Http.authorization := Some "Bearer secret";
              Http.body := JUndefined |}
           "secret" eq_refl ltac:(discriminate) eq_refl eq_refl).
Defined.

(** ** [create_test_workflow], the known types *)

Ltac created name :=
  unfold mbind, lift, ret;
  cbn [or_else truthy negb String.eqb Ascii.eqb Bool.eqb ToString];
  set (w := literal_get _ _);
  let Hw := fresh in
  assert (Hw : truthy w = true) by reflexivity; rewrite Hw; cbn [negb];
  let Hn := fresh in
  assert (Hn : opt_get w "name" = JStr name) by reflexivity; rewrite Hn; cbn [ToString];
  let Hl := fresh in let n := fresh in
  assert (Hl : exists n, bind (get_length (opt_get w "nodes")) ToString = Returned n)
    by (eexists; reflexivity);
  destruct Hl as [n Hl]; rewrite Hl;
  let Hk := fresh in let keys := fresh in
  assert (Hk : exists keys, Object_keys (opt_get w "connections") = Returned keys)
    by (eexists; reflexivity);
  destruct Hk as [keys Hk]; rewrite Hk;
  let Hj := fresh in let t := fresh in
  assert (Hj : exists t, JSON_stringify w = JStr t) by (eexists; reflexivity);
  destruct Hj as [t Hj]; rewrite Hj; cbn [ToString];
  eexists; reflexivity.

(** X24.  For each of the five known workflow types, and a custom name that
    is a non-empty string or is absent (or falsy), [create_test_workflow]
    answers with a result, not an error; its text opens with the name of
    the workflow, which is the custom name when there is one and
    'Test Workflow - ' followed by the type otherwise. *)
Theorem known_workflow_type_created (args id : json) (workflowType name : string)
    (p : Stdio.process) :
  opt_get args "workflowType" = JStr workflowType ->
  In workflowType known_workflow_types ->
  (opt_get args "customName" = JStr name /\ name <> "")
  \/ (truthy (opt_get args "customName") = false
      /\ name = "Test Workflow - " ++ workflowType) ->
  exists rest,
    Stdio.handleCreateTestWorkflow args id p =
      (Returned tt,
       {| Stdio.this := Stdio.this p;
          Stdio.stdout :=
            Stdio.stdout p ++
            [ Stdio.result_message
                (Stdio.text_content
                   ("âœ… Created test workflow: " ++ dquote ++ name ++ dquote ++
                    newline ++ newline ++
                    "**Workflow Type:** " ++ workflowType ++ newline ++ rest))
                id ];
          Stdio.stderr := Stdio.stderr p |}).
Proof.
  intros Htype Hin Hname.
  unfold Stdio.handleCreateTestWorkflow. rewrite Htype.
  destruct Hname as [[Hcustom Hne]|[Hfalsy ->]].
  - rewrite Hcustom, (truthy_string _ Hne).
    cbn in Hin. repeat destruct Hin as [<-|Hin]; try contradiction; created name.
  - rewrite Hfalsy.
    cbn in Hin. repeat destruct Hin as [<-|Hin]; try contradiction.
    + created "Test Workflow - webhook_to_slack".
    + created "Test Workflow - manual_to_http".
    + created "Test Workflow - schedule_to_email".
    + created "Test Workflow - ai_agent".
    + created "Test Workflow - data_processing".
Qed.

Lemma known_workflow_type_created_witness :
  exists rest,
    Stdio.handleCreateTestWorkflow
      (JObj [("workflowType", JStr "ai_agent"); ("customName", JStr "Bot")])
      (int 1) Stdio.start =
      (Returned tt,
       {| Stdio.this := Stdio.constructor;
          Stdio.stdout :=
            [ Stdio.result_message
                (Stdio.text_content
                   ("âœ… Created test workflow: " ++ dquote ++ "Bot" ++ dquote ++
                    newline ++ newline ++
                    "**Workflow Type:** " ++ "ai_agent" ++ newline ++ rest))
                (int 1) ];
          Stdio.stderr := [] |}).
Proof.
  apply (known_workflow_type_created
           (JObj [("workflowType", JStr "ai_agent"); ("customName", JStr "Bot")])
           (int 1) "ai_agent" "Bot" Stdio.start eq_refl).
  - cbn. tauto.
  - left. split; [reflexivity|discriminate].
Defined.
